(** * IFA Portfolio Architect: the proposal pipeline, the ledgers and the slide shaping

    A shallow embedding of the TypeScript sources
      - [services/geminiService.ts] (the agent-polling service) and its
        search-based revision (the second service file of the sources),
      - [components/InputSection.tsx] (holdings ledger, settings, import merge),
      - [components/RebalanceSection.tsx] (proposed-assets ledger),
      - [components/SlideEditor.tsx] and [components/slides/SlideRenderer.tsx],
      - [App.tsx] (the three steps) and [utils/pptxExport.ts] (the export),
    followed by the properties of the specification that were checked on it
    and by further properties of the code.

    Conventions of the embedding.
      - A JavaScript string is the list of its UTF-16 code units.
      - A JavaScript number is [NaN], an infinity or the rational value of a
        finite double; every arithmetic operation and [parseFloat] round
        their exact result to the nearest double, ties to even, and
        overflow to an infinity.  The sign of zero is not represented (the
        one division of the program is guarded by [> 0]).
      - [JSON.parse(text) as PresentationData] is not checked in the
        sources: the value is a document or any other JSON value ([Cast]).
        The value parsed for an import is told apart as far as
        [processFile] does ([PortfolioDocument.Parsed]); the value parsed
        for the recommendations is read at the type of the prompt's format.
      - An optional field is an [option]; [undefined] is [None].
      - An [async] function is a state transformer over the [World] of the
        external calls it awaits; [throw] is the [Threw] outcome. *)

From Stdlib Require Import ZArith NArith QArith Qcanon Ascii String List Bool Lia.
From Stdlib Require Import DecimalString DecimalN.
From stdpp Require Import gmap.
Import ListNotations.

Local Open Scope N_scope.

(* ===================================================================== *)
(** ** JavaScript strings and numbers *)
(* ===================================================================== *)

Module JS.

Definition jsstring := list N.

(** An ASCII literal of the source. *)
Definition lit (s : string) : jsstring := map N_of_ascii (list_ascii_of_string s).

(** A character literal of the source. *)
Definition ch (a : ascii) : N := N_of_ascii a.

(** [s === t] on strings. *)
Fixpoint eqb (s t : jsstring) : bool :=
  match s, t with
  | [], [] => true
  | c :: s', d :: t' => (c =? d) && eqb s' t'
  | _, _ => false
  end.

(** [s.startsWith(p)] *)
Fixpoint startsWith (s p : jsstring) : bool :=
  match p, s with
  | [], _ => true
  | c :: p', d :: s' => (c =? d) && startsWith s' p'
  | _ :: _, [] => false
  end.

(** [s.includes(sub)] *)
Fixpoint includes (s sub : jsstring) : bool :=
  startsWith s sub ||
  match s with
  | [] => false
  | _ :: s' => includes s' sub
  end.

(** [s.toLowerCase()] on the letters A-Z; code units outside that range
    are left as they are. *)
Definition lowerUnit (c : N) : N :=
  if (65 <=? c) && (c <=? 90) then c + 32 else c.
Definition toLowerCase (s : jsstring) : jsstring := map lowerUnit s.

(** Truthiness of a string: the empty string is falsy. *)
Definition truthy (s : jsstring) : bool :=
  match s with [] => false | _ :: _ => true end.

(** Truthiness of an optional string ([undefined] is falsy). *)
Definition truthyOpt (o : option jsstring) : bool :=
  match o with Some s => truthy s | None => false end.

(** [a || b] on strings. *)
Definition orElse (a b : jsstring) : jsstring := if truthy a then a else b.

(** [a || b] where [a] may be [undefined]. *)
Definition orElseOpt (a : option jsstring) (b : jsstring) : jsstring :=
  match a with Some s => orElse s b | None => b end.

(** [String.fromCharCode(n)]: the code unit [n] modulo 2^16. *)
Definition fromCharCode (n : Z) : N := Z.to_N (n mod 65536).

(** [n.toString()] and template-literal rendering of a non-negative integer. *)
Definition showN (n : N) : jsstring := lit (NilZero.string_of_uint (N.to_uint n)).

(** *** Numbers *)

Inductive number : Type :=
| NaN
| Infinity (negative : bool)
| Num (q : Qc).

Definition ofZ (z : Z) : number := Num (Q2Qc (inject_Z z)).

Definition Qcltb (a b : Qc) : bool :=
  match (a ?= b)%Qc with Lt => true | _ => false end.

Definition Qc_is_zero (a : Qc) : bool := Qc_eq_bool a 0%Qc.

Definition isNaN (x : number) : bool :=
  match x with NaN => true | _ => false end.

Definition isFinite (x : number) : bool :=
  match x with Num _ => true | _ => false end.

(** Truthiness of a number: [0] and [NaN] are falsy. *)
Definition truthyNum (x : number) : bool :=
  match x with
  | NaN => false
  | Infinity _ => true
  | Num q => negb (Qc_is_zero q)
  end.

(** [x || 0] *)
Definition orZero (x : number) : number := if truthyNum x then x else ofZ 0.

(** [x || 0] where [x] may be [undefined]. *)
Definition orZeroOpt (x : option number) : number :=
  match x with Some v => orZero v | None => ofZ 0 end.

Definition neg (x : number) : number :=
  match x with
  | NaN => NaN
  | Infinity s => Infinity (negb s)
  | Num q => Num (- q)%Qc
  end.

(** *** Rounding to a double *)

(** [floor (log2 (n / d))] for positive [n] and [d]. *)
Definition floorLog2 (n d : Z) : Z :=
  let e0 := (Z.log2 n - Z.log2 d)%Z in
  if (d * 2 ^ Z.max e0 0 <=? n * 2 ^ Z.max (- e0) 0)%Z then e0 else (e0 - 1)%Z.

(** The integer nearest to [p / r], ties to the even one, for [0 < r]. *)
Definition roundHalfEven (p r : Z) : Z :=
  let f := (p / r)%Z in
  match (2 * (p mod r) ?= r)%Z with
  | Lt => f
  | Gt => (f + 1)%Z
  | Eq => if Z.even f then f else (f + 1)%Z
  end.

(** The double nearest to the rational [q] (binary64: 53 bits of
    significand, the smallest spacing [2^-1074]); a result of magnitude
    [2^1024] or more is an infinity. *)
Definition round (q : Qc) : number :=
  let n := Qnum q in
  let d := Zpos (Qden q) in
  if (n =? 0)%Z then Num q
  else
    let a := Z.abs n in
    let s := Z.max (floorLog2 a d - 52) (-1074) in
    let k := roundHalfEven (a * 2 ^ Z.max (- s) 0)%Z (d * 2 ^ Z.max s 0)%Z in
    if (0 <=? s)%Z && (2 ^ 1024 <=? k * 2 ^ s)%Z then Infinity (n <? 0)%Z
    else
      let v := if (0 <=? s)%Z then Q2Qc (inject_Z (k * 2 ^ s))
               else Q2Qc (Qmake k (Z.to_pos (2 ^ (- s)))) in
      Num (if (n <? 0)%Z then (- v)%Qc else v).

(** *** Arithmetic *)

(** [x + y] *)
Definition add (x y : number) : number :=
  match x, y with
  | NaN, _ | _, NaN => NaN
  | Infinity s, Infinity t => if Bool.eqb s t then Infinity s else NaN
  | Infinity s, Num _ | Num _, Infinity s => Infinity s
  | Num a, Num b => round (a + b)%Qc
  end.

(** [x - y] *)
Definition sub (x y : number) : number := add x (neg y).

(** [x * y] *)
Definition mul (x y : number) : number :=
  match x, y with
  | NaN, _ | _, NaN => NaN
  | Infinity s, Infinity t => Infinity (xorb s t)
  | Infinity s, Num q | Num q, Infinity s =>
      if Qc_is_zero q then NaN else Infinity (xorb s (Qcltb q 0%Qc))
  | Num a, Num b => round (a * b)%Qc
  end.

(** [x / y] *)
Definition div (x y : number) : number :=
  match x, y with
  | NaN, _ | _, NaN => NaN
  | Infinity _, Infinity _ => NaN
  | Infinity s, Num q => Infinity (xorb s (Qcltb q 0%Qc))
  | Num _, Infinity _ => ofZ 0
  | Num a, Num b =>
      if Qc_is_zero b
      then (if Qc_is_zero a then NaN else Infinity (Qcltb a 0%Qc))
      else round (a / b)%Qc
  end.

(** [x > y] *)
Definition gt (x y : number) : bool :=
  match x, y with
  | NaN, _ | _, NaN => false
  | Infinity s, Infinity t => negb s && t
  | Infinity s, Num _ => negb s
  | Num _, Infinity t => t
  | Num a, Num b => Qcltb b a
  end.

(** *** [parseFloat] *)

Definition isDigit (c : N) : bool := (48 <=? c) && (c <=? 57).
Definition digitValue (c : N) : N := c - 48.

(** The longest run of decimal digits at the head of [s], as digit values,
    and what follows it. *)
Fixpoint takeDigits (s : jsstring) : list N * jsstring :=
  match s with
  | c :: s' =>
      if isDigit c
      then let '(ds, r) := takeDigits s' in (digitValue c :: ds, r)
      else ([], s)
  | [] => ([], [])
  end.

Definition decimalValue (ds : list N) : N :=
  fold_left (fun acc d => 10 * acc + d) ds 0.

(** White space and line terminators skipped by [parseFloat]. *)
Definition isWhiteSpace (c : N) : bool :=
  existsb (N.eqb c)
    [9; 10; 11; 12; 13; 32; 160; 0x1680; 0x2028; 0x2029; 0x202F; 0x205F; 0x3000; 0xFEFF]
  || ((0x2000 <=? c) && (c <=? 0x200A)).

Fixpoint trimStart (s : jsstring) : jsstring :=
  match s with
  | c :: s' => if isWhiteSpace c then trimStart s' else s
  | [] => []
  end.

(** The value of an exponent part [e±ddd] at the head of [s]; [0] when
    there is none (an [e] that no digit follows belongs to the rest). *)
Definition parseExponent (s : jsstring) : Z :=
  match s with
  | c :: r =>
      if (c =? ch "e") || (c =? ch "E") then
        let '(negative, r1) :=
          match r with
          | s0 :: r' =>
              if s0 =? ch "-" then (true, r')
              else if s0 =? ch "+" then (false, r')
              else (false, r)
          | [] => (false, r)
          end in
        match fst (takeDigits r1) with
        | [] => 0%Z
        | ds => if negative then (- Z.of_N (decimalValue ds))%Z
                else Z.of_N (decimalValue ds)
        end
      else 0%Z
  | [] => 0%Z
  end.

(** [m * 10^e] *)
Definition scale (m : N) (e : Z) : Qc :=
  if (0 <=? e)%Z
  then Q2Qc (inject_Z (Z.of_N m * 10 ^ e))
  else Q2Qc (Z.of_N m # Z.to_pos (10 ^ (- e))).

(** [parseFloat(s)]: leading white space is skipped, then the longest
    prefix that is a decimal literal (sign, [Infinity] or digits with an
    optional fraction and exponent) is read, and its value is rounded to
    the nearest double; [NaN] when there is none. *)
Definition parseFloat (s : jsstring) : number :=
  let t := trimStart s in
  let '(negative, u) :=
    match t with
    | c :: r =>
        if c =? ch "-" then (true, r)
        else if c =? ch "+" then (false, r)
        else (false, t)
    | [] => (false, t)
    end in
  if startsWith u (lit "Infinity") then Infinity negative
  else
    let '(ip, r1) := takeDigits u in
    let '(fp, r2) :=
      match r1 with
      | c :: r => if c =? ch "." then takeDigits r else ([], r1)
      | [] => ([], r1)
      end in
    match ip ++ fp with
    | [] => NaN
    | ds =>
        let v := scale (decimalValue ds)
                   (parseExponent r2 - Z.of_nat (List.length fp)) in
        round (if negative then (- v)%Qc else v)
    end.

(** *** Trimming, anchored replacement and [Math.max] *)

(** [s.trimEnd()] and [s.trim()]: white space and line terminators are
    removed at the end, and at both ends. *)
Definition trimEnd (s : jsstring) : jsstring := rev (trimStart (rev s)).
Definition trim (s : jsstring) : jsstring := trimEnd (trimStart s).

(** [s.endsWith(p)] *)
Definition endsWith (s p : jsstring) : bool := startsWith (rev s) (rev p).

(** [s.replace(/^p/, "")] for a regular expression that is the literal [p]
    anchored at the start. *)
Definition replaceStart (p s : jsstring) : jsstring :=
  if startsWith s p then skipn (List.length p) s else s.

(** [s.replace(/p$/, "")] for the literal [p] anchored at the end. *)
Definition replaceEnd (p s : jsstring) : jsstring :=
  if endsWith s p then firstn (List.length s - List.length p)%nat s else s.

(** [Math.max(x, y)] *)
Definition Math_max (x y : number) : number :=
  match x, y with
  | NaN, _ | _, NaN => NaN
  | _, _ => if gt y x then y else x
  end.

End JS.

Import JS.

(* ===================================================================== *)
(** ** The data model ([types.ts]) *)
(* ===================================================================== *)

(** [Asset['analysisScores']] *)
Module Scores.
Record t : Type := mk {
  suitability : number;
  market : number;
  growth : number;
  valuation : number;
  risk : number
}.
End Scores.

(** The fields of [Asset] that no handler of the sources writes. *)
Module Fundamentals.
Record t : Type := mk {
  ticker : option jsstring;
  currentPrice : option number;
  allocation : option number;
  per : option number;
  pbr : option number;
  revenueGrowth : option number;
  grossMargin : option number;
  operatingMargin : option number;
  analysisScores : option Scores.t
}.
Definition none : t := mk None None None None None None None None None.
End Fundamentals.

(** [interface Asset] *)
Module Asset.
Record t : Type := mk {
  id : jsstring;
  name : jsstring;
  code : option jsstring;
  type : jsstring;
  amount : number;
  quantity : option number;
  profitLoss : option number;
  currency : jsstring;
  confidence : option number;
  description : option jsstring;
  fundamentals : Fundamentals.t
}.

(** [{ ...a, id: v }] and the like. *)
Definition with_id (v : jsstring) (a : t) : t :=
  mk v (name a) (code a) (type a) (amount a) (quantity a) (profitLoss a)
     (currency a) (confidence a) (description a) (fundamentals a).
Definition with_name (v : jsstring) (a : t) : t :=
  mk (id a) v (code a) (type a) (amount a) (quantity a) (profitLoss a)
     (currency a) (confidence a) (description a) (fundamentals a).
Definition with_code (v : option jsstring) (a : t) : t :=
  mk (id a) (name a) v (type a) (amount a) (quantity a) (profitLoss a)
     (currency a) (confidence a) (description a) (fundamentals a).
Definition with_type (v : jsstring) (a : t) : t :=
  mk (id a) (name a) (code a) v (amount a) (quantity a) (profitLoss a)
     (currency a) (confidence a) (description a) (fundamentals a).
Definition with_amount (v : number) (a : t) : t :=
  mk (id a) (name a) (code a) (type a) v (quantity a) (profitLoss a)
     (currency a) (confidence a) (description a) (fundamentals a).
Definition with_quantity (v : option number) (a : t) : t :=
  mk (id a) (name a) (code a) (type a) (amount a) v (profitLoss a)
     (currency a) (confidence a) (description a) (fundamentals a).
Definition with_profitLoss (v : option number) (a : t) : t :=
  mk (id a) (name a) (code a) (type a) (amount a) (quantity a) v
     (currency a) (confidence a) (description a) (fundamentals a).
Definition with_confidence (v : option number) (a : t) : t :=
  mk (id a) (name a) (code a) (type a) (amount a) (quantity a) (profitLoss a)
     (currency a) v (description a) (fundamentals a).
Definition with_description (v : option jsstring) (a : t) : t :=
  mk (id a) (name a) (code a) (type a) (amount a) (quantity a) (profitLoss a)
     (currency a) (confidence a) v (fundamentals a).
End Asset.

(** [StockDefinition] is declared in [utils/assetList], which is not among
    the sources; these are the four fields the handlers read from it. *)
Module StockDefinition.
Record t : Type := mk {
  name : jsstring;
  code : jsstring;
  type : jsstring;
  currency : jsstring
}.
End StockDefinition.

(** [interface ClientProfile] *)
Module ClientProfile.
Record t : Type := mk {
  age : number;
  gender : jsstring;
  region : jsstring;
  riskTolerance : jsstring;
  investmentHorizon : jsstring;
  goals : jsstring;
  familyStructure : jsstring;
  currentHoldings : list Asset.t
}.

Definition with_age (v : number) (p : t) : t :=
  mk v (gender p) (region p) (riskTolerance p) (investmentHorizon p)
     (goals p) (familyStructure p) (currentHoldings p).
Definition with_gender (v : jsstring) (p : t) : t :=
  mk (age p) v (region p) (riskTolerance p) (investmentHorizon p)
     (goals p) (familyStructure p) (currentHoldings p).
Definition with_region (v : jsstring) (p : t) : t :=
  mk (age p) (gender p) v (riskTolerance p) (investmentHorizon p)
     (goals p) (familyStructure p) (currentHoldings p).
Definition with_riskTolerance (v : jsstring) (p : t) : t :=
  mk (age p) (gender p) (region p) v (investmentHorizon p)
     (goals p) (familyStructure p) (currentHoldings p).
Definition with_goals (v : jsstring) (p : t) : t :=
  mk (age p) (gender p) (region p) (riskTolerance p) (investmentHorizon p)
     v (familyStructure p) (currentHoldings p).
Definition with_familyStructure (v : jsstring) (p : t) : t :=
  mk (age p) (gender p) (region p) (riskTolerance p) (investmentHorizon p)
     (goals p) v (currentHoldings p).
Definition with_currentHoldings (v : list Asset.t) (p : t) : t :=
  mk (age p) (gender p) (region p) (riskTolerance p) (investmentHorizon p)
     (goals p) (familyStructure p) v.
End ClientProfile.

(** [interface ProposalSettings]: both records are JavaScript objects used
    as maps from the asset type to a count and to the selected tags. *)
Module ProposalSettings.
Record t : Type := mk {
  proposalCounts : gmap jsstring number;
  proposalDetails : option (gmap jsstring (list jsstring))
}.
End ProposalSettings.

(** [interface SourceReference] *)
Module SourceReference.
Record t : Type := mk {
  title : jsstring;
  url : option jsstring;
  page : option jsstring;
  snippet : option jsstring
}.
End SourceReference.

(** A row of [tableData], with the properties of the response schema. *)
Module TableRow.
Record t : Type := mk {
  label : option jsstring;
  metric : option jsstring;
  value1 : option jsstring;
  value2 : option jsstring;
  explanation : option jsstring
}.
End TableRow.

(** A point of [chartData], with the properties of the response schema. *)
Module ChartPoint.
Record t : Type := mk {
  name : option jsstring;
  value : option number;
  value2 : option number;
  fill : option jsstring
}.
End ChartPoint.

(** The fifteen slide kinds of [SlideContent['type']]. *)
Inductive SlideType : Type :=
| Title | ExecutiveSummary | AssetOverview | IndividualAnalysis
| RiskAnalysis | ScenarioAnalysis | ConclusionPart1
| ProposalList | RebalanceProposal | ExpectedEffect
| SelectionReason | MarketGrowth | FundamentalAnalysis | BusinessStrength
| Disclaimer.

(** [interface SlideContent] *)
Module SlideContent.
Record t : Type := mk {
  id : jsstring;
  type : SlideType;
  title : jsstring;
  subtitle : option jsstring;
  bodyText : option jsstring;
  bulletPoints : option (list jsstring);
  tableData : option (list TableRow.t);
  chartData : option (list ChartPoint.t);
  notes : option jsstring;
  sources : option (list SourceReference.t);
  aiAnalysis : option jsstring
}.

(** [{ ...s, bodyText: v }] *)
Definition with_bodyText (v : jsstring) (s : t) : t :=
  mk (id s) (type s) (title s) (subtitle s) (Some v) (bulletPoints s)
     (tableData s) (chartData s) (notes s) (sources s) (aiAnalysis s).
End SlideContent.

(** [interface PresentationData] *)
Module PresentationData.
Record t : Type := mk {
  title : jsstring;
  clientName : jsstring;
  slides : list SlideContent.t
}.

(** [{ ...d, slides: v }] *)
Definition with_slides (v : list SlideContent.t) (d : t) : t :=
  mk (title d) (clientName d) v.
End PresentationData.

(* ===================================================================== *)
(** ** The values of [JSON.parse] *)
(* ===================================================================== *)

Module JSON.

#[warnings="-register-all"]
Inductive value : Type :=
| null
| boolean (b : bool)
| numeric (x : number)
| str (s : jsstring)
| array (items : list value)
| object (members : list (jsstring * value)).

(** Truthiness of a value: [null], [false], [0] and the empty string are
    falsy, arrays and objects are truthy. *)
Definition truthy (v : value) : bool :=
  match v with
  | null => false
  | boolean b => b
  | numeric x => truthyNum x
  | str s => JS.truthy s
  | array _ => true
  | object _ => true
  end.

End JSON.

(** [JSON.parse(text) as T]: the cast is not checked, so the value is a [T]
    when the text has that shape ([Typed]) and whatever else the text
    denotes when it has not ([Untyped]). *)
Inductive Cast (T : Type) : Type :=
| Typed (v : T)
| Untyped (j : JSON.value).
Arguments Typed {T} v.
Arguments Untyped {T} j.

(** Truthiness of such a value: an object of type [T] is truthy. *)
Definition truthyCast {T : Type} (c : Cast T) : bool :=
  match c with
  | Typed _ => true
  | Untyped j => JSON.truthy j
  end.

(* ===================================================================== *)
(** ** The external calls and the retry helper (both service files) *)
(* ===================================================================== *)

Module Gemini.

(** What the [catch] block of [generateWithRetry] reads from the value the
    SDK threw: [errorCode], [errorMessage] and [errorStatus], each after
    its chain of [||] fallbacks. *)
Record ApiError : Type := mkApiError {
  errorCode : option Z;
  errorMessage : jsstring;
  errorStatus : option jsstring
}.

Definition isQuotaError (e : ApiError) : bool :=
  match errorCode e with Some c => (c =? 429)%Z | None => false end
  || includes (errorMessage e) (lit "429")
  || includes (toLowerCase (errorMessage e)) (lit "quota")
  || includes (errorMessage e) (lit "RESOURCE_EXHAUSTED")
  || match errorStatus e with
     | Some s => JS.eqb s (lit "RESOURCE_EXHAUSTED")
     | None => false
     end.

(** The values a service function may throw. *)
Inductive exn : Type :=
| ApiFailure (e : ApiError)        (* rethrown SDK error *)
| NoResponse                       (* new Error("No response") *)
| SyntaxError                      (* JSON.parse on malformed text *)
| TypeError.                       (* property access on undefined *)

Inductive outcome (A : Type) : Type :=
| Returned (a : A)
| Threw (e : exn).
Arguments Returned {A} a.
Arguments Threw {A} e.

(** The prompts: each template literal is kept as the values it interpolates. *)
Inductive Contents : Type :=
| ResearchPrompt (assetNames : list (jsstring * jsstring))
| ProposalPrompt (profile : ClientProfile.t) (proposedAssets : list Asset.t)
                 (deepResearch : jsstring)
| RecommendationPrompt (profile : ClientProfile.t) (settings : ProposalSettings.t)
| TextEditPrompt (currentText instruction : jsstring).

(** The argument of [ai.models.generateContent]. *)
Record Request : Type := mkRequest {
  model : jsstring;
  contents : Contents;
  googleSearch : bool;
  responseMimeType : option jsstring;
  responseSchema : bool
}.

(** What the service reads of a response: [response.text] and the [web.uri]
    of each grounding chunk of the first candidate. *)
Record Response : Type := mkResponse {
  text : option jsstring;
  groundingChunks : option (list (option jsstring))
}.

(** An interaction of the experimental [ai.interactions] API. *)
Record Interaction : Type := mkInteraction {
  name : jsstring;
  status : option jsstring;
  state : option jsstring;
  outputs : option (list (option jsstring))     (* the [text] of each output *)
}.

(** The input of the research agent: names and codes of the target assets,
    risk tolerance and goals of the client. *)
Record ResearchInput : Type := mkResearchInput {
  targets : list (jsstring * jsstring);
  riskTolerance : jsstring;
  goals : jsstring
}.

Record InteractionsClient : Type := mkInteractionsClient {
  create : jsstring -> ResearchInput -> Interaction + ApiError;
  get : nat -> jsstring -> Interaction + ApiError    (* by poll index and name *)
}.

(** The world outside the program: the answer of the model to the n-th
    call, the interactions client when the SDK has one, and [JSON.parse]
    where the services cast its result to a document and to a list of
    assets ([None]: it throws). *)
Record Runtime : Type := mkRuntime {
  generateContent : nat -> Request -> Response + ApiError;
  interactions : option InteractionsClient;
  JSON_parse_PresentationData : jsstring -> option (Cast PresentationData.t);
  JSON_parse_Assets : jsstring -> option (list Asset.t)
}.

Inductive Event : Type :=
| Generate (params : Request)
| Sleep (ms : N)
| InteractionCreate (agent : jsstring) (input : ResearchInput)
| InteractionGet (interaction : jsstring).

(** Calls issued so far, and their chronological trace. *)
Record World : Type := mkWorld {
  calls : nat;
  polls : nat;
  trace : list Event
}.

Definition start : World := mkWorld 0 0 [].

Definition record (ev : Event) (w : World) : World :=
  mkWorld (calls w) (polls w) (trace w ++ [ev]).

(** *** Awaited computations *)

Definition M (A : Type) : Type := World -> outcome A * World.

Definition ret {A} (a : A) : M A := fun w => (Returned a, w).
Definition throw {A} (e : exn) : M A := fun w => (Threw e, w).
Definition bind {A B} (m : M A) (k : A -> M B) : M B :=
  fun w =>
    match m w with
    | (Returned a, w') => k a w'
    | (Threw e, w') => (Threw e, w')
    end.

(** [try { m } catch (e) { h e }] *)
Definition try_catch {A} (m : M A) (h : exn -> M A) : M A :=
  fun w =>
    match m w with
    | (Returned a, w') => (Returned a, w')
    | (Threw e, w') => h e w'
    end.

Notation "x <- c ;; k" := (bind c (fun x => k))
  (at level 100, c at next level, right associativity).

(** [await ai.models.generateContent(params)] *)
Definition callGenerate (rt : Runtime) (params : Request) : M Response :=
  fun w =>
    let w' := mkWorld (S (calls w)) (polls w) (trace w ++ [Generate params]) in
    match generateContent rt (calls w) params with
    | inl r => (Returned r, w')
    | inr e => (Threw (ApiFailure e), w')
    end.

(** [await new Promise(resolve => setTimeout(resolve, ms))] *)
Definition sleep (ms : N) : M unit :=
  fun w => (Returned tt, record (Sleep ms) w).

Definition quota (error : exn) : bool :=
  match error with
  | ApiFailure e => isQuotaError e
  | _ => false
  end.

(** The [for] loop of [generateWithRetry], with [remaining = retries - i]
    iterations to go; [None] is the [undefined] the function returns when
    the loop runs out. *)
Fixpoint retryLoop (rt : Runtime) (params : Request) (retries remaining : nat)
    (delay : N) : M (option Response) :=
  match remaining with
  | O => ret None
  | S remaining' =>
      let i := (retries - remaining)%nat in
      try_catch
        (r <- callGenerate rt params ;; ret (Some r))
        (fun error =>
           if quota error && (i <? retries - 1)%nat
           then _ <- sleep delay ;;
                retryLoop rt params retries remaining' (delay * 2)
           else throw error)
  end.

(** [response.text], where [response] may be [undefined]. *)
Definition textOf (response : option Response) : M (option jsstring) :=
  match response with
  | Some r => ret (text r)
  | None => throw TypeError
  end.

(** The final [try]/[catch] of [generateInvestmentProposal] (the same text
    in both service files), over the file's own [generateWithRetry]:
    [return JSON.parse(text) as PresentationData] returns the parsed value
    as it is, and the [catch] returns [fallback]. *)
Definition requestReport (rt : Runtime)
    (generateWithRetry : Request -> M (option Response))
    (params : Request) (fallback : PresentationData.t)
    : M (Cast PresentationData.t) :=
  try_catch
    (response <- generateWithRetry params ;;
     t <- textOf response ;;
     match t with
     | Some s =>
         if truthy s
         then match JSON_parse_PresentationData rt s with
              | Some d => ret d
              | None => throw SyntaxError
              end
         else throw NoResponse
     | None => throw NoResponse
     end)
    (fun _ => ret (Typed fallback)).

(** [getMockProposal()] (the same in both files). *)
Definition getMockProposal : PresentationData.t :=
  PresentationData.mk
    [0x8CC7; 0x7523; 0x904B; 0x7528; 0x63D0; 0x6848; 0x66F8] (* 資産運用提案書 *)
    [0x304A; 0x5BA2; 0x69D8] (* お客様 *)
    [ SlideContent.mk (lit "1") Title
        [0x8CC7; 0x7523; 0x904B; 0x7528; 0x5206; 0x6790; 0x30EC; 0x30DD; 0x30FC; 0x30C8]
          (* 資産運用分析レポート *)
        (Some [0x30B7; 0x30B9; 0x30C6; 0x30E0; 0x30A8; 0x30E9; 0x30FC; 0x304C;
               0x767A; 0x751F; 0x3057; 0x307E; 0x3057; 0x305F])
          (* システムエラーが発生しました *)
        None None None None None None None ].

(** The schema-constrained request for the slides. *)
Definition proposalRequest (REPORT_MODEL : jsstring) (search : bool)
    (profile : ClientProfile.t) (proposedAssets : list Asset.t)
    (deepResearchReport : jsstring) : Request :=
  mkRequest REPORT_MODEL
    (ProposalPrompt profile proposedAssets
       (orElse deepResearchReport
          (lit "Deep research data unavailable. Please use internal knowledge.")))
    search (Some (lit "application/json")) true.

(** [`${a.name} (${a.code || fallback})`] for each proposed asset. *)
Definition assetNames (fallback : jsstring) (proposedAssets : list Asset.t)
    : list (jsstring * jsstring) :=
  map (fun a => (Asset.name a, orElseOpt (Asset.code a) fallback)) proposedAssets.

End Gemini.

(* ===================================================================== *)
(** ** [services/geminiService.ts]: research by the polling agent *)
(* ===================================================================== *)

Module AgentService.
Import Gemini.

Definition REPORT_MODEL : jsstring := lit "gemini-3-pro-preview".
Definition PARSE_MODEL : jsstring := lit "gemini-3-pro-preview".
Definition DEEP_RESEARCH_AGENT : jsstring := lit "deep-research-pro-preview-12-2025".

(** [generateWithRetry(params, retries = 5, initialDelay = 5000)] *)
Definition generateWithRetry (rt : Runtime) (params : Request) : M (option Response) :=
  retryLoop rt params 5 5 5000.

(** [interaction.status?.toLowerCase() || interaction.state?.toLowerCase()] *)
Definition statusOf (it : Interaction) : option jsstring :=
  let s := option_map toLowerCase (status it) in
  if truthyOpt s then s else option_map toLowerCase (state it).

Definition statusIs (s : option jsstring) (l : string) : bool :=
  match s with
  | Some v => JS.eqb v (lit l)
  | None => false
  end.

(** The [while (true)] polling loop, run for at most [fuel] rounds:
    [None] when the loop has not ended by then.  The result is the value
    of [deepResearchReport] when the loop is left. *)
Fixpoint pollLoop (client : InteractionsClient) (fuel : nat)
    (interaction : Interaction) (deepResearchReport : option jsstring)
    (w : World) : option (outcome (option jsstring) * World) :=
  match fuel with
  | O => None
  | S fuel' =>
      let w1 := record (Sleep 10000) w in
      let w2 := mkWorld (calls w1) (S (polls w1))
                  (trace w1 ++ [InteractionGet (name interaction)]) in
      match get client (polls w) (name interaction) with
      | inr e => Some (Threw (ApiFailure e), w2)
      | inl it =>
          let st := statusOf it in
          if statusIs st "completed" || statusIs st "succeeded" then
            match outputs it with
            | Some (o :: os) => Some (Returned (List.last os o), w2)
            | _ => Some (Returned deepResearchReport, w2)
            end
          else if statusIs st "failed" || statusIs st "error" then
            Some (Returned deepResearchReport, w2)
          else pollLoop client fuel' it deepResearchReport w2
      end
  end.

(** Step 1 of [generateInvestmentProposal]: [let deepResearchReport = ""]
    and the [try]/[catch] around the agent; the result is the report when
    the step is over. *)
Definition deepResearch (rt : Runtime) (fuel : nat) (profile : ClientProfile.t)
    (proposedAssets : list Asset.t) (w : World)
    : option (option jsstring * World) :=
  match interactions rt with
  | None => Some (Some [], w)
  | Some client =>
      let input := mkResearchInput (assetNames (lit "N/A") proposedAssets)
                     (ClientProfile.riskTolerance profile)
                     (ClientProfile.goals profile) in
      let w1 := record (InteractionCreate DEEP_RESEARCH_AGENT input) w in
      match create client DEEP_RESEARCH_AGENT input with
      | inr _ => Some (Some [], w1)
      | inl interaction =>
          match pollLoop client fuel interaction (Some []) w1 with
          | None => None
          | Some (Returned report, w2) => Some (report, w2)
          | Some (Threw _, w2) => Some (Some [], w2)
          end
      end
  end.

(** [generateInvestmentProposal(profile, proposedAssets, settings)], with
    the polling bounded by [fuel]. *)
Definition generateInvestmentProposal (rt : Runtime) (fuel : nat)
    (profile : ClientProfile.t) (proposedAssets : list Asset.t)
    (settings : ProposalSettings.t) (w : World)
    : option (outcome (Cast PresentationData.t) * World) :=
  match deepResearch rt fuel profile proposedAssets w with
  | None => None
  | Some (report, w1) =>
      Some (requestReport rt (generateWithRetry rt)
              (proposalRequest REPORT_MODEL true profile proposedAssets
                 (orElseOpt report []))
              getMockProposal w1)
  end.

(** [getAssetRecommendations(profile, settings)] *)
Definition getAssetRecommendations (rt : Runtime) (profile : ClientProfile.t)
    (settings : ProposalSettings.t) : M (list Asset.t) :=
  try_catch
    (response <- generateWithRetry rt
                   (mkRequest REPORT_MODEL (RecommendationPrompt profile settings)
                      false (Some (lit "application/json")) false) ;;
     t <- textOf response ;;
     match JSON_parse_Assets rt (orElseOpt t (lit "[]")) with
     | Some recs => ret recs
     | None => throw SyntaxError
     end)
    (fun _ => ret []).

(** [aiTextEdit(currentText, instruction)] *)
Definition aiTextEdit (rt : Runtime) (currentText instruction : jsstring) : M jsstring :=
  try_catch
    (response <- generateWithRetry rt
                   (mkRequest REPORT_MODEL (TextEditPrompt currentText instruction)
                      false None false) ;;
     t <- textOf response ;;
     ret (orElseOpt t currentText))
    (fun _ => ret currentText).

End AgentService.

(* ===================================================================== *)
(** ** The revised service file: research by one search-grounded call *)
(* ===================================================================== *)

Module SearchService.
Import Gemini.

Definition REPORT_MODEL : jsstring := lit "gemini-3-pro-preview".
Definition FAST_MODEL : jsstring := lit "gemini-3-flash-preview".

(** [generateWithRetry(params, retries = 3, initialDelay = 2000)] *)
Definition generateWithRetry (rt : Runtime) (params : Request) : M (option Response) :=
  retryLoop rt params 3 3 2000.

Definition researchFailed : jsstring :=
  lit "Deep research could not be completed due to network or API issues. Using internal knowledge base.".

(** [urls.join(sep)] *)
Fixpoint join (sep : jsstring) (l : list jsstring) : jsstring :=
  match l with
  | [] => []
  | [x] => x
  | x :: l' => x ++ sep ++ join sep l'
  end.

(** The [sourceLinks] computed from the grounding chunks. *)
Definition sourceLinks (r : Response) : jsstring :=
  match groundingChunks r with
  | Some chunks =>
      let urls :=
        firstn 5 (flat_map (fun uri => match uri with
                                       | Some u => if truthy u then [u] else []
                                       | None => []
                                       end) chunks) in
      match urls with
      | [] => []
      | _ => [10; 10] ++ lit "Referenced Sources:" ++ [10] ++ join [10] urls
      end
  | None => []
  end.

(** [performDeepResearch(profile, proposedAssets)] *)
Definition performDeepResearch (rt : Runtime) (profile : ClientProfile.t)
    (proposedAssets : list Asset.t) : M jsstring :=
  try_catch
    (response <- generateWithRetry rt
                   (mkRequest FAST_MODEL
                      (ResearchPrompt (assetNames [] proposedAssets))
                      true (Some (lit "text/plain")) false) ;;
     match response with
     | Some r => ret (orElseOpt (text r) [] ++ sourceLinks r)
     | None => throw TypeError
     end)
    (fun _ => ret researchFailed).

(** [generateInvestmentProposal(profile, proposedAssets, settings)] *)
Definition generateInvestmentProposal (rt : Runtime)
    (profile : ClientProfile.t) (proposedAssets : list Asset.t)
    (settings : ProposalSettings.t) : M (Cast PresentationData.t) :=
  deepResearchReport <-
    try_catch (performDeepResearch rt profile proposedAssets)
              (fun _ => ret []) ;;
  requestReport rt (generateWithRetry rt)
    (proposalRequest REPORT_MODEL false profile proposedAssets deepResearchReport)
    getMockProposal.

(** [getAssetRecommendations(profile, settings)] *)
Definition getAssetRecommendations (rt : Runtime) (profile : ClientProfile.t)
    (settings : ProposalSettings.t) : M (list Asset.t) :=
  try_catch
    (response <- generateWithRetry rt
                   (mkRequest FAST_MODEL (RecommendationPrompt profile settings)
                      false (Some (lit "application/json")) false) ;;
     t <- textOf response ;;
     match JSON_parse_Assets rt (orElseOpt t (lit "[]")) with
     | Some recs => ret recs
     | None => throw SyntaxError
     end)
    (fun e => throw e).

(** [aiTextEdit(currentText, instruction)] *)
Definition aiTextEdit (rt : Runtime) (currentText instruction : jsstring) : M jsstring :=
  try_catch
    (response <- generateWithRetry rt
                   (mkRequest FAST_MODEL (TextEditPrompt currentText instruction)
                      false None false) ;;
     t <- textOf response ;;
     ret (orElseOpt t currentText))
    (fun _ => ret currentText).

End SearchService.

(* ===================================================================== *)
(** ** [components/InputSection.tsx]: holdings, settings and import *)
(* ===================================================================== *)

(** The text normalisation both amount handlers start with:
    [val.replace(/[０-９]/g, s => String.fromCharCode(s.charCodeAt(0) - 0xFEE0))
        .replace(/,/g, '')]. *)
Module AmountText.

Definition isFullWidthDigit (c : N) : bool := (0xFF10 <=? c) && (c <=? 0xFF19).

Definition toHalfWidth (c : N) : N :=
  if isFullWidthDigit c then fromCharCode (Z.of_N c - 0xFEE0) else c.

Definition normalized (val : jsstring) : jsstring :=
  List.filter (fun c => negb (c =? ch ",")) (map toHalfWidth val).

End AmountText.

Module InputSection.

Definition PREFECTURES : list jsstring := [
  [0x5317; 0x6D77; 0x9053] (* 北海道 *);
  [0x9752; 0x68EE; 0x770C] (* 青森県 *);
  [0x5CA9; 0x624B; 0x770C] (* 岩手県 *);
  [0x5BAE; 0x57CE; 0x770C] (* 宮城県 *);
  [0x79CB; 0x7530; 0x770C] (* 秋田県 *);
  [0x5C71; 0x5F62; 0x770C] (* 山形県 *);
  [0x798F; 0x5CF6; 0x770C] (* 福島県 *);
  [0x8328; 0x57CE; 0x770C] (* 茨城県 *);
  [0x6803; 0x6728; 0x770C] (* 栃木県 *);
  [0x7FA4; 0x99AC; 0x770C] (* 群馬県 *);
  [0x57FC; 0x7389; 0x770C] (* 埼玉県 *);
  [0x5343; 0x8449; 0x770C] (* 千葉県 *);
  [0x6771; 0x4EAC; 0x90FD] (* 東京都 *);
  [0x795E; 0x5948; 0x5DDD; 0x770C] (* 神奈川県 *);
  [0x65B0; 0x6F5F; 0x770C] (* 新潟県 *);
  [0x5BCC; 0x5C71; 0x770C] (* 富山県 *);
  [0x77F3; 0x5DDD; 0x770C] (* 石川県 *);
  [0x798F; 0x4E95; 0x770C] (* 福井県 *);
  [0x5C71; 0x68A8; 0x770C] (* 山梨県 *);
  [0x9577; 0x91CE; 0x770C] (* 長野県 *);
  [0x5C90; 0x961C; 0x770C] (* 岐阜県 *);
  [0x9759; 0x5CA1; 0x770C] (* 静岡県 *);
  [0x611B; 0x77E5; 0x770C] (* 愛知県 *);
  [0x4E09; 0x91CD; 0x770C] (* 三重県 *);
  [0x6ECB; 0x8CC0; 0x770C] (* 滋賀県 *);
  [0x4EAC; 0x90FD; 0x5E9C] (* 京都府 *);
  [0x5927; 0x962A; 0x5E9C] (* 大阪府 *);
  [0x5175; 0x5EAB; 0x770C] (* 兵庫県 *);
  [0x5948; 0x826F; 0x770C] (* 奈良県 *);
  [0x548C; 0x6B4C; 0x5C71; 0x770C] (* 和歌山県 *);
  [0x9CE5; 0x53D6; 0x770C] (* 鳥取県 *);
  [0x5CF6; 0x6839; 0x770C] (* 島根県 *);
  [0x5CA1; 0x5C71; 0x770C] (* 岡山県 *);
  [0x5E83; 0x5CF6; 0x770C] (* 広島県 *);
  [0x5C71; 0x53E3; 0x770C] (* 山口県 *);
  [0x5FB3; 0x5CF6; 0x770C] (* 徳島県 *);
  [0x9999; 0x5DDD; 0x770C] (* 香川県 *);
  [0x611B; 0x5A9B; 0x770C] (* 愛媛県 *);
  [0x9AD8; 0x77E5; 0x770C] (* 高知県 *);
  [0x798F; 0x5CA1; 0x770C] (* 福岡県 *);
  [0x4F50; 0x8CC0; 0x770C] (* 佐賀県 *);
  [0x9577; 0x5D0E; 0x770C] (* 長崎県 *);
  [0x718A; 0x672C; 0x770C] (* 熊本県 *);
  [0x5927; 0x5206; 0x770C] (* 大分県 *);
  [0x5BAE; 0x5D0E; 0x770C] (* 宮崎県 *);
  [0x9E7F; 0x5150; 0x5CF6; 0x770C] (* 鹿児島県 *);
  [0x6C96; 0x7E04; 0x770C] (* 沖縄県 *)
].

Definition FAMILY_OPTIONS : list jsstring := [
  [0x72EC; 0x8EAB] (* 独身 *);
  [0x72EC; 0x8EAB; 0x0020; 0x0028; 0x5B50; 0x4F9B; 0x3042; 0x308A; 0x0029] (* 独身 (子供あり) *);
  [0x65E2; 0x5A5A; 0x0020; 0x0028; 0x5B50; 0x4F9B; 0x306A; 0x3057; 0x0029] (* 既婚 (子供なし) *);
  [0x65E2; 0x5A5A; 0x0020; 0x0028; 0x5B50; 0x4F9B; 0x3042; 0x308A; 0x0029] (* 既婚 (子供あり) *);
  [0x65E2; 0x5A5A; 0x0020; 0x0028; 0x5B50; 0x4F9B; 0x72EC; 0x7ACB; 0x6E08; 0x0029] (* 既婚 (子供独立済) *);
  [0x9AD8; 0x9F62; 0x592B; 0x5A66; 0x306E; 0x307F] (* 高齢夫婦のみ *);
  [0x4E8C; 0x4E16; 0x5E2F; 0x540C; 0x5C45] (* 二世帯同居 *);
  [0x305D; 0x306E; 0x4ED6] (* その他 *)
].

(** *** Totals *)

Definition totalAmount (profile : ClientProfile.t) : number :=
  fold_left (fun sum h => add sum (orZero (Asset.amount h)))
    (ClientProfile.currentHoldings profile) (ofZ 0).

Definition totalProfitLoss (profile : ClientProfile.t) : number :=
  fold_left (fun sum h => add sum (orZeroOpt (Asset.profitLoss h)))
    (ClientProfile.currentHoldings profile) (ofZ 0).

Definition totalInvested (profile : ClientProfile.t) : number :=
  sub (totalAmount profile) (totalProfitLoss profile).

Definition totalReturnPct (profile : ClientProfile.t) : number :=
  if gt (totalInvested profile) (ofZ 0)
  then mul (div (totalProfitLoss profile) (totalInvested profile)) (ofZ 100)
  else ofZ 0.

(** *** Document import *)

(** The profile fields the import reads ([Partial<ClientProfile>]). *)
Record ProfileHints : Type := mkProfileHints {
  age : option number;
  gender : option jsstring;
  region : option jsstring;
  familyStructure : option jsstring;
  riskTolerance : option jsstring;
  goals : option jsstring
}.

(** [ParseResult] as [processFile] sees it: the declared [assets] and
    [extractedProfile], and the undeclared [profile] key it reads through
    [(parseResult as any).profile]. *)
Record ParseResult : Type := mkParseResult {
  assets : option (list Asset.t);
  extractedProfile : option ProfileHints;
  profile : option ProfileHints
}.

(** [PREFECTURES.find(pref => region.includes(pref) || pref.includes(region))
    || region] *)
Definition matchRegion (region : jsstring) : jsstring :=
  match List.find (fun pref => includes region pref || includes pref region)
                  PREFECTURES with
  | Some m => orElse m region
  | None => region
  end.

(** [FAMILY_OPTIONS.find(f => familyStructure.includes(f)) || familyStructure] *)
Definition matchFamily (familyStructure : jsstring) : jsstring :=
  match List.find (fun f => includes familyStructure f) FAMILY_OPTIONS with
  | Some m => orElse m familyStructure
  | None => familyStructure
  end.

Definition whenNum (o : option number) (f : number -> ClientProfile.t -> ClientProfile.t)
    (p : ClientProfile.t) : ClientProfile.t :=
  match o with
  | Some v => if truthyNum v then f v p else p
  | None => p
  end.

Definition whenStr (o : option jsstring) (f : jsstring -> ClientProfile.t -> ClientProfile.t)
    (p : ClientProfile.t) : ClientProfile.t :=
  match o with
  | Some v => if truthy v then f v p else p
  | None => p
  end.

(** The [if (p) { ... }] block: one guarded assignment per hint. *)
Definition applyHints (p : ProfileHints) (newProfile : ClientProfile.t) : ClientProfile.t :=
  let s1 := whenNum (age p) ClientProfile.with_age newProfile in
  let s2 := whenStr (gender p) ClientProfile.with_gender s1 in
  let s3 := whenStr (region p)
              (fun r => ClientProfile.with_region (matchRegion r)) s2 in
  let s4 := whenStr (familyStructure p)
              (fun f => ClientProfile.with_familyStructure (matchFamily f)) s3 in
  let s5 := whenStr (riskTolerance p) ClientProfile.with_riskTolerance s4 in
  whenStr (goals p) ClientProfile.with_goals s5.

(** [extractedAssets.map((a, index) => ({ ...a, id: `imported-${Date.now()}-${index}`,
    description: `Imported from ${file.name}` }))], where [now index] is
    the clock when the element at [index] is mapped. *)
Definition newAssetsWithIds (fileName : jsstring) (now : nat -> N)
    (extractedAssets : list Asset.t) : list Asset.t :=
  imap (fun index a =>
          Asset.with_description (Some (lit "Imported from " ++ fileName))
            (Asset.with_id (lit "imported-" ++ showN (now index) ++ lit "-"
                              ++ showN (N.of_nat index)) a))
       extractedAssets.

(** The state update of [processFile]: [setProfile(prev => ...)]. *)
Definition processFile (fileName : jsstring) (now : nat -> N)
    (parseResult : ParseResult) (prev : ClientProfile.t) : ClientProfile.t :=
  let extractedAssets := default [] (assets parseResult) in
  let newProfile :=
    match extractedProfile parseResult with
    | Some _ =>
        match profile parseResult with
        | Some p => applyHints p prev
        | None => prev
        end
    | None => prev
    end in
  ClientProfile.with_currentHoldings
    (ClientProfile.currentHoldings prev
       ++ newAssetsWithIds fileName now extractedAssets)
    newProfile.

(** *** The holdings ledger *)

(** [addHolding()], with the form state [newHolding] and the clock. *)
Definition addHolding (newHolding : Asset.t) (now : N) (prev : ClientProfile.t)
    : ClientProfile.t :=
  if truthy (Asset.name newHolding)
  then ClientProfile.with_currentHoldings
         (ClientProfile.currentHoldings prev
            ++ [Asset.with_confidence (Some (ofZ 1))
                  (Asset.with_id (showN now) newHolding)])
         prev
  else prev.

(** The [field]/[value] pairs the table rows pass to [updateHoldingRow]. *)
Inductive FieldValue : Type :=
| name_ (v : jsstring)
| code_ (v : jsstring)
| type_ (v : jsstring)
| quantity_ (v : number)
| amount_ (v : number)
| profitLoss_ (v : number).

(** [{ ...h, [field]: value }] *)
Definition setField (fv : FieldValue) (h : Asset.t) : Asset.t :=
  match fv with
  | name_ v => Asset.with_name v h
  | code_ v => Asset.with_code (Some v) h
  | type_ v => Asset.with_type v h
  | quantity_ v => Asset.with_quantity (Some v) h
  | amount_ v => Asset.with_amount v h
  | profitLoss_ v => Asset.with_profitLoss (Some v) h
  end.

(** [updateHoldingRow(id, field, value)] *)
Definition updateHoldingRow (id : jsstring) (fv : FieldValue) (prev : ClientProfile.t)
    : ClientProfile.t :=
  ClientProfile.with_currentHoldings
    (map (fun h => if JS.eqb (Asset.id h) id then setField fv h else h)
         (ClientProfile.currentHoldings prev))
    prev.

(** The delete button of a row:
    [setProfile(p => ({...p, currentHoldings: p.currentHoldings.filter(x => x.id !== h.id)}))]. *)
Definition removeHolding (id : jsstring) (p : ClientProfile.t) : ClientProfile.t :=
  ClientProfile.with_currentHoldings
    (List.filter (fun x => negb (JS.eqb (Asset.id x) id))
                 (ClientProfile.currentHoldings p))
    p.

(** *** Proposal settings *)

(** [handleProposalCountChange(type, count)] *)
Definition handleProposalCountChange (type : jsstring) (count : number)
    (prev : ProposalSettings.t) : ProposalSettings.t :=
  ProposalSettings.mk
    (<[type := count]> (ProposalSettings.proposalCounts prev))
    (ProposalSettings.proposalDetails prev).

(** [toggleProposalType(type)] *)
Definition toggleProposalType (type : jsstring) (prev : ProposalSettings.t)
    : ProposalSettings.t :=
  let currentCount := orZeroOpt (ProposalSettings.proposalCounts prev !! type) in
  ProposalSettings.mk
    (<[type := if gt currentCount (ofZ 0) then ofZ 0 else ofZ 1]>
       (ProposalSettings.proposalCounts prev))
    (ProposalSettings.proposalDetails prev).

(** [prev.proposalDetails?.[type] || []] *)
Definition detailsOf (type : jsstring) (s : ProposalSettings.t) : list jsstring :=
  match ProposalSettings.proposalDetails s with
  | Some d => default [] (d !! type)
  | None => []
  end.

(** [toggleSubCategory(type, sub)] *)
Definition toggleSubCategory (type sub : jsstring) (prev : ProposalSettings.t)
    : ProposalSettings.t :=
  let currentDetails := detailsOf type prev in
  let newDetails :=
    if existsb (fun d => JS.eqb d sub) currentDetails
    then List.filter (fun d => negb (JS.eqb d sub)) currentDetails
    else currentDetails ++ [sub] in
  ProposalSettings.mk
    (ProposalSettings.proposalCounts prev)
    (Some (<[type := newDetails]>
             (default ∅ (ProposalSettings.proposalDetails prev)))).

(** *** Amount entry *)

(** [handleAmountChange(val, field, updateFn)]: [Some v] when [updateFn(v)]
    is called, [None] when it is not. *)
Definition handleAmountChange (val : jsstring) : option number :=
  let normalized := AmountText.normalized val in
  if JS.eqb normalized [] || JS.eqb normalized (lit "-") then Some (ofZ 0)
  else
    let num := parseFloat normalized in
    if negb (isNaN num) then Some num else None.

(** *** The region field *)

(** The state the region field writes: the profile and the suggestions
    shown under the field. *)
Record RegionField : Type := mkRegionField {
  regionProfile : ClientProfile.t;
  filteredPrefectures : list jsstring;
  showRegionSuggestions : bool
}.

(** [handleRegionChange(input)] *)
Definition handleRegionChange (input : jsstring) (st : RegionField) : RegionField :=
  mkRegionField
    (ClientProfile.with_region input (regionProfile st))
    (List.filter (fun p => includes p input) PREFECTURES)
    true.

(** [selectRegion(pref)] *)
Definition selectRegion (pref : jsstring) (st : RegionField) : RegionField :=
  mkRegionField
    (ClientProfile.with_region pref (regionProfile st))
    (filteredPrefectures st)
    false.

(** *** The proposal-scope panel *)

(** [settings.proposalCounts[type] || 0] and the [count > 0] that checks
    the box of an asset class. *)
Definition countOf (type : jsstring) (settings : ProposalSettings.t) : number :=
  orZeroOpt (ProposalSettings.proposalCounts settings !! type).

Definition isChecked (type : jsstring) (settings : ProposalSettings.t) : bool :=
  gt (countOf type settings) (ofZ 0).

(** The [onChange] of the count field,
    [handleProposalCountChange(type, Math.max(1, parseInt(e.target.value) || 1))],
    where [parsed] is the value of [parseInt(e.target.value)]. *)
Definition countFieldChange (type : jsstring) (parsed : number)
    (prev : ProposalSettings.t) : ProposalSettings.t :=
  handleProposalCountChange type
    (Math_max (ofZ 1) (if truthyNum parsed then parsed else ofZ 1)) prev.

End InputSection.

(* ===================================================================== *)
(** ** [components/RebalanceSection.tsx]: recommendations and the proposal *)
(* ===================================================================== *)

Module RebalanceSection.
Import Gemini.

(** The component state the handlers below read and write. *)
Record State : Type := mkState {
  recommendations : list Asset.t;
  proposedAssets : list Asset.t;
  loadingRecs : bool;
  error : option jsstring
}.

Definition fetchFailed : jsstring :=
  [0x0041; 0x0049; 0x63A8; 0x5968; 0x306E; 0x53D6; 0x5F97; 0x306B;
   0x5931; 0x6557; 0x3057; 0x307E; 0x3057; 0x305F; 0x3002; 0x3057;
   0x3070; 0x3089; 0x304F; 0x5F85; 0x3063; 0x3066; 0x304B; 0x3089;
   0x518D; 0x8A66; 0x884C; 0x3057; 0x3066; 0x304F; 0x3060; 0x3055;
   0x3044; 0x3002].
  (* AI推奨の取得に失敗しました。しばらく待ってから再試行してください。 *)

(** [fetchRecs()], over the service's [getAssetRecommendations(profile,
    settings)]; [random k] is the rendering of the [Math.random()] drawn
    for the candidate at index [k]. *)
Definition fetchRecs (getAssetRecommendations : M (list Asset.t))
    (random : nat -> jsstring) (st : State) : M State :=
  fun w =>
    match getAssetRecommendations w with
    | (Returned recs, w') =>
        (Returned
           (mkState
              (imap (fun k r => Asset.with_id (lit "rec-" ++ random k) r) recs)
              (proposedAssets st) false None),
         w')
    | (Threw _, w') =>
        (Returned
           (mkState (recommendations st) (proposedAssets st) false
                    (Some fetchFailed)),
         w')
    end.



(** [addToProposal(asset)], where [random] is the rendering of the
    [Math.random()] drawn for the identifier. *)
Definition addToProposal (asset : Asset.t) (random : jsstring)
    (proposedAssets : list Asset.t) : list Asset.t :=
  proposedAssets
    ++ [Asset.with_amount (ofZ 1000000)
          (Asset.with_id (lit "prop-" ++ random) asset)].

Definition manualNote : jsstring := [0x624B; 0x52D5; 0x8FFD; 0x52A0]. (* 手動追加 *)

(** [selectManualAsset(stock)], where [now] is [Date.now()]. *)
Definition selectManualAsset (stock : StockDefinition.t) (now : N)
    (proposedAssets : list Asset.t) : list Asset.t :=
  let newAsset :=
    Asset.mk (lit "manual-" ++ showN now)
             (StockDefinition.name stock)
             (Some (StockDefinition.code stock))
             (StockDefinition.type stock)
             (ofZ 1000000)
             None None
             (StockDefinition.currency stock)
             (Some (ofZ 1))
             (Some manualNote)
             Fundamentals.none in
  proposedAssets ++ [newAsset].

Definition setAmount (id : jsstring) (v : number) (prev : list Asset.t) : list Asset.t :=
  map (fun p => if JS.eqb (Asset.id p) id then Asset.with_amount v p else p) prev.

(** [updateProposedAmount(id, val)] *)
Definition updateProposedAmount (id val : jsstring) (prev : list Asset.t)
    : list Asset.t :=
  let normalized := AmountText.normalized val in
  let num := parseFloat normalized in
  if negb (isNaN num) then setAmount id num prev
  else if JS.eqb val [] then setAmount id (ofZ 0) prev
  else prev.

(** [removeProposed(id)] *)
Definition removeProposed (id : jsstring) (prev : list Asset.t) : list Asset.t :=
  List.filter (fun p => negb (JS.eqb (Asset.id p) id)) prev.

End RebalanceSection.

(* ===================================================================== *)
(** ** [components/slides/SlideRenderer.tsx]: the RebalanceProposal slide *)
(* ===================================================================== *)

Module SlideRenderer.

Definition sellMarker : jsstring := [0x58F2; 0x5374]. (* 売却 *)
Definition buyMarker : jsstring := [0x8CFC; 0x5165]. (* 購入 *)

(** [r.value1 && r.value1.startsWith('-')], as a truth value. *)
Definition negativeValue (r : TableRow.t) : bool :=
  match TableRow.value1 r with
  | Some v => truthy v && startsWith v (lit "-")
  | None => false
  end.

(** [r.value1 && !r.value1.startsWith('-')], as a truth value. *)
Definition positiveValue (r : TableRow.t) : bool :=
  match TableRow.value1 r with
  | Some v => truthy v && negb (startsWith v (lit "-"))
  | None => false
  end.

(** The predicate of the sell filter; [None] when [r.label] is
    [undefined] and [r.label.includes] throws. *)
Definition isSell (r : TableRow.t) : option bool :=
  match TableRow.label r with
  | Some l => Some (includes l sellMarker || negativeValue r)
  | None => None
  end.

(** The predicate of the buy filter. *)
Definition isBuy (r : TableRow.t) : option bool :=
  match TableRow.label r with
  | Some l => Some (includes l buyMarker || positiveValue r)
  | None => None
  end.

(** [rows.filter(pred)] for a predicate that may throw. *)
Fixpoint filterRows (pred : TableRow.t -> option bool) (rows : list TableRow.t)
    : option (list TableRow.t) :=
  match rows with
  | [] => Some []
  | r :: rows' =>
      match pred r with
      | Some b =>
          match filterRows pred rows' with
          | Some kept => Some (if b then r :: kept else kept)
          | None => None
          end
      | None => None
      end
  end.

(** The predicate of the [some] under the sell column:
    [r.label.includes('売却') || r.value1?.startsWith('-')]. *)
Definition isSellSome (r : TableRow.t) : option bool :=
  match TableRow.label r with
  | Some l =>
      Some (includes l sellMarker ||
            match TableRow.value1 r with
            | Some v => startsWith v (lit "-")
            | None => false
            end)
  | None => None
  end.

(** [rows.some(pred)]: it stops at the first row the predicate holds of. *)
Fixpoint someRow (pred : TableRow.t -> option bool) (rows : list TableRow.t)
    : option bool :=
  match rows with
  | [] => Some false
  | r :: rows' =>
      match pred r with
      | Some true => Some true
      | Some false => someRow pred rows'
      | None => None
      end
  end.

(** What the RebalanceProposal case puts on the slide: the rows of the
    sell column, whether the "売却対象なし" notice is shown under it, and
    the rows of the buy column. *)
Record RebalanceView : Type := mkRebalanceView {
  sellRows : list TableRow.t;
  nothingToSell : bool;
  buyRows : list TableRow.t
}.

(** The [case 'RebalanceProposal'] of [renderContent]; [None] when a
    predicate throws.  [slide.tableData?.filter(...)] and
    [!slide.tableData?.some(...)] on an absent table give no rows and the
    notice. *)
Definition renderRebalanceProposal (slide : SlideContent.t) : option RebalanceView :=
  match SlideContent.tableData slide with
  | None => Some (mkRebalanceView [] true [])
  | Some rows =>
      match filterRows isSell rows with
      | Some sells =>
          match someRow isSellSome rows with
          | Some anySell =>
              match filterRows isBuy rows with
              | Some buys => Some (mkRebalanceView sells (negb anySell) buys)
              | None => None
              end
          | None => None
          end
      | None => None
      end
  end.

End SlideRenderer.

(* ===================================================================== *)
(** ** [components/SlideEditor.tsx]: the chat edit *)
(* ===================================================================== *)

Module SlideEditor.
Import Gemini.

(** [handleChatSubmit()], over the service's [aiTextEdit]: [Some newData]
    when [onUpdate(newData)] is called, [None] when the handler returns
    before it. *)
Definition handleChatSubmit (aiTextEdit : jsstring -> jsstring -> M jsstring)
    (data : PresentationData.t) (currentSlideIndex : nat) (chatInput : jsstring)
    : M (option PresentationData.t) :=
  if negb (truthy chatInput) then ret None
  else
    match PresentationData.slides data !! currentSlideIndex with
    | None => throw TypeError
    | Some currentSlide =>
        updatedText <- aiTextEdit
                         (orElseOpt (SlideContent.bodyText currentSlide) [])
                         chatInput ;;
        let newSlides :=
          <[currentSlideIndex := SlideContent.with_bodyText updatedText currentSlide]>
            (PresentationData.slides data) in
        ret (Some (PresentationData.with_slides newSlides data))
    end.

End SlideEditor.

(* ===================================================================== *)
(** ** [parsePortfolioDocument] of the service files *)
(* ===================================================================== *)

Module PortfolioDocument.
Import Gemini InputSection.

Definition fence : jsstring := lit "```".
Definition jsonFence : jsstring := lit "```json".

(** The cleaning of a Markdown wrapper around the payload:
    [text.trim()], then the anchored replacements of the opening and of
    the closing fence. *)
Definition unwrap (text : jsstring) : jsstring :=
  let text := trim text in
  if startsWith text jsonFence
  then replaceEnd fence (replaceStart jsonFence text)
  else if startsWith text fence
  then replaceEnd fence (replaceStart fence text)
  else text.

(** What [JSON.parse(text) as ParseResult] is to [processFile], the cast
    being unchecked: [null], on which reading [parseResult.assets] throws;
    a value whose [assets] is truthy and is not an array, on which
    [extractedAssets.map] throws; and any other value, read at the declared
    type: a key the value does not have is absent, and the elements of
    [assets] are read as assets. *)
Inductive Parsed : Type :=
| Null
| AssetsNotArray
| Result (r : ParseResult).

(** [{ assets: [] }] *)
Definition noAssets : Parsed := Result (mkParseResult (Some []) None None).

(** [parsePortfolioDocument(base64Data, mimeType)] (the same text in both
    service files, up to the model named in the request), over the file's
    [generateWithRetry] applied to the multimodal request and over
    [JSON.parse] ([None]: it throws); the parsed value is returned as it
    is. *)
Definition parsePortfolioDocument (generateWithRetry : M (option Response))
    (JSON_parse : jsstring -> option Parsed) : M Parsed :=
  try_catch
    (response <- generateWithRetry ;;
     t <- textOf response ;;
     match t with
     | Some s =>
         if truthy s
         then match JSON_parse (unwrap s) with
              | Some r => ret r
              | None => throw SyntaxError
              end
         else ret noAssets
     | None => ret noAssets
     end)
    (fun _ => ret noAssets).

End PortfolioDocument.

(* ===================================================================== *)
(** ** [getAssetRecommendations]: the requested asset classes *)
(* ===================================================================== *)

Module Recommendation.

(** The entries of [requests]: for each key of [proposalCounts] whose count
    passes [count > 0], the count and the joined tags of
    [proposalDetails?.[type]] (the empty string when there is none).  The
    order of the entries in the prompt, which is the insertion order of
    the object, is not represented. *)
Definition requests (settings : ProposalSettings.t)
    : gmap jsstring (number * jsstring) :=
  map_imap
    (fun type count =>
       if gt count (ofZ 0)
       then Some (count,
                  SearchService.join [0x3001] (InputSection.detailsOf type settings))
       else None)
    (ProposalSettings.proposalCounts settings).

End Recommendation.

(* ===================================================================== *)
(** ** [components/InputSection.tsx]: the whole of [processFile] *)
(* ===================================================================== *)

Module FileImport.
Import Gemini.

(** The two [alert]s of [processFile]. *)
Inductive Alert : Type :=
| NoAssetsRead        (* 資産情報を読み取れませんでした。... *)
| AnalysisFailed.     (* ファイルの解析に失敗しました。 *)

(** What [processFile] leaves behind. *)
Record Outcome : Type := mkOutcome {
  profileAfter : ClientProfile.t;
  alerts : list Alert;
  isUploading : bool
}.

(** [processFile(file)], over the service's [parsePortfolioDocument]:
    [fileRead] tells whether [fileToBase64(file)] resolved.  Whatever is
    thrown inside the [try], by an [await] or by the reading of the parsed
    value, ends in the [catch]. *)
Definition processFile (fileRead : bool)
    (parsePortfolioDocument : M PortfolioDocument.Parsed)
    (fileName : jsstring) (now : nat -> N) (prev : ClientProfile.t) : M Outcome :=
  if fileRead then
    fun w =>
      match parsePortfolioDocument w with
      | (Returned (PortfolioDocument.Result parseResult), w') =>
          let extractedAssets := default [] (InputSection.assets parseResult) in
          let newAssetsWithIds :=
            InputSection.newAssetsWithIds fileName now extractedAssets in
          (Returned
             (mkOutcome (InputSection.processFile fileName now parseResult prev)
                        (if (List.length newAssetsWithIds =? 0)%nat
                         then [NoAssetsRead] else [])
                        false),
           w')
      | (Returned PortfolioDocument.Null, w') =>
          (* [parseResult.assets] throws a TypeError *)
          (Returned (mkOutcome prev [AnalysisFailed] false), w')
      | (Returned PortfolioDocument.AssetsNotArray, w') =>
          (* [extractedAssets.map] throws a TypeError *)
          (Returned (mkOutcome prev [AnalysisFailed] false), w')
      | (Threw _, w') => (Returned (mkOutcome prev [AnalysisFailed] false), w')
      end
  else ret (mkOutcome prev [AnalysisFailed] false).

End FileImport.

(* ===================================================================== *)
(** ** [App.tsx]: the three steps *)
(* ===================================================================== *)

Module App.
Import Gemini.

Inductive Step : Type := input | rebalance | editor.

(** The component state, with two counters that the component does not
    hold: the calls of [handleRebalanceComplete] that wait at their
    [await], and the alerts raised so far.  [presentationData] holds what
    [setPresentationData] was given: the value the service resolved with,
    which its unchecked cast lets be any JSON value. *)
Record State : Type := mkState {
  step : Step;
  profile : option ClientProfile.t;
  settings : option ProposalSettings.t;
  proposedAssets : list Asset.t;
  presentationData : option (Cast PresentationData.t);
  isGenerating : bool;
  pending : nat;
  alerts : nat
}.

Definition initial : State := mkState input None None [] None false 0 0.

Definition setStep (s : Step) (st : State) : State :=
  mkState s (profile st) (settings st) (proposedAssets st) (presentationData st)
          (isGenerating st) (pending st) (alerts st).

(** The section the component renders: [step === 'input' && ...],
    [step === 'rebalance' && profile && settings && ...],
    [step === 'editor' && presentationData && ...]; [EditorView] is
    [<SlideEditor data={presentationData} .../>], whatever truthy value
    [presentationData] is (what [SlideEditor] makes of a value that is no
    document is not represented). *)
Inductive View : Type := InputView | RebalanceView | EditorView | Nothing.

Definition view (st : State) : View :=
  match step st with
  | input => InputView
  | rebalance =>
      match profile st, settings st with
      | Some _, Some _ => RebalanceView
      | _, _ => Nothing
      end
  | editor =>
      match presentationData st with
      | Some data => if truthyCast data then EditorView else Nothing
      | None => Nothing
      end
  end.

(** [handleInputComplete(p, s)] *)
Definition handleInputComplete (p : ClientProfile.t) (s : ProposalSettings.t)
    (st : State) : State :=
  mkState rebalance (Some p) (Some s) (proposedAssets st) (presentationData st)
          (isGenerating st) (pending st) (alerts st).

(** [handleRebalanceComplete(assets)] up to its [await]. *)
Definition handleRebalanceComplete_called (assets : list Asset.t) (st : State) : State :=
  match profile st, settings st with
  | Some _, Some _ =>
      mkState (step st) (profile st) (settings st) assets (presentationData st)
              true (S (pending st)) (alerts st)
  | _, _ => st
  end.

(** [handleRebalanceComplete] from its [await] on, when the promise of
    [generateInvestmentProposal] has settled with [result]. *)
Definition handleRebalanceComplete_settled
    (result : outcome (Cast PresentationData.t)) (st : State) : State :=
  match result with
  | Returned data =>
      mkState editor (profile st) (settings st) (proposedAssets st) (Some data)
              false (Nat.pred (pending st)) (alerts st)
  | Threw _ =>
      mkState (step st) (profile st) (settings st) (proposedAssets st)
              (presentationData st) false (Nat.pred (pending st)) (S (alerts st))
  end.

(** [handleUpdate(newData)], where [newData] is the object literal
    [{ ...data, slides: newSlides }] that [SlideEditor] builds. *)
Definition handleUpdate (newData : PresentationData.t) (st : State) : State :=
  mkState (step st) (profile st) (settings st) (proposedAssets st)
          (Some (Typed newData)) (isGenerating st) (pending st) (alerts st).

(** What can happen to the component: the callbacks it hands to the
    section it renders, and the settling of a pending generation. *)
Inductive Event : Type :=
| Next (p : ClientProfile.t) (s : ProposalSettings.t)
      (* the button of InputSection, disabled while there is no holding *)
| RebalanceBack
| GenerateReport (assets : list Asset.t)
      (* the button of RebalanceSection, disabled while [isGenerating] or
         while nothing is proposed *)
| Settled (result : outcome (Cast PresentationData.t))
| Update (newData : PresentationData.t)
      (* [onUpdate], also from a chat edit that settles after the editor
         was left *)
| EditorBack.

Definition dispatch (ev : Event) (st : State) : State :=
  match ev with
  | Next p s =>
      match view st with
      | InputView =>
          if (List.length (ClientProfile.currentHoldings p) =? 0)%nat then st
          else handleInputComplete p s st
      | _ => st
      end
  | RebalanceBack =>
      match view st with
      | RebalanceView => setStep input st
      | _ => st
      end
  | GenerateReport assets =>
      match view st with
      | RebalanceView =>
          if isGenerating st || (List.length assets =? 0)%nat then st
          else handleRebalanceComplete_called assets st
      | _ => st
      end
  | Settled result =>
      if (pending st =? 0)%nat then st
      else handleRebalanceComplete_settled result st
  | Update newData => handleUpdate newData st
  | EditorBack =>
      match view st with
      | EditorView => setStep rebalance st
      | _ => st
      end
  end.

Definition run (events : list Event) : State :=
  fold_left (fun st ev => dispatch ev st) events initial.

End App.

(* ===================================================================== *)
(** ** [utils/pptxExport.ts]: the PowerPoint export *)
(* ===================================================================== *)

Module PptxExport.

(** What [exportToPPT] puts on a slide of the deck. *)
Inductive Item : Type :=
| addText (text : jsstring)
| addBullets (points : list jsstring)
| addShape
| addTable (rows : list (list (option jsstring))).

Definition scenarioNote : jsstring :=
  [0x30B7; 0x30CA; 0x30EA; 0x30AA; 0x5225; 0x4E88; 0x6E2C; 0x0020; 0x0028;
   0x8A73; 0x7D30; 0x306F; 0x0057; 0x0065; 0x0062; 0x7248; 0x307E; 0x305F;
   0x306F; 0x6DFB; 0x4ED8; 0x53C2; 0x7167; 0x0029].
  (* シナリオ別予測 (詳細はWeb版または添付参照) *)

Definition headers : list (option jsstring) :=
  [ Some [0x6307; 0x6A19] (* 指標 *);
    Some [0x9298; 0x67C4] (* 銘柄 *);
    Some [0x5024] (* 値 *);
    Some [0x7AF6; 0x5408] (* 競合 *);
    Some [0x7406; 0x7531] (* 理由 *) ].

(** [if (slide.bodyText) pptSlide.addText(slide.bodyText, ...)] *)
Definition bodyItems (slide : SlideContent.t) : list Item :=
  match SlideContent.bodyText slide with
  | Some b => if truthy b then [addText b] else []
  | None => []
  end.

(** The body of [data.slides.forEach((slide) => { ... })]. *)
Definition slideItems (slide : SlideContent.t) : list Item :=
  [addText (SlideContent.title slide)]
  ++ match SlideContent.type slide with
     | Title => [addText (orElseOpt (SlideContent.subtitle slide) [])]
     | ScenarioAnalysis =>
         [addText scenarioNote] ++ bodyItems slide
         ++ [addShape; addText (lit "Chart Area")]
     | FundamentalAnalysis =>
         match SlideContent.tableData slide with
         | Some tableData =>
             [addTable
                (headers
                 :: map (fun r => [TableRow.metric r; TableRow.label r;
                                   TableRow.value1 r; TableRow.value2 r;
                                   TableRow.explanation r])
                        tableData)]
         | None => []
         end
     | _ =>
         bodyItems slide
         ++ match SlideContent.bulletPoints slide with
            | Some bulletPoints => [addBullets bulletPoints]
            | None => []
            end
     end
  ++ [addText (lit "CONFIDENTIAL")].

(** [exportToPPT(data)]: the slides of the deck and the name of the file. *)
Definition exportToPPT (data : PresentationData.t) : list (list Item) * jsstring :=
  (map slideItems (PresentationData.slides data),
   lit "Proposal_" ++ PresentationData.clientName data ++ lit ".pptx").

End PptxExport.

(* ===================================================================== *)
(** * Vocabulary of the properties *)
(* ===================================================================== *)

(** ** The Holding Ledger as a sequence of operations *)

Module HoldingLedger.

(** The three operations of the holdings table of [InputSection]. *)
Inductive Op : Type :=
| add (newHolding : Asset.t) (now : N)
| update (id : jsstring) (fv : InputSection.FieldValue)
| remove (id : jsstring).

Definition apply (p : ClientProfile.t) (op : Op) : ClientProfile.t :=
  match op with
  | add newHolding now => InputSection.addHolding newHolding now p
  | update id fv => InputSection.updateHoldingRow id fv p
  | remove id => InputSection.removeHolding id p
  end.

(** The ledger after the operations, applied in the order received. *)
Definition run (ops : list Op) (p : ClientProfile.t) : ClientProfile.t :=
  fold_left apply ops p.

(** The integer a number is, when it is one. *)
Definition whole (x : number) : option Z :=
  match x with
  | Num q => if (Zpos (Qden q) =? 1)%Z then Some (Qnum q) else None
  | _ => None
  end.

Definition isWhole (x : number) : bool :=
  match whole x with Some _ => true | None => false end.

(** An entry whose amount and profit/loss are whole numbers (an absent
    profit/loss counts as zero). *)
Definition wholeAsset (h : Asset.t) : bool :=
  isWhole (Asset.amount h) &&
  match Asset.profitLoss h with
  | Some v => isWhole v
  | None => true
  end.

Definition wholeLedger (p : ClientProfile.t) : bool :=
  forallb wholeAsset (ClientProfile.currentHoldings p).

(** An operation that enters whole numbers only. *)
Definition wholeOp (op : Op) : bool :=
  match op with
  | add newHolding _ => wholeAsset newHolding
  | update _ (InputSection.amount_ v) => isWhole v
  | update _ (InputSection.profitLoss_ v) => isWhole v
  | update _ _ => true
  | remove _ => true
  end.

Definition amountZ (h : Asset.t) : Z := default 0%Z (whole (Asset.amount h)).

Definition profitLossZ (h : Asset.t) : Z :=
  match Asset.profitLoss h with
  | Some v => default 0%Z (whole v)
  | None => 0%Z
  end.

(** The arithmetic sums of the entries of a ledger of whole numbers. *)
Definition sumAmountZ (p : ClientProfile.t) : Z :=
  fold_right Z.add 0%Z (map amountZ (ClientProfile.currentHoldings p)).

Definition sumProfitLossZ (p : ClientProfile.t) : Z :=
  fold_right Z.add 0%Z (map profitLossZ (ClientProfile.currentHoldings p)).

(** The sum of the magnitudes of all amounts and profit/loss entries. *)
Definition magnitude (p : ClientProfile.t) : Z :=
  fold_right Z.add 0%Z
    (map (fun h => (Z.abs (amountZ h) + Z.abs (profitLossZ h))%Z)
         (ClientProfile.currentHoldings p)).

(** The arithmetic sums of the amounts and of the profit/loss entries of
    a ledger of finite numbers, as rationals. *)
Definition amountOf (h : Asset.t) : Qc :=
  match Asset.amount h with
  | Num q => q
  | _ => 0%Qc
  end.

Fixpoint sum (l : list Qc) : Qc :=
  match l with
  | [] => 0%Qc
  | q :: l' => (q + sum l')%Qc
  end.

Definition profitLossOf (h : Asset.t) : Qc :=
  match Asset.profitLoss h with
  | Some (Num q) => q
  | _ => 0%Qc
  end.

Definition sumAmount (p : ClientProfile.t) : Qc :=
  sum (map amountOf (ClientProfile.currentHoldings p)).

Definition sumProfitLoss (p : ClientProfile.t) : Qc :=
  sum (map profitLossOf (ClientProfile.currentHoldings p)).

End HoldingLedger.

(** ** Amounts typed as digits and separators *)

Module AmountSpec.

(** The digit a code unit stands for: a standard digit or a full-width one. *)
Definition digitOf (c : N) : option N :=
  if isDigit c then Some (c - 48)
  else if AmountText.isFullWidthDigit c then Some (c - 0xFF10)
  else None.

Definition isSeparator (c : N) : bool := c =? ch ",".

(** A text of digits (standard or full-width) and ASCII commas with at
    least one digit. *)
Definition plainAmount (val : jsstring) : bool :=
  forallb (fun c => match digitOf c with Some _ => true | None => isSeparator c end) val
  && existsb (fun c => match digitOf c with Some _ => true | None => false end) val.

(** The digits of the text, in order. *)
Definition digitsOf (val : jsstring) : list N :=
  flat_map (fun c => match digitOf c with Some d => [d] | None => [] end) val.

(** The number a sequence of digits denotes in base ten. *)
Fixpoint positional (ds : list N) : N :=
  match ds with
  | [] => 0
  | d :: ds' => d * 10 ^ N.of_nat (List.length ds') + positional ds'
  end.

(** The number a plain amount denotes. *)
Definition valueOf (val : jsstring) : Z := Z.of_N (positional (digitsOf val)).

(** The standard digits of a sequence of digit values. *)
Definition render (ds : list N) : jsstring := map (fun d => d + 48) ds.

Definition digits (ds : list N) : Prop := Forall (fun d => d < 10) ds.

(** What the two [replace] calls do to one code unit. *)
Definition normalizedUnit (c : N) : jsstring :=
  if AmountText.isFullWidthDigit c then [c - 0xFEE0]
  else if c =? ch "," then []
  else [c].

End AmountSpec.

(** ** The two columns of the RebalanceProposal slide *)

Module RebalanceSplit.

(** The label of the row contains the marker word. *)
Definition hasMarker (marker : jsstring) (r : TableRow.t) : bool :=
  match TableRow.label r with
  | Some l => includes l marker
  | None => false
  end.

(** The row belongs to the sell column: a sell marker in its label, or a
    primary value that starts with a minus sign. *)
Definition sells (r : TableRow.t) : bool :=
  hasMarker SlideRenderer.sellMarker r || SlideRenderer.negativeValue r.

(** The row belongs to the buy column: a buy marker in its label, or a
    non-empty primary value that does not start with a minus sign. *)
Definition buys (r : TableRow.t) : bool :=
  hasMarker SlideRenderer.buyMarker r || SlideRenderer.positiveValue r.

(** A row with no marker word in its label and a non-empty primary value. *)
Definition unmarked (r : TableRow.t) : bool :=
  negb (hasMarker SlideRenderer.sellMarker r)
  && negb (hasMarker SlideRenderer.buyMarker r)
  && truthyOpt (TableRow.value1 r).

Definition labelled (r : TableRow.t) : bool :=
  match TableRow.label r with Some _ => true | None => false end.

End RebalanceSplit.

(** ** The two service files side by side *)

Module Service.
Import Gemini.

Inductive t : Type :=
| Agent     (* services/geminiService.ts *)
| Search.   (* the revised service file *)

Definition generateWithRetry (svc : t) : Runtime -> Request -> M (option Response) :=
  match svc with
  | Agent => AgentService.generateWithRetry
  | Search => SearchService.generateWithRetry
  end.

Definition aiTextEdit (svc : t) : Runtime -> jsstring -> jsstring -> M jsstring :=
  match svc with
  | Agent => AgentService.aiTextEdit
  | Search => SearchService.aiTextEdit
  end.

Definition getAssetRecommendations (svc : t)
    : Runtime -> ClientProfile.t -> ProposalSettings.t -> M (list Asset.t) :=
  match svc with
  | Agent => AgentService.getAssetRecommendations
  | Search => SearchService.getAssetRecommendations
  end.

(** The request [aiTextEdit] sends. *)
Definition textEditRequest (svc : t) (currentText instruction : jsstring) : Request :=
  mkRequest (match svc with
             | Agent => AgentService.REPORT_MODEL
             | Search => SearchService.FAST_MODEL
             end)
            (TextEditPrompt currentText instruction) false None false.

(** The request [getAssetRecommendations] sends. *)
Definition recommendationRequest (svc : t) (profile : ClientProfile.t)
    (settings : ProposalSettings.t) : Request :=
  mkRequest (match svc with
             | Agent => AgentService.REPORT_MODEL
             | Search => SearchService.FAST_MODEL
             end)
            (RecommendationPrompt profile settings)
            false (Some (lit "application/json")) false.

(** The text a finished call brought back: none when the call threw,
    returned nothing or returned an empty text. *)
Definition textBrought (res : outcome (option Response)) : option jsstring :=
  match res with
  | Returned (Some r) => if truthyOpt (text r) then text r else None
  | _ => None
  end.

(** The value a finished generation call brought back, a document or
    not: none when the call threw, returned nothing, returned an empty
    text or a text that [JSON.parse] rejects. *)
Definition documentBrought (rt : Runtime) (res : outcome (option Response))
    : option (Cast PresentationData.t) :=
  match res with
  | Returned (Some r) =>
      match text r with
      | Some t => if truthy t then JSON_parse_PresentationData rt t else None
      | None => None
      end
  | _ => None
  end.

(** Every call to the model is rejected. *)
Definition alwaysThrows (rt : Runtime) : Prop :=
  forall n params, exists e, generateContent rt n params = inr e.

End Service.

(** ** The report pipeline, phase by phase *)

Module Pipeline.
Import Gemini.

(** The request of the search-grounded research call. *)
Definition researchRequest (proposedAssets : list Asset.t) : Request :=
  mkRequest SearchService.FAST_MODEL
    (ResearchPrompt (assetNames [] proposedAssets))
    true (Some (lit "text/plain")) false.

(** The research call brought nothing: it threw, or its text and its
    source links are both empty. *)
Definition researchUnavailable (res : outcome (option Response)) : bool :=
  match res with
  | Returned (Some r) => negb (truthy (orElseOpt (text r) [] ++ SearchService.sourceLinks r))
  | _ => true
  end.

Definition unavailable : jsstring :=
  lit "Deep research data unavailable. Please use internal knowledge.".

(** The placeholder that stands for the research in the generation
    prompt when the research call brought nothing. *)
Definition placeholder (res : outcome (option Response)) : jsstring :=
  match res with
  | Returned (Some _) => unavailable
  | _ => SearchService.researchFailed
  end.

(** The generation request of the revised service, for a research text. *)
Definition reportRequest (profile : ClientProfile.t) (proposedAssets : list Asset.t)
    (research : jsstring) : Request :=
  mkRequest SearchService.REPORT_MODEL
    (ProposalPrompt profile proposedAssets research)
    false (Some (lit "application/json")) true.

(** The status on which the polling loop of the agent service stops. *)
Definition terminal (st : option jsstring) : bool :=
  AgentService.statusIs st "completed" || AgentService.statusIs st "succeeded"
  || AgentService.statusIs st "failed" || AgentService.statusIs st "error".

(** The answer to poll [k] ends the polling, whatever interaction is
    asked for: the call throws or reports a status the loop stops on. *)
Definition settles (client : InteractionsClient) (k : nat) : Prop :=
  forall interaction,
    match get client k interaction with
    | inr _ => True
    | inl it => terminal (AgentService.statusOf it) = true
    end.

(** The answer to poll [k] keeps the loop waiting, whatever interaction
    is asked for. *)
Definition waits (client : InteractionsClient) (k : nat) : Prop :=
  forall interaction,
    match get client k interaction with
    | inr _ => False
    | inl it => terminal (AgentService.statusOf it) = false
    end.

(** No poll ever settles. *)
Definition neverSettles (client : InteractionsClient) : Prop :=
  forall k, waits client k.


(** The input the agent is started with. *)
Definition agentInput (profile : ClientProfile.t) (proposedAssets : list Asset.t)
    : ResearchInput :=
  mkResearchInput (assetNames (lit "N/A") proposedAssets)
    (ClientProfile.riskTolerance profile) (ClientProfile.goals profile).


(** The research phase of the agent service is over within [fuel] rounds. *)
Definition researchEnds (rt : Runtime) (fuel : nat) (profile : ClientProfile.t)
    (proposedAssets : list Asset.t) (w : World) : Prop :=
  exists report w1,
    AgentService.deepResearch rt fuel profile proposedAssets w = Some (report, w1).

(** The generation call of the revised pipeline: the outcome of its
    retries and the world after them. *)
Definition searchGeneration (rt : Runtime) (profile : ClientProfile.t)
    (proposedAssets : list Asset.t) (w : World) : outcome (option Response) * World :=
  let research := SearchService.performDeepResearch rt profile proposedAssets w in
  SearchService.generateWithRetry rt
    (proposalRequest SearchService.REPORT_MODEL false profile proposedAssets
       match fst research with Returned t => t | Threw _ => [] end)
    (snd research).

(** The generation call of the agent pipeline, after a research phase
    that left [report] in the world [w1]. *)
Definition agentGeneration (rt : Runtime) (profile : ClientProfile.t)
    (proposedAssets : list Asset.t) (report : option jsstring) (w1 : World)
    : outcome (option Response) * World :=
  AgentService.generateWithRetry rt
    (proposalRequest AgentService.REPORT_MODEL true profile proposedAssets
       (orElseOpt report [])) w1.

End Pipeline.

(** ** The cost of a call with retries *)

Module Retry.
Import Gemini.

(** The time slept along a trace, in milliseconds. *)
Fixpoint waited (tr : list Event) : N :=
  match tr with
  | [] => 0
  | Sleep ms :: tr' => ms + waited tr'
  | _ :: tr' => waited tr'
  end.

(** The requests issued along a trace. *)
Fixpoint issued (tr : list Event) : nat :=
  match tr with
  | [] => 0
  | Generate _ :: tr' => S (issued tr')
  | _ :: tr' => issued tr'
  end.

(** The longest wait of a loop with [remaining] rounds to go that sleeps
    [delay] first and doubles the delay each time: no sleep follows the
    last round. *)
Fixpoint budget (remaining : nat) (delay : N) : N :=
  match remaining with
  | O => 0
  | S O => 0
  | S remaining' => delay + budget remaining' (delay * 2)
  end.

(** The defaults of [generateWithRetry] in the two service files. *)
Definition attempts (svc : Service.t) : nat :=
  match svc with Service.Agent => 5%nat | Service.Search => 3%nat end.

Definition initialDelay (svc : Service.t) : N :=
  match svc with Service.Agent => 5000 | Service.Search => 2000 end.

End Retry.

(** ** The payload of an imported document *)

Module Payload.
Import Gemini.

Definition whiteSpace (s : jsstring) : Prop :=
  Forall (fun c => isWhiteSpace c = true) s.

(** What the parse call brought back: none when the call threw, returned
    nothing or an empty text, or a text that [JSON.parse] rejects once
    its wrapper is removed. *)
Definition parsed (JSON_parse : jsstring -> option PortfolioDocument.Parsed)
    (res : outcome (option Response)) : option PortfolioDocument.Parsed :=
  match res with
  | Returned (Some r) =>
      match text r with
      | Some t => if truthy t then JSON_parse (PortfolioDocument.unwrap t) else None
      | None => None
      end
  | _ => None
  end.

(** The call ended without a text: a thrown error, or a response whose
    text is absent or empty. *)
Definition noText (res : outcome (option Response)) : bool :=
  match res with
  | Returned (Some r) => negb (truthyOpt (text r))
  | _ => true
  end.

(** The parsed value cannot be read as a parse result: it is [null], or
    its [assets] is not an array. *)
Definition unreadable (p : PortfolioDocument.Parsed) : bool :=
  match p with
  | PortfolioDocument.Result _ => false
  | _ => true
  end.

End Payload.

(** ** The closed lists of the profile form *)

Module Resolution.

(** The test of the region search: the hint contains the prefecture or the
    prefecture contains the hint. *)
Definition matches (hint pref : jsstring) : bool :=
  includes hint pref || includes pref hint.

Definition single : jsstring := [0x72EC; 0x8EAB]. (* 独身 *)
Definition singleParent : jsstring :=
  [0x72EC; 0x8EAB; 0x0020; 0x0028; 0x5B50; 0x4F9B; 0x3042; 0x308A; 0x0029].
  (* 独身 (子供あり) *)

End Resolution.

(** ** The report generation as the application calls it *)

Module Generation.
Import Gemini.

(** [generateInvestmentProposal] of either service file: the outcome and
    the world it leaves, when it ends within [fuel] rounds of polling
    (the revised file does not poll). *)
Definition proposal (svc : Service.t) (rt : Runtime) (fuel : nat)
    (profile : ClientProfile.t) (proposedAssets : list Asset.t)
    (settings : ProposalSettings.t) (w : World)
    : option (outcome (Cast PresentationData.t) * World) :=
  match svc with
  | Service.Agent =>
      AgentService.generateInvestmentProposal rt fuel profile proposedAssets settings w
  | Service.Search =>
      Some (SearchService.generateInvestmentProposal rt profile proposedAssets settings w)
  end.

End Generation.

(** ** The states of the application *)

Module Steps.
Import App.

(** What every reachable state of the component satisfies. *)
Definition shape (st : State) : Prop :=
  (step st <> input -> profile st <> None /\ settings st <> None)
  /\ (pending st <> 0%nat -> profile st <> None /\ settings st <> None)
  /\ (step st = editor -> presentationData st <> None)
  /\ (isGenerating st = true <-> pending st = 1%nat)
  /\ (pending st <= 1)%nat
  /\ (forall p, profile st = Some p -> ClientProfile.currentHoldings p <> [])
  /\ (isGenerating st = true -> proposedAssets st <> []).

(** The value is a document. *)
Definition isDocument (data : Cast PresentationData.t) : bool :=
  match data with
  | Typed _ => true
  | Untyped _ => false
  end.

(** The event does not settle a generation with a value that is no
    document. *)
Definition documented (ev : Event) : Prop :=
  match ev with
  | Settled (Gemini.Returned data) => isDocument data = true
  | _ => True
  end.

End Steps.

(** ** What of a slide reaches the exported deck *)

Module Deck.

(** The slide with the fields the export reads: type, title, subtitle,
    body text, bullet points and, on a FundamentalAnalysis slide, the
    table. *)
Definition exported (slide : SlideContent.t) : SlideContent.t :=
  SlideContent.mk [] (SlideContent.type slide) (SlideContent.title slide)
    (SlideContent.subtitle slide) (SlideContent.bodyText slide)
    (SlideContent.bulletPoints slide)
    (match SlideContent.type slide with
     | FundamentalAnalysis => SlideContent.tableData slide
     | _ => None
     end)
    None None None None.

Definition isTable (item : PptxExport.Item) : bool :=
  match item with PptxExport.addTable _ => true | _ => false end.

End Deck.

(* ===================================================================== *)
(** * Concrete inputs *)
(* ===================================================================== *)

Module Sample.

(** *** Amount texts *)

(** "１,２３４": full-width digits with an ASCII comma. *)
Definition amountAsciiComma : jsstring := [0xFF11; 0x002C; 0xFF12; 0xFF13; 0xFF14].

(** "１，２３４": full-width digits with a full-width comma (U+FF0C). *)
Definition amountFullWidthComma : jsstring := [0xFF11; 0xFF0C; 0xFF12; 0xFF13; 0xFF14].

(** *** Profiles, holdings and settings *)

Definition tokyoHint : jsstring := [0x6771; 0x4EAC]. (* 東京 *)
Definition tokyo : jsstring := [0x6771; 0x4EAC; 0x90FD]. (* 東京都 *)
Definition osaka : jsstring := [0x5927; 0x962A; 0x5E9C]. (* 大阪府 *)
Definition kyotoHint : jsstring := [0x4EAC; 0x90FD]. (* 京都 *)

(** A stock holding with the given id, amount and profit. *)
Definition holding (id : string) (amount profit : Z) : Asset.t :=
  Asset.mk (lit id) (lit "Toyota") (Some (lit "7203")) (lit "Stock") (ofZ amount)
           None (Some (ofZ profit)) (lit "JPY") None None Fundamentals.none.

(** A client living in 大阪府 with the given holdings. *)
Definition profile (holdings : list Asset.t) : ClientProfile.t :=
  ClientProfile.mk (ofZ 50) (lit "M") osaka
    (lit "mid") (lit "mid") (lit "growth") (lit "single") holdings.

(** Three stock proposals requested, with one sector selected. *)
Definition settings : ProposalSettings.t :=
  ProposalSettings.mk (<[lit "Stock" := ofZ 3]> ∅) (Some (<[lit "Stock" := [lit "tech"]]> ∅)).

(** The doubles nearest to 0.1, 0.2 and 0.3, and a ledger that holds the
    first two as amounts and the third as the profit of its first entry. *)
Definition tenth : number := Num (Q2Qc (3602879701896397 # 36028797018963968)).
Definition fifth : number := Num (Q2Qc (3602879701896397 # 18014398509481984)).
Definition threeTenths : number := Num (Q2Qc (5404319552844595 # 18014398509481984)).

Definition fractions : ClientProfile.t :=
  profile [ Asset.with_profitLoss (Some threeTenths)
              (Asset.with_amount tenth (holding "f1" 0 0));
            Asset.with_amount fifth (holding "f2" 0 0) ].

(** Four operations on a ledger that holds "h1": add a holding (it gets the
    clock as its id), re-enter the amount of "h1", add a third holding and
    remove it again. *)
Definition ledgerOps : list HoldingLedger.Op :=
  [ HoldingLedger.add (holding "" 300 (-50)) 1700000000001;
    HoldingLedger.update (lit "h1") (InputSection.amount_ (ofZ 150));
    HoldingLedger.add (holding "" 70 7) 1700000000002;
    HoldingLedger.remove (lit "1700000000002") ].

(** An AI candidate as the recommendation prompt asks for it: no id, no
    amount, no confidence. *)
Definition candidate : Asset.t :=
  Asset.mk [] (lit "Sony") (Some (lit "6758")) (lit "Stock") NaN
           None None (lit "JPY") None None Fundamentals.none.

Definition stock : StockDefinition.t :=
  StockDefinition.mk (lit "Sony") (lit "6758") (lit "Stock") (lit "JPY").

(** The state of [RebalanceSection] with one recommendation shown and one
    asset already proposed. *)
Definition rebalanceState : RebalanceSection.State :=
  RebalanceSection.mkState [holding "rec-0.1" 0 0] [holding "prop-0.2" 1000000 0]
                           false None.

(** *** Parse results of an import *)

Definition regionHint (region : jsstring) : InputSection.ProfileHints :=
  InputSection.mkProfileHints None None (Some region) None None None.

(** A parse result in the format the parse prompt asks the model for:
    the hints under the key [profile]. *)
Definition parsedAsPrompted (region : jsstring) : InputSection.ParseResult :=
  InputSection.mkParseResult (Some [candidate]) None (Some (regionHint region)).

(** A parse result in the shape of the declared [ParseResult] interface:
    the hints under the key [extractedProfile]. *)
Definition parsedAsDeclared (region : jsstring) : InputSection.ParseResult :=
  InputSection.mkParseResult (Some [candidate]) (Some (regionHint region)) None.

(** A parse result that carries the hints under both keys. *)
Definition parsedBothKeys (region : jsstring) : InputSection.ParseResult :=
  InputSection.mkParseResult (Some [candidate])
    (Some (regionHint region)) (Some (regionHint region)).

Definition clock : nat -> N := fun _ => 1700000000000.

(** *** Slides *)

Definition row (label : jsstring) (value1 : option jsstring) : TableRow.t :=
  TableRow.mk (Some label) None value1 None None.

(** "売却: A" with the amount "100"; "B" with no amount; "C" with "300";
    "D" with "-200". *)
Definition sellRowPositive : TableRow.t :=
  row (SlideRenderer.sellMarker ++ lit ": A") (Some (lit "100")).
Definition bareRow : TableRow.t := row (lit "B") None.
Definition buyRowPlain : TableRow.t := row (lit "C") (Some (lit "300")).
Definition sellRowNegative : TableRow.t := row (lit "D") (Some (lit "-200")).

Definition slide (type : SlideType) (bodyText : option jsstring)
    (tableData : option (list TableRow.t)) : SlideContent.t :=
  SlideContent.mk (lit "9") type (lit "Plan") None bodyText None tableData
                  None None None None.

Definition document : PresentationData.t :=
  PresentationData.mk (lit "Proposal") (lit "Client")
    [slide Title None None; slide Disclaimer (Some (lit "Not advice.")) None].

(** *** Worlds *)

(** A payload that [JSON.parse] reads as [document]; the texts "null" and
    "{}", which it reads as [null] and as the empty object; any other text
    is rejected. *)
Definition payload : jsstring := lit "{...}".

Definition parseDocument (t : jsstring) : option (Cast PresentationData.t) :=
  if JS.eqb t payload then Some (Typed document)
  else if JS.eqb t (lit "null") then Some (Untyped JSON.null)
  else if JS.eqb t (lit "{}") then Some (Untyped (JSON.object []))
  else None.

(** A model endpoint that answers every call with the same text; the SDK
    has no interactions client. *)
Definition answers (t : jsstring) : Gemini.Runtime :=
  Gemini.mkRuntime
    (fun _ _ => inl (Gemini.mkResponse (Some t) None))
    None parseDocument (fun _ => None).

(** A model endpoint that rejects every call with a server error. *)
Definition serverError : Gemini.ApiError :=
  Gemini.mkApiError (Some 500%Z) (lit "Internal error") None.

Definition failing : Gemini.Runtime :=
  Gemini.mkRuntime (fun _ _ => inr serverError) None (fun _ => None) (fun _ => None).

(** A model endpoint that rejects every call for quota. *)
Definition quotaError : Gemini.ApiError :=
  Gemini.mkApiError (Some 429%Z) (lit "Too Many Requests") (Some (lit "RESOURCE_EXHAUSTED")).

Definition exhausted : Gemini.Runtime :=
  Gemini.mkRuntime (fun _ _ => inr quotaError) None (fun _ => None) (fun _ => None).

(** A research agent that never finishes: every poll reports "IN_PROGRESS".
    The model itself answers every call with the payload. *)
Definition pending : Gemini.Interaction :=
  Gemini.mkInteraction (lit "interactions/1") (Some (lit "IN_PROGRESS")) None None.

Definition stuck : Gemini.Runtime :=
  Gemini.mkRuntime
    (fun _ _ => inl (Gemini.mkResponse (Some payload) None))
    (Some (Gemini.mkInteractionsClient (fun _ _ => inl pending) (fun _ _ => inl pending)))
    parseDocument (fun _ => None).

(** The research call is rejected; the generation call succeeds. *)
Definition researchDown : Gemini.Runtime :=
  Gemini.mkRuntime
    (fun _ params =>
       match Gemini.contents params with
       | Gemini.ProposalPrompt _ _ _ => inl (Gemini.mkResponse (Some payload) None)
       | _ => inr serverError
       end)
    None parseDocument (fun _ => None).

(** The research agent cannot be started; the generation call succeeds. *)
Definition agentDown : Gemini.Runtime :=
  Gemini.mkRuntime
    (fun _ _ => inl (Gemini.mkResponse (Some payload) None))
    (Some (Gemini.mkInteractionsClient (fun _ _ => inr serverError)
                                       (fun _ _ => inr serverError)))
    parseDocument (fun _ => None).



(** *** Sessions of the application *)

(** The user completes the input step with one holding and asks for the
    report of one proposed asset; the generation settles with [result]. *)
Definition session (result : Gemini.outcome (Cast PresentationData.t))
    : list App.Event :=
  [ App.Next (profile [holding "h1" 100 10]) settings;
    App.GenerateReport [candidate];
    App.Settled result ].

(** *** Imports *)

(** The text [{"assets":"none"}]. *)
Definition assetsNone : jsstring :=
  [0x7B; 0x22] ++ lit "assets" ++ [0x22; 0x3A; 0x22] ++ lit "none" ++ [0x22; 0x7D].

(** [JSON.parse] on the texts of the imports below: "null", the object
    whose [assets] is the string "none", and a payload with one asset. *)
Definition parseImport (t : jsstring) : option PortfolioDocument.Parsed :=
  if JS.eqb t (lit "null") then Some PortfolioDocument.Null
  else if JS.eqb t assetsNone then Some PortfolioDocument.AssetsNotArray
  else if JS.eqb t payload
       then Some (PortfolioDocument.Result
                    (InputSection.mkParseResult (Some [candidate]) None None))
  else None.

(** A parse call that brings back the text [t]. *)
Definition parseCall (t : jsstring) : Gemini.M (option Gemini.Response) :=
  Gemini.ret (Some (Gemini.mkResponse (Some t) None)).

End Sample.

(* ===================================================================== *)
(** * Properties of the embedding *)
(* ===================================================================== *)

(** ** Strings *)

Lemma eqb_eq (s t : jsstring) : JS.eqb s t = true <-> s = t.
Proof.
  revert t; induction s as [|c s IH]; intros [|d t]; simpl; split; try congruence; try easy.
  - intros H. apply andb_true_iff in H as [Hc Hs].
    apply N.eqb_eq in Hc. apply IH in Hs. congruence.
  - intros H. injection H as -> ->. rewrite N.eqb_refl. simpl. now apply IH.
Qed.

Lemma eqb_refl (s : jsstring) : JS.eqb s s = true.
Proof. now apply eqb_eq. Qed.

Lemma eqb_neq (s t : jsstring) : JS.eqb s t = false <-> s <> t.
Proof.
  split.
  - intros H E. apply eqb_eq in E. congruence.
  - intros H. destruct (JS.eqb s t) eqn:E; [|reflexivity].
    apply eqb_eq in E. contradiction.
Qed.

Lemma startsWith_spec (s p : jsstring) :
  startsWith s p = true <-> exists r, s = p ++ r.
Proof.
  revert s; induction p as [|c p IH]; intros [|d s]; simpl.
  - split; [intros _; now exists [] | reflexivity].
  - split; [intros _; now exists (d :: s) | reflexivity].
  - split; [discriminate | intros [r Hr]; discriminate].
  - rewrite andb_true_iff, N.eqb_eq, IH. split.
    + intros [-> [r ->]]. now exists r.
    + intros [r Hr]. injection Hr as -> ->. split; [reflexivity | now exists r].
Qed.

Lemma includes_spec (s sub : jsstring) :
  includes s sub = true <-> exists a b, s = a ++ sub ++ b.
Proof.
  induction s as [|d s IH].
  - cbn [includes]. rewrite orb_false_r, startsWith_spec. split.
    + intros [r Hr]. now exists [], r.
    + intros [a [b H]]. destruct a; [now exists b | discriminate].
  - cbn [includes]. rewrite orb_true_iff, startsWith_spec, IH. split.
    + intros [[r Hr] | [a [b H]]].
      * now exists [], r.
      * exists (d :: a), b. simpl. now rewrite H.
    + intros [[|x a] [b H]].
      * left. now exists b.
      * right. injection H as -> ->. now exists a, b.
Qed.

Lemma lit_inj (s t : string) : lit s = lit t -> s = t.
Proof.
  unfold lit. revert t; induction s as [|a s IH]; intros [|b t]; simpl; try easy.
  intros H. injection H as Ha Hs.
  f_equal; [| now apply IH].
  rewrite <- (ascii_N_embedding a), <- (ascii_N_embedding b). now rewrite Ha.
Qed.

Lemma to_uint_not_Nil (n : N) : N.to_uint n <> Decimal.Nil.
Proof.
  intros H. pose proof (DecimalN.Unsigned.of_to n) as E. rewrite H in E.
  simpl in E. subst n. discriminate.
Qed.

Lemma showN_inj (a b : N) : showN a = showN b -> a = b.
Proof.
  unfold showN. intros H. apply lit_inj in H.
  apply DecimalN.Unsigned.to_uint_inj.
  pose proof (NilZero.usu _ (to_uint_not_Nil a)) as Ea.
  pose proof (NilZero.usu _ (to_uint_not_Nil b)) as Eb.
  rewrite H in Ea. rewrite Ea in Eb. now injection Eb.
Qed.

(** ** Numbers *)

Lemma Qc_is_zero_spec (q : Qc) : Qc_is_zero q = true <-> q = 0%Qc.
Proof.
  unfold Qc_is_zero. split.
  - apply Qc_eq_bool_correct.
  - intros ->. unfold Qc_eq_bool. now destruct (Qc_eq_dec 0%Qc 0%Qc).
Qed.

Lemma Qcltb_spec (a b : Qc) : Qcltb a b = true <-> (a < b)%Qc.
Proof.
  unfold Qcltb. rewrite Qclt_alt. destruct (a ?= b)%Qc; split; congruence.
Qed.

Lemma ofZ_0 : ofZ 0 = Num 0%Qc.
Proof. reflexivity. Qed.

Lemma orZero_Num (q : Qc) : orZero (Num q) = Num q.
Proof.
  unfold orZero, truthyNum. destruct (Qc_is_zero q) eqn:E; simpl; [|reflexivity].
  apply Qc_is_zero_spec in E. subst q. apply ofZ_0.
Qed.

Lemma gt_Num_0 (q : Qc) : gt (Num q) (ofZ 0) = true <-> (0 < q)%Qc.
Proof. rewrite ofZ_0. simpl. apply Qcltb_spec. Qed.

(** ** Doubles: whole numbers are exact *)

Section Doubles.
Local Open Scope Z_scope.

Lemma this_inject_Z (z : Z) : this (Q2Qc (inject_Z z)) = inject_Z z.
Proof.
  change (this (Q2Qc (inject_Z z))) with (Qred (inject_Z z)).
  apply Qred_identity. cbn [inject_Z Qnum Qden]. apply Z.gcd_1_r.
Qed.

Lemma floorLog2_integer (a : Z) : (0 < a)%Z -> floorLog2 a 1 = Z.log2 a.
Proof.
  intros Ha. unfold floorLog2. cbn [Z.log2]. rewrite Z.sub_0_r.
  pose proof (Z.log2_nonneg a) as L0.
  rewrite Z.max_l by lia. rewrite Z.max_r by lia.
  destruct (Z.log2_spec a Ha) as [Hl _].
  replace (1 * 2 ^ Z.log2 a <=? a * 2 ^ 0)%Z with true; [reflexivity|].
  symmetry. apply Z.leb_le. lia.
Qed.

Lemma roundHalfEven_integer (p : Z) : roundHalfEven p 1 = p.
Proof. unfold roundHalfEven. rewrite Z.mod_1_r, Z.div_1_r. reflexivity. Qed.

Lemma Qc_opp_inject_Z (a : Z) : (- Q2Qc (inject_Z a))%Qc = Q2Qc (inject_Z (- a)).
Proof. unfold Qcopp. rewrite this_inject_Z. apply Q2Qc_eq_iff. reflexivity. Qed.

Lemma Qc_plus_inject_Z (a b : Z) :
  (Q2Qc (inject_Z a) + Q2Qc (inject_Z b))%Qc = Q2Qc (inject_Z (a + b)).
Proof.
  unfold Qcplus. rewrite !this_inject_Z. apply Q2Qc_eq_iff.
  rewrite inject_Z_plus. reflexivity.
Qed.

Lemma round_natural (a : Z) :
  (0 < a < 2 ^ 53)%Z ->
  let s := Z.max (Z.log2 a - 52) (-1074) in
  let k := (a * 2 ^ Z.max (- s) 0)%Z in
  ((0 <=? s)%Z && (2 ^ 1024 <=? k * 2 ^ s)%Z = false)
  /\ (if (0 <=? s)%Z then Q2Qc (inject_Z (k * 2 ^ s))
      else Q2Qc (Qmake k (Z.to_pos (2 ^ (- s))))) = Q2Qc (inject_Z a).
Proof.
  intros [Ha Hb]. cbv zeta.
  pose proof (Z.log2_nonneg a) as L0.
  assert (L : (Z.log2 a < 53)%Z) by (apply Z.log2_lt_pow2; lia).
  rewrite (Z.max_l (Z.log2 a - 52)) by lia.
  set (s := (Z.log2 a - 52)%Z).
  destruct (Z.eq_dec s 0) as [E|E].
  - rewrite E. cbn [Z.opp Z.max Z.pow Z.leb Z.compare andb].
    change (2 ^ 0)%Z with 1%Z. rewrite !Z.mul_1_r. split; [|reflexivity].
    apply Z.leb_gt. eapply Z.lt_trans; [exact Hb|]. reflexivity.
  - assert (Hs : (s < 0)%Z) by lia.
    replace (0 <=? s)%Z with false by (symmetry; apply Z.leb_gt; exact Hs).
    split; [reflexivity|].
    rewrite Z.max_l by lia.
    apply Q2Qc_eq_iff. unfold Qeq. cbn [Qnum Qden inject_Z].
    rewrite Z2Pos.id by (apply Z.pow_pos_nonneg; lia). lia.
Qed.

(** An integer of magnitude below [2^53] is a double. *)
Lemma round_integer (z : Z) :
  (Z.abs z < 2 ^ 53)%Z -> JS.round (Q2Qc (inject_Z z)) = ofZ z.
Proof.
  intros Hz. unfold JS.round, ofZ. rewrite this_inject_Z. cbn [Qnum Qden inject_Z].
  destruct (z =? 0)%Z eqn:Z0; [reflexivity|]. apply Z.eqb_neq in Z0.
  assert (Ha : (0 < Z.abs z < 2 ^ 53)%Z) by lia.
  rewrite (floorLog2_integer _ (proj1 Ha)).
  set (s := Z.max (Z.log2 (Z.abs z) - 52) (-1074)).
  assert (S0 : (s <= 0)%Z).
  { unfold s. assert (Z.log2 (Z.abs z) < 53)%Z by (apply Z.log2_lt_pow2; lia). lia. }
  replace (1 * 2 ^ Z.max s 0)%Z with 1%Z by (rewrite Z.max_r by lia; reflexivity).
  rewrite roundHalfEven_integer.
  destruct (round_natural (Z.abs z) Ha) as [O V]. fold s in O, V.
  rewrite O, V. f_equal.
  destruct (z <? 0)%Z eqn:N.
  - apply Z.ltb_lt in N. rewrite Qc_opp_inject_Z. f_equal. f_equal. lia.
  - apply Z.ltb_ge in N. f_equal. f_equal. lia.
Qed.

Lemma add_ofZ (a b : Z) :
  (Z.abs (a + b) < 2 ^ 53)%Z -> JS.add (ofZ a) (ofZ b) = ofZ (a + b).
Proof.
  intros H.
  change (JS.round (Q2Qc (inject_Z a) + Q2Qc (inject_Z b))%Qc = ofZ (a + b)).
  rewrite Qc_plus_inject_Z. now apply round_integer.
Qed.

Lemma neg_ofZ (a : Z) : neg (ofZ a) = ofZ (- a).
Proof. unfold neg, ofZ. now rewrite Qc_opp_inject_Z. Qed.

Lemma Qc_pos_inject_Z (z : Z) : (0 < Q2Qc (inject_Z z))%Qc <-> (0 < z)%Z.
Proof.
  unfold Qclt. rewrite this_inject_Z. unfold Qlt. cbn [this Q2Qc Qnum Qden inject_Z].
  change (Qnum (Qred 0)) with 0%Z. change (QDen (Qred 0)) with 1%Z. lia.
Qed.

Lemma Qc_zero_inject_Z (z : Z) : Qc_is_zero (Q2Qc (inject_Z z)) = (z =? 0)%Z.
Proof.
  destruct (z =? 0)%Z eqn:E.
  - apply Z.eqb_eq in E. subst z. reflexivity.
  - destruct (Qc_is_zero _) eqn:Q; [|reflexivity].
    apply Qc_is_zero_spec in Q. apply Z.eqb_neq in E.
    assert (H : (inject_Z z == 0)%Q).
    { rewrite <- this_inject_Z, Q. reflexivity. }
    unfold Qeq in H. cbn [Qnum Qden inject_Z] in H. lia.
Qed.

End Doubles.

(** ** The Holding Ledger (C5) *)

Section LedgerTotals.
Import HoldingLedger.
Local Open Scope Z_scope.

Lemma whole_ofZ (x : number) (z : Z) : whole x = Some z -> x = ofZ z.
Proof.
  destruct x as [| |[[n [d|d|]] c]]; cbn; try discriminate.
  intros [= <-]. unfold ofZ. f_equal. apply Qc_is_canon. cbn [this Q2Qc].
  rewrite Qred_correct. reflexivity.
Qed.

Lemma isWhole_ofZ (x : number) :
  isWhole x = true -> x = ofZ (default 0%Z (whole x)).
Proof.
  unfold isWhole. destruct (whole x) as [z|] eqn:W; [|discriminate].
  intros _. now apply whole_ofZ.
Qed.

Lemma wholeAsset_amount (h : Asset.t) :
  wholeAsset h = true -> orZero (Asset.amount h) = ofZ (amountZ h).
Proof.
  unfold wholeAsset, amountZ. intros H. apply andb_true_iff in H as [H _].
  rewrite (isWhole_ofZ _ H) at 1. apply orZero_Num.
Qed.

Lemma wholeAsset_profitLoss (h : Asset.t) :
  wholeAsset h = true -> orZeroOpt (Asset.profitLoss h) = ofZ (profitLossZ h).
Proof.
  unfold wholeAsset, profitLossZ. intros H. apply andb_true_iff in H as [_ H].
  destruct (Asset.profitLoss h) as [v|]; [|reflexivity].
  cbn [orZeroOpt]. rewrite (isWhole_ofZ _ H) at 1. apply orZero_Num.
Qed.

(** Summing whole numbers from the left is exact while the magnitudes add
    up to less than [2^53]. *)
Lemma fold_whole (f : Asset.t -> number) (g : Asset.t -> Z) (l : list Asset.t)
    (acc : Z) :
  (forall h, In h l -> f h = ofZ (g h)) ->
  (Z.abs acc + fold_right Z.add 0 (map (fun h => Z.abs (g h)) l) < 2 ^ 53)%Z ->
  fold_left (fun sum h => JS.add sum (f h)) l (ofZ acc)
  = ofZ (acc + fold_right Z.add 0 (map g l)).
Proof.
  revert acc. induction l as [|h l IH]; intros acc Hf Hb; cbn [fold_left map fold_right] in *.
  - now rewrite Z.add_0_r.
  - assert (P : (0 <= fold_right Z.add 0 (map (fun h => Z.abs (g h)) l))%Z).
    { clear. induction l as [|x l IH]; cbn; lia. }
    rewrite (Hf h) by now left. rewrite add_ofZ by lia.
    rewrite IH; [f_equal; lia | intros x Hx; apply Hf; now right | lia].
Qed.

Lemma magnitude_amounts (l : list Asset.t) :
  (fold_right Z.add 0 (map (fun h => Z.abs (amountZ h)) l)
   + fold_right Z.add 0 (map (fun h => Z.abs (profitLossZ h)) l)
   = fold_right Z.add 0
       (map (fun h => Z.abs (amountZ h) + Z.abs (profitLossZ h)) l))%Z.
Proof. induction l as [|h l IH]; cbn [map fold_right]; lia. Qed.

Lemma sum_abs_bound (g : Asset.t -> Z) (l : list Asset.t) :
  (Z.abs (fold_right Z.add 0 (map g l))
   <= fold_right Z.add 0 (map (fun h => Z.abs (g h)) l))%Z.
Proof. induction l as [|h l IH]; cbn [map fold_right]; lia. Qed.

(** Whole entries stay whole under an operation that enters whole numbers. *)
Lemma apply_whole (p : ClientProfile.t) (op : Op) :
  wholeLedger p = true -> wholeOp op = true -> wholeLedger (apply p op) = true.
Proof.
  unfold wholeLedger. intros Hp Hop. destruct op as [h now | id fv | id]; simpl.
  - unfold InputSection.addHolding. destruct (truthy (Asset.name h)); [|assumption].
    simpl. rewrite forallb_app, Hp. simpl. rewrite andb_true_r. exact Hop.
  - rewrite forallb_forall in *. intros x Hx. apply in_map_iff in Hx as [h [<- Hh]].
    specialize (Hp h Hh). destruct (JS.eqb (Asset.id h) id); [|assumption].
    unfold wholeAsset in *. apply andb_true_iff in Hp as [Ha Hpl].
    destruct fv; simpl in *; rewrite ?Ha, ?Hpl, ?Hop; reflexivity.
  - rewrite forallb_forall in *. intros x Hx. apply filter_In in Hx as [Hx _]. auto.
Qed.

Lemma run_whole (ops : list Op) (p : ClientProfile.t) :
  wholeLedger p = true -> forallb wholeOp ops = true ->
  wholeLedger (run ops p) = true.
Proof.
  revert p; induction ops as [|op ops IH]; intros p Hp Hops; simpl; [assumption|].
  apply andb_true_iff in Hops as [Hop Hops].
  apply IH; [apply apply_whole|]; assumption.
Qed.

(** The totals of a ledger of whole numbers. *)
Lemma totals_whole (p : ClientProfile.t) :
  wholeLedger p = true -> (magnitude p < 2 ^ 53)%Z ->
  InputSection.totalAmount p = ofZ (sumAmountZ p)
  /\ InputSection.totalProfitLoss p = ofZ (sumProfitLossZ p)
  /\ InputSection.totalInvested p = ofZ (sumAmountZ p - sumProfitLossZ p).
Proof.
  unfold wholeLedger, magnitude. intros Hp Hm.
  rewrite forallb_forall in Hp. rewrite <- magnitude_amounts in Hm.
  pose proof (sum_abs_bound amountZ (ClientProfile.currentHoldings p)) as BA.
  pose proof (sum_abs_bound profitLossZ (ClientProfile.currentHoldings p)) as BP.
  assert (PA : (0 <= fold_right Z.add 0
                       (map (fun h => Z.abs (amountZ h))
                            (ClientProfile.currentHoldings p)))%Z)
    by (clear; induction (ClientProfile.currentHoldings p); cbn; lia).
  assert (PP : (0 <= fold_right Z.add 0
                       (map (fun h => Z.abs (profitLossZ h))
                            (ClientProfile.currentHoldings p)))%Z)
    by (clear; induction (ClientProfile.currentHoldings p); cbn; lia).
  assert (HA : InputSection.totalAmount p = ofZ (sumAmountZ p)).
  { unfold InputSection.totalAmount, sumAmountZ.
    rewrite (fold_whole (fun h => orZero (Asset.amount h)) amountZ);
      [reflexivity | intros h Hh; apply wholeAsset_amount, Hp, Hh | cbn; lia]. }
  assert (HP : InputSection.totalProfitLoss p = ofZ (sumProfitLossZ p)).
  { unfold InputSection.totalProfitLoss, sumProfitLossZ.
    rewrite (fold_whole (fun h => orZeroOpt (Asset.profitLoss h)) profitLossZ);
      [reflexivity | intros h Hh; apply wholeAsset_profitLoss, Hp, Hh | cbn; lia]. }
  split; [exact HA|]. split; [exact HP|].
  unfold InputSection.totalInvested, JS.sub. rewrite HA, HP, neg_ofZ.
  unfold sumAmountZ, sumProfitLossZ in *. rewrite add_ofZ by lia. f_equal.
Qed.

End LedgerTotals.

(** C5 (as the code has it). The totals are recomputed from the current
    entries in double arithmetic.  After any sequence of add/update/remove
    operations that enter whole numbers, on a ledger of whole numbers whose
    magnitudes add up to less than 2^53, the total amount is the
    arithmetic sum of the current amounts, the total profit/loss the sum
    of the current profit/loss fields, and the invested base their
    difference, all exact; the return percentage is the quotient
    profitLoss / investedBase rounded to a double, times 100, rounded
    again, when the invested base is positive, and exactly 0 when it is
    not.  On every ledger the return percentage is exactly 0 whenever the
    invested base the program computed is not above 0. *)
Theorem ledger_totals_after_operations
    (ops : list HoldingLedger.Op) (p0 : ClientProfile.t) :
  HoldingLedger.wholeLedger p0 = true ->
  forallb HoldingLedger.wholeOp ops = true ->
  let p := HoldingLedger.run ops p0 in
  (HoldingLedger.magnitude p < 2 ^ 53)%Z ->
  let A := HoldingLedger.sumAmountZ p in
  let P := HoldingLedger.sumProfitLossZ p in
  InputSection.totalAmount p = ofZ A
  /\ InputSection.totalProfitLoss p = ofZ P
  /\ InputSection.totalInvested p = ofZ (A - P)
  /\ ((0 < A - P)%Z ->
      InputSection.totalReturnPct p
      = JS.mul (JS.round (Q2Qc (inject_Z P) / Q2Qc (inject_Z (A - P)))%Qc) (ofZ 100))
  /\ ((A - P <= 0)%Z -> InputSection.totalReturnPct p = ofZ 0)
  /\ (forall q : ClientProfile.t,
        gt (InputSection.totalInvested q) (ofZ 0) = false ->
        InputSection.totalReturnPct q = ofZ 0).
Proof.
  intros Hp Hops. cbv zeta. intros Hm.
  destruct (totals_whole _ (run_whole ops p0 Hp Hops) Hm) as [HA [HP HI]].
  set (A := HoldingLedger.sumAmountZ (HoldingLedger.run ops p0)) in *.
  set (P := HoldingLedger.sumProfitLossZ (HoldingLedger.run ops p0)) in *.
  split; [exact HA|]. split; [exact HP|]. split; [exact HI|].
  split; [|split].
  - intros Hpos. unfold InputSection.totalReturnPct. rewrite HI, HP.
    destruct (gt_Num_0 (Q2Qc (inject_Z (A - P)))) as [_ G].
    change (gt (ofZ (A - P)) (ofZ 0)) with (gt (Num (Q2Qc (inject_Z (A - P)))) (ofZ 0)).
    rewrite (G (proj2 (Qc_pos_inject_Z _) Hpos)). f_equal.
    unfold JS.div, ofZ. rewrite Qc_zero_inject_Z.
    destruct (A - P =? 0)%Z eqn:E; [apply Z.eqb_eq in E; subst A P; lia | reflexivity].
  - intros Hle. unfold InputSection.totalReturnPct. rewrite HI.
    change (gt (ofZ (A - P)) (ofZ 0)) with (gt (Num (Q2Qc (inject_Z (A - P)))) (ofZ 0)).
    destruct (gt (Num (Q2Qc (inject_Z (A - P)))) (ofZ 0)) eqn:G; [|reflexivity].
    apply (proj1 (gt_Num_0 _)) in G. apply (proj1 (Qc_pos_inject_Z _)) in G.
    subst A P. lia.
  - intros q0 G. unfold InputSection.totalReturnPct. now rewrite G.
Qed.

Lemma ledger_totals_witness :
  HoldingLedger.wholeLedger (Sample.profile [Sample.holding "h1" 100 20]) = true
  /\ forallb HoldingLedger.wholeOp Sample.ledgerOps = true
  /\ (HoldingLedger.magnitude
        (HoldingLedger.run Sample.ledgerOps (Sample.profile [Sample.holding "h1" 100 20]))
      < 2 ^ 53)%Z
  /\ InputSection.totalAmount
       (HoldingLedger.run Sample.ledgerOps (Sample.profile [Sample.holding "h1" 100 20]))
     = ofZ 450
  /\ map Asset.id
       (ClientProfile.currentHoldings
          (HoldingLedger.run Sample.ledgerOps
             (Sample.profile [Sample.holding "h1" 100 20])))
     = [lit "h1"; lit "1700000000001"].
Proof.
  assert (H1 : HoldingLedger.wholeLedger (Sample.profile [Sample.holding "h1" 100 20])
               = true) by (vm_compute; reflexivity).
  assert (H2 : forallb HoldingLedger.wholeOp Sample.ledgerOps = true)
    by (vm_compute; reflexivity).
  assert (H3 : (HoldingLedger.magnitude
                  (HoldingLedger.run Sample.ledgerOps
                     (Sample.profile [Sample.holding "h1" 100 20])) < 2 ^ 53)%Z)
    by (vm_compute; reflexivity).
  split; [exact H1|]. split; [exact H2|]. split; [exact H3|].
  split; [|vm_compute; reflexivity].
  destruct (ledger_totals_after_operations Sample.ledgerOps
              (Sample.profile [Sample.holding "h1" 100 20]) H1 H2 H3) as [HA _].
  rewrite HA. f_equal.
Defined.

(** On that ledger: 150 + 300 = 450 in amounts, 20 - 50 = -30 in profit,
    an invested base of 480 and a return of -30 / 480 * 100 = -6.25 %. *)
Example ledger_totals_example :
  let p := HoldingLedger.run Sample.ledgerOps
             (Sample.profile [Sample.holding "h1" 100 20]) in
  InputSection.totalAmount p = ofZ 450
  /\ InputSection.totalProfitLoss p = ofZ (-30)
  /\ InputSection.totalInvested p = ofZ 480
  /\ InputSection.totalReturnPct p = Num (Q2Qc (-25 # 4)).
Proof.
  cbv zeta. repeat split; vm_compute; f_equal; apply Qc_is_canon; reflexivity.
Qed.

(** C5, as stated, fails on amounts that are not whole numbers.  With the
    amounts entered as "0.1" and "0.2" and a profit entered as "0.3", the
    total amount the program computes is the double 0.30000000000000004,
    not the sum of the two amounts it holds; the invested base it computes
    is 2^-54, not the difference of the two sums; and the return it shows
    is 540431955284459520 %, which is not even the quotient of the totals
    it computed times 100 (that is 540431955284459500). *)
Lemma ledger_totals_counterexample :
  InputSection.handleAmountChange (lit "0.1") = Some Sample.tenth
  /\ InputSection.handleAmountChange (lit "0.2") = Some Sample.fifth
  /\ InputSection.handleAmountChange (lit "0.3") = Some Sample.threeTenths
  /\ InputSection.totalAmount Sample.fractions
     = Num (Q2Qc (5404319552844596 # 18014398509481984))
  /\ InputSection.totalAmount Sample.fractions
     <> Num (HoldingLedger.sumAmount Sample.fractions)
  /\ InputSection.totalProfitLoss Sample.fractions = Sample.threeTenths
  /\ InputSection.totalInvested Sample.fractions = Num (Q2Qc (1 # 18014398509481984))
  /\ InputSection.totalInvested Sample.fractions
     <> Num (HoldingLedger.sumAmount Sample.fractions
             - HoldingLedger.sumProfitLoss Sample.fractions)%Qc
  /\ gt (InputSection.totalInvested Sample.fractions) (ofZ 0) = true
  /\ InputSection.totalReturnPct Sample.fractions = ofZ 540431955284459520
  /\ InputSection.totalReturnPct Sample.fractions <> ofZ 540431955284459500.
Proof.
  assert (Fraction : forall x y : number,
            x = y ->
            match x with Num q => (Qnum q, Qden q) | _ => (0%Z, 1%positive) end
            = match y with Num q => (Qnum q, Qden q) | _ => (0%Z, 1%positive) end)
    by (intros x y ->; reflexivity).
  repeat match goal with |- _ /\ _ => split end;
    try (intros H; apply Fraction in H; vm_compute in H; discriminate H);
    vm_compute;
    first [reflexivity
          | f_equal; apply Qc_is_canon; reflexivity
          | do 2 f_equal; apply Qc_is_canon; reflexivity].
Qed.

(** An amount entered as "Infinity" is accepted by the amount field; the
    total amount and the invested base of the ledger are then infinite,
    and the return is 0. *)
Example ledger_totals_infinite :
  let p := HoldingLedger.run
             [HoldingLedger.update (lit "h1") (InputSection.amount_ (Infinity false))]
             (Sample.profile [Sample.holding "h1" 100 20]) in
  InputSection.totalAmount p = Infinity false
  /\ InputSection.totalProfitLoss p = ofZ 20
  /\ InputSection.totalInvested p = Infinity false
  /\ InputSection.totalReturnPct p = ofZ 0.
Proof.
  cbv zeta. repeat split; vm_compute;
    first [reflexivity | f_equal; apply Qc_is_canon; reflexivity].
Qed.

(** ** Proposal settings (C8) *)

Lemma gt_zero_zero : gt (orZeroOpt (Some (ofZ 0))) (ofZ 0) = false.
Proof.
  cbn [orZeroOpt]. rewrite ofZ_0, orZero_Num. cbn [gt].
  destruct (Qcltb 0%Qc 0%Qc) eqn:E; [|reflexivity].
  apply Qcltb_spec in E. exfalso. revert E. apply Qcle_not_lt, Qcle_refl.
Qed.

(** C8. Toggling a proposal asset type off zeroes its requested count and
    leaves the sub-category selection as it was; toggling it back on (the
    count becomes 1) yields exactly the sub-categories selected before. *)
Theorem toggle_type_keeps_subcategories (s : ProposalSettings.t) (type : jsstring) :
  gt (orZeroOpt (ProposalSettings.proposalCounts s !! type)) (ofZ 0) = true ->
  let off := InputSection.toggleProposalType type s in
  let on := InputSection.toggleProposalType type off in
  ProposalSettings.proposalCounts off !! type = Some (ofZ 0)
  /\ ProposalSettings.proposalDetails off = ProposalSettings.proposalDetails s
  /\ (forall t, InputSection.detailsOf t off = InputSection.detailsOf t s)
  /\ ProposalSettings.proposalCounts on !! type = Some (ofZ 1)
  /\ ProposalSettings.proposalDetails on = ProposalSettings.proposalDetails s
  /\ (forall t, InputSection.detailsOf t on = InputSection.detailsOf t s).
Proof.
  intros Hon. cbv zeta.
  assert (Hoff : ProposalSettings.proposalCounts (InputSection.toggleProposalType type s)
                 !! type = Some (ofZ 0)).
  { unfold InputSection.toggleProposalType. simpl. rewrite Hon. apply lookup_insert_eq. }
  set (off := InputSection.toggleProposalType type s) in *.
  assert (Hd : ProposalSettings.proposalDetails off = ProposalSettings.proposalDetails s)
    by reflexivity.
  repeat split; try assumption; try reflexivity.
  unfold InputSection.toggleProposalType. cbn [ProposalSettings.proposalCounts].
  rewrite Hoff, gt_zero_zero. apply lookup_insert_eq.
Qed.

Lemma toggle_type_keeps_subcategories_witness :
  gt (orZeroOpt (ProposalSettings.proposalCounts Sample.settings !! lit "Stock")) (ofZ 0)
  = true
  /\ InputSection.detailsOf (lit "Stock")
       (InputSection.toggleProposalType (lit "Stock")
          (InputSection.toggleProposalType (lit "Stock") Sample.settings))
     = [lit "tech"].
Proof.
  assert (H : gt (orZeroOpt (ProposalSettings.proposalCounts Sample.settings !! lit "Stock"))
                 (ofZ 0) = true).
  { unfold Sample.settings. cbn [ProposalSettings.proposalCounts].
    rewrite lookup_insert_eq. cbn [orZeroOpt]. unfold ofZ at 1. rewrite orZero_Num.
    apply gt_Num_0. reflexivity. }
  split; [exact H|].
  destruct (toggle_type_keeps_subcategories Sample.settings (lit "Stock") H)
    as [_ [_ [_ [_ [_ E]]]]].
  rewrite E. unfold InputSection.detailsOf, Sample.settings.
  cbn [ProposalSettings.proposalDetails]. rewrite lookup_insert_eq. reflexivity.
Defined.

(** ** Amount entry (C4) *)

Section AmountEntry.
Import AmountSpec.

Lemma toHalfWidth_fullwidth (c : N) :
  AmountText.isFullWidthDigit c = true -> AmountText.toHalfWidth c = c - 0xFEE0.
Proof.
  unfold AmountText.toHalfWidth. intros H. rewrite H.
  unfold AmountText.isFullWidthDigit in H.
  apply andb_true_iff in H as [H1 H2]. apply N.leb_le in H1, H2.
  unfold fromCharCode. rewrite Z.mod_small by lia. lia.
Qed.

Lemma normalized_units (val : jsstring) :
  AmountText.normalized val = flat_map normalizedUnit val.
Proof.
  unfold AmountText.normalized. induction val as [|c val IH]; [reflexivity|].
  cbn [map List.filter flat_map]. rewrite IH.
  generalize (flat_map normalizedUnit val) as rest. intros rest.
  unfold normalizedUnit.
  destruct (AmountText.isFullWidthDigit c) eqn:F.
  - rewrite (toHalfWidth_fullwidth c F).
    unfold AmountText.isFullWidthDigit in F.
    apply andb_true_iff in F as [H1 H2]. apply N.leb_le in H1, H2.
    replace (c - 0xFEE0 =? ch ",") with false; [reflexivity|].
    symmetry. apply N.eqb_neq. unfold ch. simpl. lia.
  - unfold AmountText.toHalfWidth. rewrite F.
    destruct (c =? ch ","); reflexivity.
Qed.

Lemma decimalValue_acc (ds : list N) (acc : N) :
  fold_left (fun a d => 10 * a + d) ds acc
  = acc * 10 ^ N.of_nat (List.length ds) + positional ds.
Proof.
  revert acc; induction ds as [|d ds IH]; intros acc.
  - simpl. lia.
  - cbn [fold_left positional List.length]. rewrite IH.
    rewrite Nat2N.inj_succ, N.pow_succ_r'. lia.
Qed.

Lemma decimalValue_positional (ds : list N) : decimalValue ds = positional ds.
Proof. unfold decimalValue. rewrite decimalValue_acc. lia. Qed.

Lemma takeDigits_render (ds : list N) :
  digits ds -> takeDigits (render ds) = (ds, []).
Proof.
  induction 1 as [|d ds Hd _ IH]; [reflexivity|].
  cbn [render map takeDigits]. fold (render ds). rewrite IH.
  assert (E : isDigit (d + 48) = true).
  { unfold isDigit. apply andb_true_iff. split; apply N.leb_le; lia. }
  rewrite E. unfold digitValue. f_equal. f_equal. lia.
Qed.

Lemma digit_not_space (c : N) : isDigit c = true -> isWhiteSpace c = false.
Proof.
  unfold isDigit, isWhiteSpace. intros H.
  apply andb_true_iff in H as [H1 H2]. apply N.leb_le in H1, H2.
  cbn [existsb].
  repeat (rewrite (proj2 (N.eqb_neq c _)) by lia). cbn [orb].
  apply andb_false_iff. left. apply N.leb_gt. lia.
Qed.

(** [parseFloat] reads a text of standard digits as the number it denotes,
    as long as that number is below [2^53]. *)
Lemma parseFloat_render (ds : list N) :
  digits ds -> ds <> [] -> (Z.of_N (positional ds) < 2 ^ 53)%Z ->
  parseFloat (render ds) = ofZ (Z.of_N (positional ds)).
Proof.
  intros Hds Hne Hb. destruct ds as [|d ds']; [contradiction|].
  pose proof (takeDigits_render _ Hds) as T.
  assert (Hd : d < 10) by (inversion Hds; assumption).
  assert (E : isDigit (d + 48) = true).
  { unfold isDigit. apply andb_true_iff. split; apply N.leb_le; lia. }
  unfold parseFloat.
  replace (trimStart (render (d :: ds'))) with (render (d :: ds'))
    by (cbn [render map trimStart]; now rewrite (digit_not_space _ E)).
  cbn [render map] in *. fold (render ds') in *.
  replace (d + 48 =? ch "-") with false by (symmetry; apply N.eqb_neq; unfold ch; simpl; lia).
  replace (d + 48 =? ch "+") with false by (symmetry; apply N.eqb_neq; unfold ch; simpl; lia).
  replace (startsWith (d + 48 :: render ds') (lit "Infinity")) with false.
  2:{ symmetry. cbn [lit list_ascii_of_string map startsWith].
      apply andb_false_iff. left. apply N.eqb_neq. simpl. lia. }
  rewrite T. cbn [app]. cbn [parseExponent List.length].
  unfold scale. rewrite decimalValue_positional, app_nil_r.
  change (0 - Z.of_nat 0)%Z with 0%Z. change (0 <=? 0)%Z with true.
  change (10 ^ 0)%Z with 1%Z. rewrite Z.mul_1_r.
  apply round_integer. lia.
Qed.

Lemma digitOf_lt (c d : N) : digitOf c = Some d -> d < 10.
Proof.
  unfold digitOf, isDigit, AmountText.isFullWidthDigit.
  destruct ((48 <=? c) && (c <=? 57)) eqn:A.
  - intros [= <-]. apply andb_true_iff in A as [H1 H2]. apply N.leb_le in H1, H2. lia.
  - destruct ((0xFF10 <=? c) && (c <=? 0xFF19)) eqn:B; [|discriminate].
    intros [= <-]. apply andb_true_iff in B as [H1 H2]. apply N.leb_le in H1, H2. lia.
Qed.

Lemma normalizedUnit_digit (c d : N) :
  digitOf c = Some d -> normalizedUnit c = [d + 48].
Proof.
  unfold digitOf, normalizedUnit, isDigit, AmountText.isFullWidthDigit.
  destruct ((48 <=? c) && (c <=? 57)) eqn:A.
  - intros [= <-]. apply andb_true_iff in A as [H1 H2]. apply N.leb_le in H1, H2.
    replace ((0xFF10 <=? c) && (c <=? 0xFF19)) with false
      by (symmetry; apply andb_false_iff; left; apply N.leb_gt; lia).
    replace (c =? ch ",") with false
      by (symmetry; apply N.eqb_neq; unfold ch; simpl; lia).
    f_equal. lia.
  - destruct ((0xFF10 <=? c) && (c <=? 0xFF19)) eqn:B; [|discriminate].
    intros [= <-]. apply andb_true_iff in B as [H1 H2]. apply N.leb_le in H1, H2.
    f_equal. lia.
Qed.

Lemma plainAmount_normalized (val : jsstring) :
  forallb (fun c => match digitOf c with Some _ => true | None => isSeparator c end) val = true ->
  AmountText.normalized val = render (digitsOf val) /\ digits (digitsOf val).
Proof.
  rewrite normalized_units. unfold digitsOf, render, digits.
  induction val as [|c val IH]; intros H; [split; [reflexivity | constructor]|].
  cbn [forallb] in H. apply andb_true_iff in H as [Hc Hval].
  destruct (IH Hval) as [IH1 IH2]. cbn [flat_map].
  destruct (digitOf c) as [d|] eqn:D.
  - rewrite (normalizedUnit_digit c d D), IH1. split; [reflexivity|].
    constructor; [now apply (digitOf_lt c) | assumption].
  - unfold isSeparator in Hc. unfold normalizedUnit.
    revert D. unfold digitOf.
    destruct (isDigit c); [discriminate|].
    destruct (AmountText.isFullWidthDigit c); [discriminate|]. intros _.
    rewrite Hc. cbn [app]. split; assumption.
Qed.

Lemma plainAmount_has_digit (val : jsstring) :
  existsb (fun c => match digitOf c with Some _ => true | None => false end) val = true ->
  digitsOf val <> [].
Proof.
  unfold digitsOf. induction val as [|c val IH]; [discriminate|].
  cbn [existsb flat_map]. destruct (digitOf c); [discriminate|]. exact IH.
Qed.

Lemma render_not_marker (ds : list N) :
  digits ds -> ds <> [] ->
  JS.eqb (render ds) [] || JS.eqb (render ds) (lit "-") = false.
Proof.
  intros Hds Hne. destruct ds as [|d ds]; [contradiction|].
  assert (Hd : d < 10) by (inversion Hds; assumption).
  cbn [render map JS.eqb lit list_ascii_of_string orb].
  apply andb_false_iff. left. apply N.eqb_neq. simpl. lia.
Qed.

(** A plain amount below [2^53] is applied as the number its digits
    denote, by both handlers. *)
Lemma plainAmount_applied (val : jsstring) :
  plainAmount val = true -> (valueOf val < 2 ^ 53)%Z ->
  InputSection.handleAmountChange val = Some (ofZ (valueOf val))
  /\ forall id prev,
       RebalanceSection.updateProposedAmount id val prev
       = RebalanceSection.setAmount id (ofZ (valueOf val)) prev.
Proof.
  unfold plainAmount. intros H Hb. apply andb_true_iff in H as [Hall Hex].
  destruct (plainAmount_normalized val Hall) as [Hn Hd].
  pose proof (plainAmount_has_digit val Hex) as Hne.
  pose proof (parseFloat_render _ Hd Hne Hb) as Hp.
  split.
  - unfold InputSection.handleAmountChange.
    rewrite Hn, (render_not_marker _ Hd Hne), Hp. reflexivity.
  - intros id prev. unfold RebalanceSection.updateProposedAmount.
    rewrite Hn, Hp. reflexivity.
Qed.

(** What the two handlers do with a text: full-width digits become
    standard digits and ASCII commas are dropped (no other separator is);
    a text of digits and ASCII commas that denotes a number below [2^53]
    is applied as that number; beyond that, [handleAmountChange] maps the
    empty text and a bare minus sign to 0 and applies [parseFloat] of the
    text when it is a number, and [updateProposedAmount] applies
    [parseFloat] of the text when it is a number and maps the empty input
    alone to 0. *)
Lemma amount_handlers (val id : jsstring) (prev : list Asset.t) :
  let text := AmountText.normalized val in
  text = flat_map normalizedUnit val
  /\ (plainAmount val = true -> (valueOf val < 2 ^ 53)%Z ->
      InputSection.handleAmountChange val = Some (ofZ (valueOf val))
      /\ RebalanceSection.updateProposedAmount id val prev
         = RebalanceSection.setAmount id (ofZ (valueOf val)) prev)
  /\ (text = [] \/ text = lit "-" ->
      InputSection.handleAmountChange val = Some (ofZ 0))
  /\ (text <> [] -> text <> lit "-" ->
      InputSection.handleAmountChange val
      = if isNaN (parseFloat text) then None else Some (parseFloat text))
  /\ (val = [] ->
      RebalanceSection.updateProposedAmount id val prev
      = RebalanceSection.setAmount id (ofZ 0) prev)
  /\ (val <> [] ->
      RebalanceSection.updateProposedAmount id val prev
      = if isNaN (parseFloat text) then prev
        else RebalanceSection.setAmount id (parseFloat text) prev).
Proof.
  cbv zeta. split; [apply normalized_units|].
  split; [intros H Hb; destruct (plainAmount_applied val H Hb) as [H1 H2];
          split; [exact H1 | apply H2]|].
  split.
  { intros [E | E]; unfold InputSection.handleAmountChange; rewrite E; reflexivity. }
  split.
  { intros H1 H2. unfold InputSection.handleAmountChange.
    apply eqb_neq in H1, H2. rewrite H1, H2. cbn [orb].
    destruct (isNaN (parseFloat (AmountText.normalized val))); reflexivity. }
  split.
  { intros ->. reflexivity. }
  intros H. unfold RebalanceSection.updateProposedAmount.
  apply eqb_neq in H. rewrite H.
  destruct (isNaN (parseFloat (AmountText.normalized val))); reflexivity.
Qed.

(** "１,２３４" with an ASCII comma is applied as 1234. *)
Example amount_ascii_comma :
  InputSection.handleAmountChange Sample.amountAsciiComma = Some (ofZ 1234)
  /\ RebalanceSection.updateProposedAmount (lit "a") Sample.amountAsciiComma
       [Sample.holding "a" 5 1]
     = [Sample.holding "a" 1234 1].
Proof.
  destruct (amount_handlers Sample.amountAsciiComma (lit "a") [Sample.holding "a" 5 1])
    as [_ [H _]].
  apply H; [reflexivity | vm_compute; reflexivity].
Qed.

(** The numeric prefixes [parseFloat] reads in the texts below. *)
Lemma parseFloat_prefixes :
  parseFloat [0x31; 0xFF0C; 0x32; 0x33; 0x34] = ofZ 1
  /\ parseFloat (lit "12abc") = ofZ 12
  /\ parseFloat (lit "-") = NaN.
Proof.
  split; [|split]; vm_compute;
    first [reflexivity | f_equal; apply Qc_is_canon; reflexivity].
Qed.

(** [parseFloat] rounds to the nearest double: 2^53 + 1 is read as 2^53,
    and a number too large for a double as [Infinity]; both are applied. *)
Example parseFloat_rounds :
  InputSection.handleAmountChange (lit "9007199254740993")
  = Some (ofZ 9007199254740992)
  /\ InputSection.handleAmountChange (lit "1e400") = Some (Infinity false)
  /\ InputSection.handleAmountChange (lit "Infinity") = Some (Infinity false).
Proof.
  split; [|split; reflexivity].
  vm_compute. first [reflexivity | do 2 f_equal; apply Qc_is_canon; reflexivity].
Qed.

End AmountEntry.

(** C4: the code at the failing inputs.  The handlers turn full-width
    digits into standard digits but remove the ASCII comma only: in the
    text "１，２３４" of the specification the separator is the full-width
    comma U+FF0C, which stays, and [parseFloat] stops at it, so both
    handlers apply 1 where 1234 is expected (with an ASCII comma they
    apply 1234).  An input that starts with digits is not ignored: "12abc"
    is applied as 12 by both handlers.  A bare minus sign is applied as 0
    by [handleAmountChange] and ignored by [updateProposedAmount]. *)
Theorem amount_entry_full_width_comma :
  AmountText.normalized Sample.amountFullWidthComma = [0x31; 0xFF0C; 0x32; 0x33; 0x34]
  /\ InputSection.handleAmountChange Sample.amountFullWidthComma = Some (ofZ 1)
  /\ RebalanceSection.updateProposedAmount (lit "a") Sample.amountFullWidthComma
       [Sample.holding "a" 5 1]
     = [Sample.holding "a" 1 1]
  /\ InputSection.handleAmountChange Sample.amountAsciiComma = Some (ofZ 1234)
  /\ InputSection.handleAmountChange (lit "12abc") = Some (ofZ 12)
  /\ RebalanceSection.updateProposedAmount (lit "a") (lit "12abc")
       [Sample.holding "a" 5 1]
     = [Sample.holding "a" 12 1]
  /\ InputSection.handleAmountChange (lit "-") = Some (ofZ 0)
  /\ RebalanceSection.updateProposedAmount (lit "a") (lit "-") [Sample.holding "a" 5 1]
     = [Sample.holding "a" 5 1].
Proof.
  destruct parseFloat_prefixes as [P1 [P2 P3]].
  assert (N1 : AmountText.normalized Sample.amountFullWidthComma
               = [0x31; 0xFF0C; 0x32; 0x33; 0x34]) by reflexivity.
  assert (N2 : AmountText.normalized (lit "12abc") = lit "12abc") by reflexivity.
  assert (N3 : AmountText.normalized (lit "-") = lit "-") by reflexivity.
  split; [exact N1|].
  split; [unfold InputSection.handleAmountChange; rewrite N1, P1; reflexivity|].
  split; [unfold RebalanceSection.updateProposedAmount; rewrite N1, P1; reflexivity|].
  split; [apply amount_ascii_comma|].
  split; [unfold InputSection.handleAmountChange; rewrite N2, P2; reflexivity|].
  split; [unfold RebalanceSection.updateProposedAmount; rewrite N2, P2; reflexivity|].
  split; [reflexivity|].
  unfold RebalanceSection.updateProposedAmount. rewrite N3, P3. reflexivity.
Qed.

(** ** The RebalanceProposal slide (C7) *)

Section RebalanceColumns.
Import RebalanceSplit SlideRenderer.

Lemma isSell_labelled (r : TableRow.t) :
  labelled r = true -> isSell r = Some (sells r).
Proof. unfold labelled, isSell, sells, hasMarker. now destruct (TableRow.label r). Qed.

Lemma isBuy_labelled (r : TableRow.t) :
  labelled r = true -> isBuy r = Some (buys r).
Proof. unfold labelled, isBuy, buys, hasMarker. now destruct (TableRow.label r). Qed.

Lemma isSellSome_labelled (r : TableRow.t) :
  labelled r = true -> isSellSome r = Some (sells r).
Proof.
  unfold labelled, isSellSome, sells, hasMarker, negativeValue.
  destruct (TableRow.label r); [|discriminate]. intros _. do 2 f_equal.
  destruct (TableRow.value1 r) as [[|c v]|]; reflexivity.
Qed.

Lemma filterRows_total (pred : TableRow.t -> option bool) (f : TableRow.t -> bool)
    (rows : list TableRow.t) :
  (forall r, In r rows -> pred r = Some (f r)) ->
  filterRows pred rows = Some (List.filter f rows).
Proof.
  induction rows as [|r rows IH]; intros H; [reflexivity|].
  cbn [filterRows List.filter]. rewrite (H r) by now left.
  rewrite IH by (intros x Hx; apply H; now right). reflexivity.
Qed.

Lemma someRow_total (pred : TableRow.t -> option bool) (f : TableRow.t -> bool)
    (rows : list TableRow.t) :
  (forall r, In r rows -> pred r = Some (f r)) ->
  someRow pred rows = Some (existsb f rows).
Proof.
  induction rows as [|r rows IH]; intros H; [reflexivity|].
  cbn [someRow existsb]. rewrite (H r) by now left.
  destruct (f r); [reflexivity|]. apply IH. intros x Hx. apply H. now right.
Qed.

Lemma existsb_filter_nil (f : TableRow.t -> bool) (rows : list TableRow.t) :
  negb (existsb f rows) = true <-> List.filter f rows = [].
Proof.
  induction rows as [|r rows IH]; [easy|].
  cbn [existsb List.filter]. destruct (f r); simpl; [easy | exact IH].
Qed.

(** A row throws in the sell filter as soon as it has no label. *)
Lemma filterRows_unlabelled (rows : list TableRow.t) :
  forallb labelled rows = false -> filterRows isSell rows = None.
Proof.
  induction rows as [|r rows IH]; [discriminate|].
  cbn [forallb filterRows]. unfold isSell at 1, labelled at 1.
  destruct (TableRow.label r); [|reflexivity]. cbn [andb]. intros H.
  now rewrite (IH H).
Qed.

End RebalanceColumns.

(** What the RebalanceProposal case shows.  On a slide whose rows all carry
    a label, the sell column holds, in order, the rows whose label
    contains the sell marker or whose primary value starts with a minus
    sign, and the buy column the rows whose label contains the buy marker
    or whose primary value is non-empty and does not start with a minus
    sign: the buy column is selected by a test of its own.  A row without
    marker words and with a non-empty primary value is in exactly one
    column.  The "nothing to sell" notice is shown exactly when the sell
    column is empty, also when the table is absent.  A row without a label
    makes the rendering throw. *)
Lemma rebalance_columns (slide : SlideContent.t) :
  (SlideContent.tableData slide = None ->
   SlideRenderer.renderRebalanceProposal slide
   = Some (SlideRenderer.mkRebalanceView [] true []))
  /\ (forall rows,
        SlideContent.tableData slide = Some rows ->
        forallb RebalanceSplit.labelled rows = false ->
        SlideRenderer.renderRebalanceProposal slide = None)
  /\ (forall rows,
        SlideContent.tableData slide = Some rows ->
        forallb RebalanceSplit.labelled rows = true ->
        exists v,
          SlideRenderer.renderRebalanceProposal slide = Some v
          /\ SlideRenderer.sellRows v = List.filter RebalanceSplit.sells rows
          /\ SlideRenderer.buyRows v = List.filter RebalanceSplit.buys rows
          /\ (SlideRenderer.nothingToSell v = true <-> SlideRenderer.sellRows v = [])
          /\ (forall r, In r rows -> RebalanceSplit.unmarked r = true ->
                (In r (SlideRenderer.sellRows v) /\ ~ In r (SlideRenderer.buyRows v))
                \/ (~ In r (SlideRenderer.sellRows v) /\ In r (SlideRenderer.buyRows v)))).
Proof.
  split; [|split].
  { intros Ht. unfold SlideRenderer.renderRebalanceProposal. now rewrite Ht. }
  { intros rows Ht Hl. unfold SlideRenderer.renderRebalanceProposal.
    now rewrite Ht, (filterRows_unlabelled rows Hl). }
  intros rows Ht Hl. rewrite forallb_forall in Hl.
  unfold SlideRenderer.renderRebalanceProposal. rewrite Ht.
  rewrite (filterRows_total _ RebalanceSplit.sells)
    by (intros r Hr; apply isSell_labelled, Hl, Hr).
  rewrite (someRow_total _ RebalanceSplit.sells)
    by (intros r Hr; apply isSellSome_labelled, Hl, Hr).
  rewrite (filterRows_total _ RebalanceSplit.buys)
    by (intros r Hr; apply isBuy_labelled, Hl, Hr).
  eexists. split; [reflexivity|]. cbn.
  split; [reflexivity|]. split; [reflexivity|].
  split; [apply existsb_filter_nil|].
  intros r Hr Hu. rewrite !filter_In.
  unfold RebalanceSplit.unmarked in Hu.
  apply andb_true_iff in Hu as [Hu Hv]. apply andb_true_iff in Hu as [Hs Hb].
  apply negb_true_iff in Hs, Hb.
  unfold RebalanceSplit.sells, RebalanceSplit.buys,
    SlideRenderer.negativeValue, SlideRenderer.positiveValue.
  rewrite Hs, Hb. cbn [orb].
  destruct (TableRow.value1 r) as [v|]; [|discriminate]. cbn [truthyOpt] in Hv.
  rewrite Hv. cbn [andb].
  destruct (startsWith v (lit "-")); cbn [negb]; [left | right]; split; auto;
    intros [_ F]; discriminate.
Qed.

(** A row with the amount "300" and a row with the amount "-200", neither
    with a marker word: the first is bought, the second is sold. *)
Example rebalance_columns_unmarked :
  SlideRenderer.renderRebalanceProposal
    (Sample.slide RebalanceProposal None
       (Some [Sample.buyRowPlain; Sample.sellRowNegative]))
  = Some (SlideRenderer.mkRebalanceView [Sample.sellRowNegative] false
                                        [Sample.buyRowPlain]).
Proof. reflexivity. Qed.

(** C7: the code at the failing input.  The buy column is not the remainder
    of the sell column: it has a filter of its own.  The row labelled
    "売却: A" with the amount "100" passes the sell filter by its label and
    the buy filter by its amount, so the slide lists it under both
    columns; the row "B", with no marker word and no amount, passes
    neither filter and is listed under none. *)
Theorem rebalance_row_in_both_columns :
  let rows := [Sample.sellRowPositive; Sample.bareRow] in
  TableRow.label Sample.sellRowPositive = Some (SlideRenderer.sellMarker ++ lit ": A")
  /\ TableRow.value1 Sample.sellRowPositive = Some (lit "100")
  /\ SlideRenderer.isSell Sample.sellRowPositive = Some true
  /\ SlideRenderer.isBuy Sample.sellRowPositive = Some true
  /\ SlideRenderer.isSell Sample.bareRow = Some false
  /\ SlideRenderer.isBuy Sample.bareRow = Some false
  /\ exists v,
       SlideRenderer.renderRebalanceProposal
         (Sample.slide RebalanceProposal None (Some rows)) = Some v
       /\ SlideRenderer.sellRows v = [Sample.sellRowPositive]
       /\ SlideRenderer.buyRows v = [Sample.sellRowPositive]
       /\ In Sample.sellRowPositive (SlideRenderer.sellRows v)
       /\ In Sample.sellRowPositive (SlideRenderer.buyRows v)
       /\ ~ In Sample.bareRow (SlideRenderer.sellRows v)
       /\ ~ In Sample.bareRow (SlideRenderer.buyRows v).
Proof.
  cbv zeta. repeat (split; [reflexivity|]).
  eexists. split; [reflexivity|]. cbn [SlideRenderer.sellRows SlideRenderer.buyRows].
  split; [reflexivity|]. split; [reflexivity|].
  split; [now left|]. split; [now left|].
  split; intros [H | []]; discriminate H.
Qed.

(** ** The external calls *)

Section Calls.
Import Gemini.

(** [aiTextEdit] never throws: it returns the text the call brought back,
    and [currentText] when there is none. *)
Lemma aiTextEdit_result (svc : Service.t) (rt : Runtime)
    (currentText instruction : jsstring) (w : World) :
  let res := Service.generateWithRetry svc rt
               (Service.textEditRequest svc currentText instruction) w in
  Service.aiTextEdit svc rt currentText instruction w
  = (Returned (default currentText (Service.textBrought (fst res))), snd res).
Proof.
  cbv zeta.
  destruct svc; cbn [Service.aiTextEdit Service.generateWithRetry Service.textEditRequest];
    [unfold AgentService.aiTextEdit | unfold SearchService.aiTextEdit];
    unfold try_catch, bind.
  - destruct (AgentService.generateWithRetry rt _ w) as [[[r|]|e] w']; cbn;
      try reflexivity.
    destruct (text r) as [[|c t]|]; reflexivity.
  - destruct (SearchService.generateWithRetry rt _ w) as [[[r|]|e] w']; cbn;
      try reflexivity.
    destruct (text r) as [[|c t]|]; reflexivity.
Qed.

End Calls.

(** ** The chat edit (C10) *)

(** C10 (as the code has it). A chat edit with an empty instruction does
    nothing, and one on a missing slide throws before any update.  Otherwise
    [onUpdate] is called with a document that has the same title and client
    name, the same number of slides in the same order, every other slide as
    it was, and the selected slide with only its [bodyText] replaced (its
    id, type, title, table and chart are kept).  The new [bodyText] is the
    text the rewrite call brought back; when the call fails or brings back
    no text it is the former text, an absent [bodyText] becoming the empty
    string. *)
Theorem chat_edit_frame (svc : Service.t) (rt : Gemini.Runtime)
    (data : PresentationData.t) (currentSlideIndex : nat) (chatInput : jsstring)
    (w : Gemini.World) :
  (truthy chatInput = false ->
   SlideEditor.handleChatSubmit (Service.aiTextEdit svc rt) data currentSlideIndex
     chatInput w = (Gemini.Returned None, w))
  /\ (truthy chatInput = true ->
      PresentationData.slides data !! currentSlideIndex = None ->
      SlideEditor.handleChatSubmit (Service.aiTextEdit svc rt) data currentSlideIndex
        chatInput w = (Gemini.Threw Gemini.TypeError, w))
  /\ (forall currentSlide,
        truthy chatInput = true ->
        PresentationData.slides data !! currentSlideIndex = Some currentSlide ->
        let former := orElseOpt (SlideContent.bodyText currentSlide) [] in
        let res := Service.generateWithRetry svc rt
                     (Service.textEditRequest svc former chatInput) w in
        let updatedText := default former (Service.textBrought (fst res)) in
        exists newData newSlide,
          SlideEditor.handleChatSubmit (Service.aiTextEdit svc rt) data
            currentSlideIndex chatInput w = (Gemini.Returned (Some newData), snd res)
          /\ PresentationData.title newData = PresentationData.title data
          /\ PresentationData.clientName newData = PresentationData.clientName data
          /\ length (PresentationData.slides newData)
             = length (PresentationData.slides data)
          /\ (forall j, j <> currentSlideIndex ->
                PresentationData.slides newData !! j = PresentationData.slides data !! j)
          /\ PresentationData.slides newData !! currentSlideIndex = Some newSlide
          /\ newSlide = SlideContent.with_bodyText updatedText currentSlide
          /\ SlideContent.bodyText newSlide = Some updatedText
          /\ SlideContent.id newSlide = SlideContent.id currentSlide
          /\ SlideContent.type newSlide = SlideContent.type currentSlide
          /\ SlideContent.title newSlide = SlideContent.title currentSlide
          /\ SlideContent.tableData newSlide = SlideContent.tableData currentSlide
          /\ SlideContent.chartData newSlide = SlideContent.chartData currentSlide
          /\ (Service.textBrought (fst res) = None -> updatedText = former)).
Proof.
  split; [|split].
  - intros H. unfold SlideEditor.handleChatSubmit. rewrite H. reflexivity.
  - intros H Hnone. unfold SlideEditor.handleChatSubmit. rewrite H, Hnone. reflexivity.
  - intros currentSlide Hin Hcur. cbv zeta.
    eexists. eexists. split.
    + unfold SlideEditor.handleChatSubmit. rewrite Hin, Hcur. cbn [negb].
      unfold Gemini.bind. rewrite aiTextEdit_result. cbv zeta. reflexivity.
    + cbn [PresentationData.with_slides PresentationData.title
           PresentationData.clientName PresentationData.slides].
      split; [reflexivity|]. split; [reflexivity|].
      split; [apply length_insert|].
      split; [intros j Hj; apply list_lookup_insert_ne; congruence|].
      split; [apply list_lookup_insert_eq; eapply lookup_lt_Some, Hcur|].
      repeat (split; [reflexivity|]).
      intros ->. reflexivity.
Qed.

Lemma chat_edit_frame_witness :
  exists newData,
    SlideEditor.handleChatSubmit (Service.aiTextEdit Service.Search Sample.failing)
      (PresentationData.mk (lit "T") (lit "C")
         [Sample.slide Title (Some (lit "old text")) None;
          Sample.slide Disclaimer None None])
      0 (lit "shorter") Gemini.start
    = (Gemini.Returned (Some newData),
       snd (SearchService.generateWithRetry Sample.failing
              (Service.textEditRequest Service.Search (lit "old text") (lit "shorter"))
              Gemini.start))
    /\ PresentationData.slides newData
       = [Sample.slide Title (Some (lit "old text")) None;
          Sample.slide Disclaimer None None].
Proof.
  destruct (chat_edit_frame Service.Search Sample.failing
              (PresentationData.mk (lit "T") (lit "C")
                 [Sample.slide Title (Some (lit "old text")) None;
                  Sample.slide Disclaimer None None])
              0 (lit "shorter") Gemini.start) as [_ [_ H]].
  destruct (H (Sample.slide Title (Some (lit "old text")) None) eq_refl eq_refl)
    as [newData [newSlide [E _]]].
  exists newData. split; [exact E|].
  cbv in E. injection E as <-. reflexivity.
Defined.

(** C10, as stated, fails on a slide that has no [bodyText] (the Title
    slide of the fallback document): after a failed rewrite its [bodyText]
    is the empty string, no longer absent. *)
Lemma chat_edit_counterexample :
  SlideContent.bodyText <$> PresentationData.slides Gemini.getMockProposal !! 0%nat
  = Some None
  /\ exists newData w',
       SlideEditor.handleChatSubmit (Service.aiTextEdit Service.Agent Sample.failing)
         Gemini.getMockProposal 0 (lit "shorter") Gemini.start
       = (Gemini.Returned (Some newData), w')
       /\ SlideContent.bodyText <$> PresentationData.slides newData !! 0%nat
          = Some (Some []).
Proof.
  split; [reflexivity|]. eexists. eexists. split; reflexivity.
Qed.

(** ** The proposed-assets ledger (C6) *)

Section ProposedAssets.
Import RebalanceSection.

Lemma prefixed_inj (prefix a b : jsstring) : prefix ++ a = prefix ++ b <-> a = b.
Proof. split; [apply app_inv_head | now intros ->]. Qed.

Lemma prop_id_inj (r1 r2 : jsstring) :
  lit "prop-" ++ r1 = lit "prop-" ++ r2 <-> r1 = r2.
Proof. apply prefixed_inj. Qed.

Lemma manual_id_inj (t1 t2 : N) :
  lit "manual-" ++ showN t1 = lit "manual-" ++ showN t2 <-> t1 = t2.
Proof.
  rewrite prefixed_inj. split; [apply showN_inj | now intros ->].
Qed.

Lemma prop_manual_differ (r : jsstring) (t : N) :
  lit "prop-" ++ r <> lit "manual-" ++ showN t.
Proof. discriminate. Qed.

End ProposedAssets.

(** C6 (as the code has it). A candidate added from an AI recommendation is
    appended to the ledger with the identifier "prop-" followed by the
    [Math.random()] draw, a manual one with "manual-" followed by
    [Date.now()]; the entries already in the ledger are kept and the new
    identifier is not compared with theirs.  Two consecutive adds get
    different identifiers exactly when the two draws (or clock readings)
    differ, whatever the display names; an AI identifier never equals a
    manual one.  The amount of the new entry is always 1,000,000.  A manual
    entry has confidence 1.0; an AI candidate keeps the confidence (and
    every other field) it came with. *)
Theorem proposed_asset_minting (ledger : list Asset.t) :
  (forall asset random,
     exists added,
       RebalanceSection.addToProposal asset random ledger = ledger ++ [added]
       /\ Asset.id added = lit "prop-" ++ random
       /\ Asset.amount added = ofZ 1000000
       /\ Asset.confidence added = Asset.confidence asset
       /\ Asset.name added = Asset.name asset
       /\ Asset.code added = Asset.code asset
       /\ Asset.type added = Asset.type asset
       /\ Asset.currency added = Asset.currency asset
       /\ Asset.fundamentals added = Asset.fundamentals asset)
  /\ (forall stock now,
        exists added,
          RebalanceSection.selectManualAsset stock now ledger = ledger ++ [added]
          /\ Asset.id added = lit "manual-" ++ showN now
          /\ Asset.amount added = ofZ 1000000
          /\ Asset.confidence added = Some (ofZ 1)
          /\ Asset.name added = StockDefinition.name stock
          /\ Asset.code added = Some (StockDefinition.code stock)
          /\ Asset.type added = StockDefinition.type stock
          /\ Asset.currency added = StockDefinition.currency stock)
  /\ (forall a1 r1 a2 r2,
        map Asset.id
          (RebalanceSection.addToProposal a2 r2
             (RebalanceSection.addToProposal a1 r1 ledger))
        = map Asset.id ledger ++ [lit "prop-" ++ r1; lit "prop-" ++ r2]
        /\ (lit "prop-" ++ r1 = lit "prop-" ++ r2 <-> r1 = r2))
  /\ (forall s1 t1 s2 t2,
        map Asset.id
          (RebalanceSection.selectManualAsset s2 t2
             (RebalanceSection.selectManualAsset s1 t1 ledger))
        = map Asset.id ledger ++ [lit "manual-" ++ showN t1; lit "manual-" ++ showN t2]
        /\ (lit "manual-" ++ showN t1 = lit "manual-" ++ showN t2 <-> t1 = t2))
  /\ (forall r t, lit "prop-" ++ r <> lit "manual-" ++ showN t).
Proof.
  split.
  { intros asset random. eexists. split; [reflexivity|]. repeat split. }
  split.
  { intros stock now. eexists. split; [reflexivity|]. repeat split. }
  split.
  { intros a1 r1 a2 r2. split; [|apply prop_id_inj].
    unfold RebalanceSection.addToProposal. rewrite !map_app, <- app_assoc. reflexivity. }
  split.
  { intros s1 t1 s2 t2. split; [|apply manual_id_inj].
    unfold RebalanceSection.selectManualAsset. rewrite !map_app, <- app_assoc. reflexivity. }
  intros r t. apply prop_manual_differ.
Qed.

(** C6, as stated, fails: nothing makes the identifier fresh (two adds that
    draw the same random number, or two manual adds within one millisecond,
    collide), and an AI candidate that comes without a confidence is added
    without one. *)
Lemma proposed_asset_counterexample :
  map Asset.id
    (RebalanceSection.addToProposal Sample.candidate (lit "0.5")
       (RebalanceSection.addToProposal Sample.candidate (lit "0.5") []))
  = [lit "prop-0.5"; lit "prop-0.5"]
  /\ map Asset.id
       (RebalanceSection.selectManualAsset Sample.stock 1700000000000
          (RebalanceSection.selectManualAsset Sample.stock 1700000000000 []))
     = [lit "manual-1700000000000"; lit "manual-1700000000000"]
  /\ map Asset.confidence
       (RebalanceSection.addToProposal Sample.candidate (lit "0.5") [])
     = [None].
Proof. repeat split; reflexivity. Qed.

(** ** The document import (C9) *)

Section RegionHint.
Import InputSection.

(** X3. The region a hint resolves to is a prefecture of the list that the
    hint contains or that contains the hint (as substrings), when there is
    one, and the hint itself, verbatim, when there is none. *)
Lemma matchRegion_spec (hint : jsstring) :
  (exists pref,
      In pref PREFECTURES
      /\ (includes hint pref = true \/ includes pref hint = true)
      /\ matchRegion hint = pref)
  \/ ((forall pref, In pref PREFECTURES ->
         includes hint pref = false /\ includes pref hint = false)
      /\ matchRegion hint = hint).
Proof.
  unfold matchRegion.
  destruct (List.find _ PREFECTURES) as [m|] eqn:F.
  - left. apply find_some in F as [Hin Hm]. exists m.
    split; [exact Hin|]. split; [now apply orb_true_iff|].
    unfold orElse. destruct m; [|reflexivity].
    exfalso. revert Hin. clear. unfold PREFECTURES. cbn [In].
    intuition discriminate.
  - right. split; [|reflexivity]. intros pref Hin.
    pose proof (find_none _ _ F pref Hin) as H. cbn beta in H.
    now apply orb_false_iff.
Qed.

(** With the hints under both keys the region is resolved. *)
Lemma processFile_region_both_keys (fileName : jsstring) (now : nat -> N)
    (hint : jsstring) (prev : ClientProfile.t) :
  truthy hint = true ->
  ClientProfile.region
    (processFile fileName now (Sample.parsedBothKeys hint) prev)
  = matchRegion hint.
Proof.
  intros H. unfold processFile, Sample.parsedBothKeys, Sample.regionHint, applyHints.
  cbn. rewrite H. reflexivity.
Qed.

Example matchRegion_tokyo : matchRegion Sample.tokyoHint = Sample.tokyo.
Proof. reflexivity. Qed.

Example matchRegion_mars : matchRegion (lit "Mars") = lit "Mars".
Proof. reflexivity. Qed.

(** The first match in the order of the list wins: the hint "京都" is
    a substring of "東京都", which precedes "京都府", so it resolves to
    "東京都". *)
Example matchRegion_kyoto :
  matchRegion Sample.kyotoHint = Sample.tokyo
  /\ includes Sample.tokyo Sample.kyotoHint = true
  /\ In (Sample.kyotoHint ++ [0x5E9C]) PREFECTURES.
Proof. split; [reflexivity|]. split; [reflexivity|]. unfold PREFECTURES. cbn. tauto. Qed.

End RegionHint.

(** C9: the code at the failing input.  When the parse result carries the
    region hint under [profile] alone (the format the parse prompt asks
    for) or under [extractedProfile] alone (the declared interface), the
    merge leaves the region of the profile as it was: the block is guarded
    by [extractedProfile] and reads [profile].  With both keys present the
    hint "東京" resolves to "東京都" and "Mars" is kept. *)
Theorem import_region_hint_dropped :
  ClientProfile.region
    (InputSection.processFile (lit "statement.pdf") Sample.clock
       (Sample.parsedAsPrompted Sample.tokyoHint) (Sample.profile []))
  = Sample.osaka
  /\ ClientProfile.region
       (InputSection.processFile (lit "statement.pdf") Sample.clock
          (Sample.parsedAsDeclared Sample.tokyoHint) (Sample.profile []))
     = Sample.osaka
  /\ ClientProfile.region
       (InputSection.processFile (lit "statement.pdf") Sample.clock
          (Sample.parsedBothKeys Sample.tokyoHint) (Sample.profile []))
     = Sample.tokyo
  /\ ClientProfile.region
       (InputSection.processFile (lit "statement.pdf") Sample.clock
          (Sample.parsedBothKeys (lit "Mars")) (Sample.profile []))
     = lit "Mars".
Proof. repeat split; reflexivity. Qed.

(** ** The retry helper and the report request *)

Section Report.
Import Gemini.

(** The report request returns what the call brought back, whatever value
    that is, and the fallback document when it brought nothing. *)
Lemma requestReport_result (rt : Runtime)
    (generate : Request -> M (option Response)) (params : Request)
    (fallback : PresentationData.t) (w : World) :
  requestReport rt generate params fallback w
  = (Returned (default (Typed fallback)
                 (Service.documentBrought rt (fst (generate params w)))),
     snd (generate params w)).
Proof.
  unfold requestReport, try_catch, bind, textOf.
  destruct (generate params w) as [[[r|]|e] w']; cbn; try reflexivity.
  destruct (text r) as [t|]; cbn; [|reflexivity].
  destruct (truthy t); cbn; [|reflexivity].
  destruct (JSON_parse_PresentationData rt t); reflexivity.
Qed.

(** Nothing is brought back exactly when the call threw, returned
    nothing, or returned a text that is empty or that [JSON.parse] rejects. *)
Lemma documentBrought_none (rt : Runtime) (res : outcome (option Response)) :
  Service.documentBrought rt res = None
  <-> match res with
      | Threw _ | Returned None => True
      | Returned (Some r) =>
          truthyOpt (text r) = false
          \/ exists t, text r = Some t /\ JSON_parse_PresentationData rt t = None
      end.
Proof.
  destruct res as [[r|]|e]; cbn [Service.documentBrought]; try easy.
  destruct (text r) as [t|]; cbn [truthyOpt]; [|split; auto].
  destruct (truthy t); split.
  - intros H. right. eauto.
  - intros [H | [t' [[= <-] H]]]; [discriminate | exact H].
  - auto.
  - reflexivity.
Qed.

(** One round of the retry loop. *)
Lemma retryLoop_step (rt : Runtime) (params : Request)
    (retries k : nat) (delay : N) (w : World) :
  let w1 := mkWorld (S (calls w)) (polls w) (trace w ++ [Generate params]) in
  retryLoop rt params retries (S k) delay w
  = match generateContent rt (calls w) params with
    | inl r => (Returned (Some r), w1)
    | inr e =>
        if isQuotaError e && (retries - S k <? retries - 1)%nat
        then retryLoop rt params retries k (delay * 2) (record (Sleep delay) w1)
        else (Threw (ApiFailure e), w1)
    end.
Proof.
  cbv zeta. cbn [retryLoop]. unfold try_catch, bind, callGenerate, ret.
  destruct (generateContent rt (calls w) params) as [r|e]; [reflexivity|].
  cbn [quota].
  destruct (isQuotaError e && (retries - S k <? retries - 1)%nat); reflexivity.
Qed.

(** When the model rejects every call, the retry loop brings nothing back. *)
Lemma retryLoop_alwaysThrows (rt : Runtime) (params : Request)
    (retries remaining : nat) (delay : N) (w : World) :
  Service.alwaysThrows rt ->
  match fst (retryLoop rt params retries remaining delay w) with
  | Returned (Some _) => False
  | _ => True
  end.
Proof.
  intros H. revert delay w. induction remaining as [|k IH]; intros delay w; [exact I|].
  rewrite retryLoop_step. cbv zeta.
  destruct (H (calls w) params) as [e ->].
  destruct (isQuotaError e && (retries - S k <? retries - 1)%nat).
  - apply IH.
  - exact I.
Qed.

(** X5. The retry policy of [generateWithRetry]: an error that is not a
    quota error is rethrown after the first call, without waiting; a quota
    error is retried after a delay that doubles each time, and rethrown
    when the last of the [retries] attempts fails. *)
Lemma retry_policy (rt : Runtime) (params : Request) (retries k : nat)
    (delay : N) (w : World) (e : ApiError) :
  generateContent rt (calls w) params = inr e ->
  let w1 := mkWorld (S (calls w)) (polls w) (trace w ++ [Generate params]) in
  (isQuotaError e = false ->
   retryLoop rt params retries (S k) delay w = (Threw (ApiFailure e), w1))
  /\ (isQuotaError e = true -> (retries - S k < retries - 1)%nat ->
      retryLoop rt params retries (S k) delay w
      = retryLoop rt params retries k (delay * 2) (record (Sleep delay) w1))
  /\ (isQuotaError e = true -> (retries - 1 <= retries - S k)%nat ->
      retryLoop rt params retries (S k) delay w = (Threw (ApiFailure e), w1)).
Proof.
  intros G. cbv zeta. rewrite !retryLoop_step. cbv zeta. rewrite G.
  split; [|split].
  - intros ->. reflexivity.
  - intros -> H. apply Nat.ltb_lt in H. rewrite H. reflexivity.
  - intros -> H. apply Nat.ltb_ge in H. rewrite H. reflexivity.
Qed.

Lemma alwaysThrows_no_document (svc : Service.t) (rt : Runtime) (params : Request)
    (w : World) :
  Service.alwaysThrows rt ->
  Service.documentBrought rt (fst (Service.generateWithRetry svc rt params w)) = None.
Proof.
  intros H.
  assert (G : match fst (Service.generateWithRetry svc rt params w) with
              | Returned (Some _) => False
              | _ => True
              end)
    by (destruct svc; apply retryLoop_alwaysThrows, H).
  destruct (fst (Service.generateWithRetry svc rt params w)) as [[r|]|e];
    [contradiction | reflexivity | reflexivity].
Qed.

End Report.

(** ** The recommendation fetch (C3) *)

Section Recommendations.
Import Gemini RebalanceSection.

Lemma imap_ext_map {A B C : Type} (f : nat -> A -> B) (g : B -> C) (h : nat -> C)
    (l : list A) (k : nat) :
  (forall i a, g (f i a) = h i) ->
  map g (imap (fun i => f (k + i)%nat) l) = map h (seq k (List.length l)).
Proof.
  intros H. revert k. induction l as [|a l IH]; intros k; [reflexivity|].
  cbn [imap map List.length seq]. rewrite Nat.add_0_r, H. f_equal.
  rewrite <- IH. f_equal. apply imap_ext. intros i x _. cbn. f_equal. lia.
Qed.

Lemma imap_index_map {A B C : Type} (f : nat -> A -> B) (g : B -> C) (h : nat -> C)
    (l : list A) :
  (forall i a, g (f i a) = h i) ->
  map g (imap f l) = map h (seq 0 (List.length l)).
Proof. intros H. rewrite <- (imap_ext_map f g h l 0 H). reflexivity. Qed.

Lemma imap_project {A B C : Type} (f : nat -> A -> B) (g : B -> C) (h : A -> C)
    (l : list A) :
  (forall i a, g (f i a) = h a) -> map g (imap f l) = map h l.
Proof.
  revert f. induction l as [|a l IH]; intros f H; [reflexivity|].
  cbn [imap map]. rewrite H. f_equal. apply IH. intros i b. apply H.
Qed.

Lemma imap_Forall {A B : Type} (f : nat -> A -> B) (P : B -> Prop) (l : list A) :
  (forall i a, P (f i a)) -> Forall P (imap f l).
Proof.
  revert f. induction l as [|a l IH]; intros f H; cbn [imap]; constructor.
  - apply H.
  - apply IH. intros i b. apply H.
Qed.


(** X2. In the revised service file [getAssetRecommendations] rethrows to
    its caller whatever the call to the model threw, after its retries. *)
Lemma search_recommendations_propagate (rt : Runtime) (profile : ClientProfile.t)
    (settings : ProposalSettings.t) (w : World) :
  let res := SearchService.generateWithRetry rt
               (Service.recommendationRequest Service.Search profile settings) w in
  match fst res with
  | Threw e =>
      SearchService.getAssetRecommendations rt profile settings w = (Threw e, snd res)
  | Returned _ => True
  end.
Proof.
  cbv zeta. unfold SearchService.getAssetRecommendations, try_catch, bind,
    Service.recommendationRequest.
  destruct (SearchService.generateWithRetry rt _ w) as [[r|e] w']; [exact I | reflexivity].
Qed.

(** The agent service never throws from [getAssetRecommendations]: a
    failed call gives the empty list. *)
Lemma agent_recommendations_swallow (rt : Runtime) (profile : ClientProfile.t)
    (settings : ProposalSettings.t) (w : World) :
  exists recs,
    AgentService.getAssetRecommendations rt profile settings w
    = (Returned recs,
       snd (AgentService.generateWithRetry rt
              (Service.recommendationRequest Service.Agent profile settings) w))
    /\ match fst (AgentService.generateWithRetry rt
                    (Service.recommendationRequest Service.Agent profile settings) w) with
       | Threw _ => recs = []
       | _ => True
       end.
Proof.
  unfold AgentService.getAssetRecommendations, try_catch, bind, textOf,
    Service.recommendationRequest.
  destruct (AgentService.generateWithRetry rt _ w) as [[[r|]|e] w']; cbn.
  - destruct (JSON_parse_Assets rt _); eexists; split; reflexivity || exact I.
  - eexists; split; reflexivity || exact I.
  - eexists; split; reflexivity.
Qed.

End Recommendations.

(** C3: the code at the failing input.  With a model endpoint that rejects
    the call, [getAssetRecommendations] of [services/geminiService.ts]
    returns the empty list: [fetchRecs] then clears the recommendations and
    sets no error, so no retry is offered.  The revised service file
    rethrows, and [fetchRecs] sets the error and keeps the recommendations.
    In both the proposed assets are as they were. *)
Theorem recommendation_failure_swallowed :
  fst (AgentService.getAssetRecommendations Sample.failing
         (Sample.profile []) Sample.settings Gemini.start)
  = Gemini.Returned []
  /\ fst (RebalanceSection.fetchRecs
            (AgentService.getAssetRecommendations Sample.failing
               (Sample.profile []) Sample.settings)
            (fun _ => lit "0.5") Sample.rebalanceState Gemini.start)
     = Gemini.Returned
         (RebalanceSection.mkState []
            (RebalanceSection.proposedAssets Sample.rebalanceState) false None)
  /\ fst (SearchService.getAssetRecommendations Sample.failing
            (Sample.profile []) Sample.settings Gemini.start)
     = Gemini.Threw (Gemini.ApiFailure Sample.serverError)
  /\ fst (RebalanceSection.fetchRecs
            (SearchService.getAssetRecommendations Sample.failing
               (Sample.profile []) Sample.settings)
            (fun _ => lit "0.5") Sample.rebalanceState Gemini.start)
     = Gemini.Returned
         (RebalanceSection.mkState
            (RebalanceSection.recommendations Sample.rebalanceState)
            (RebalanceSection.proposedAssets Sample.rebalanceState) false
            (Some RebalanceSection.fetchFailed)).
Proof. repeat split; reflexivity. Qed.

(** ** The report pipeline (C1, C2) *)

Section ReportPipeline.
Import Gemini Pipeline.

(** [performDeepResearch] never throws. *)
Lemma performDeepResearch_result (rt : Runtime) (profile : ClientProfile.t)
    (proposedAssets : list Asset.t) (w : World) :
  let res := SearchService.generateWithRetry rt (researchRequest proposedAssets) w in
  SearchService.performDeepResearch rt profile proposedAssets w
  = (Returned match fst res with
              | Returned (Some r) => orElseOpt (text r) [] ++ SearchService.sourceLinks r
              | _ => SearchService.researchFailed
              end,
     snd res).
Proof.
  cbv zeta. unfold SearchService.performDeepResearch, researchRequest, try_catch, bind.
  destruct (SearchService.generateWithRetry rt _ w) as [[[r|]|e] w']; reflexivity.
Qed.

(** The revised pipeline: research, then the generation call, whose value
    is returned when it brings one, the fallback otherwise. *)
Lemma search_pipeline_result (rt : Runtime) (profile : ClientProfile.t)
    (proposedAssets : list Asset.t) (settings : ProposalSettings.t) (w : World) :
  let research := SearchService.performDeepResearch rt profile proposedAssets w in
  let report := match fst research with Returned t => t | Threw _ => [] end in
  let generation :=
    SearchService.generateWithRetry rt
      (proposalRequest SearchService.REPORT_MODEL false profile proposedAssets report)
      (snd research) in
  SearchService.generateInvestmentProposal rt profile proposedAssets settings w
  = (Returned (default (Typed getMockProposal)
                 (Service.documentBrought rt (fst generation))),
     snd generation).
Proof.
  cbv zeta. unfold SearchService.generateInvestmentProposal, bind, try_catch.
  rewrite performDeepResearch_result. cbv zeta. cbn [fst snd].
  unfold ret. apply requestReport_result.
Qed.

(** The agent pipeline once its research phase is over. *)
Lemma agent_pipeline_result (rt : Runtime) (fuel : nat) (profile : ClientProfile.t)
    (proposedAssets : list Asset.t) (settings : ProposalSettings.t) (w w1 : World)
    (report : option jsstring) :
  AgentService.deepResearch rt fuel profile proposedAssets w = Some (report, w1) ->
  let generation :=
    AgentService.generateWithRetry rt
      (proposalRequest AgentService.REPORT_MODEL true profile proposedAssets
         (orElseOpt report [])) w1 in
  AgentService.generateInvestmentProposal rt fuel profile proposedAssets settings w
  = Some (Returned (default (Typed getMockProposal)
                      (Service.documentBrought rt (fst generation))),
          snd generation).
Proof.
  intros H. cbv zeta. unfold AgentService.generateInvestmentProposal. rewrite H.
  f_equal. apply requestReport_result.
Qed.

Lemma agent_pipeline_pending (rt : Runtime) (fuel : nat) (profile : ClientProfile.t)
    (proposedAssets : list Asset.t) (settings : ProposalSettings.t) (w : World) :
  AgentService.deepResearch rt fuel profile proposedAssets w = None ->
  AgentService.generateInvestmentProposal rt fuel profile proposedAssets settings w
  = None.
Proof. intros H. unfold AgentService.generateInvestmentProposal. now rewrite H. Qed.

(** One round of the polling loop. *)
Lemma pollLoop_step (client : InteractionsClient) (fuel : nat)
    (interaction : Interaction) (report : option jsstring) (w : World) :
  let w2 := mkWorld (calls w) (S (polls w))
              (trace w ++ [Sleep 10000] ++ [InteractionGet (name interaction)]) in
  AgentService.pollLoop client (S fuel) interaction report w
  = match get client (polls w) (name interaction) with
    | inr e => Some (Threw (ApiFailure e), w2)
    | inl it =>
        if terminal (AgentService.statusOf it)
        then Some (Returned
                     (if AgentService.statusIs (AgentService.statusOf it) "completed"
                         || AgentService.statusIs (AgentService.statusOf it) "succeeded"
                      then match outputs it with
                           | Some (o :: os) => List.last os o
                           | _ => report
                           end
                      else report), w2)
        else AgentService.pollLoop client fuel it report w2
    end.
Proof.
  cbv zeta. cbn [AgentService.pollLoop]. unfold record. cbn [calls polls trace].
  rewrite <- app_assoc.
  destruct (get client (polls w) (name interaction)) as [it|e]; [|reflexivity].
  unfold terminal.
  destruct (AgentService.statusIs (AgentService.statusOf it) "completed"
            || AgentService.statusIs (AgentService.statusOf it) "succeeded") eqn:C.
  - cbn [orb]. destruct (outputs it) as [[|o os]|]; reflexivity.
  - cbn [orb].
    destruct (AgentService.statusIs (AgentService.statusOf it) "failed"
              || AgentService.statusIs (AgentService.statusOf it) "error"); reflexivity.
Qed.

(** The polling is over as soon as one poll settles. *)
Lemma pollLoop_settles (client : InteractionsClient) (fuel k : nat)
    (interaction : Interaction) (report : option jsstring) (w : World) :
  settles client (polls w + k) -> (k < fuel)%nat ->
  AgentService.pollLoop client fuel interaction report w <> None.
Proof.
  revert k interaction w. induction fuel as [|fuel IH]; intros k interaction w Hs Hk; [lia|].
  rewrite pollLoop_step. cbv zeta.
  destruct (get client (polls w) (name interaction)) as [it|e] eqn:G; [|discriminate].
  destruct (terminal (AgentService.statusOf it)) eqn:T; [discriminate|].
  destruct k as [|k].
  - specialize (Hs (name interaction)). rewrite Nat.add_0_r, G in Hs. congruence.
  - apply (IH k); [|lia]. cbn [polls].
    replace (S (polls w) + k)%nat with (polls w + S k)%nat by lia. exact Hs.
Qed.

Lemma deepResearch_settles (rt : Runtime) (client : InteractionsClient)
    (fuel k : nat) (profile : ClientProfile.t) (proposedAssets : list Asset.t)
    (w : World) :
  interactions rt = Some client ->
  settles client (polls w + k) -> (k < fuel)%nat ->
  researchEnds rt fuel profile proposedAssets w.
Proof.
  intros Hc Hs Hk. unfold researchEnds, AgentService.deepResearch. rewrite Hc.
  destruct (create client _ _) as [interaction|e]; [|eauto].
  match goal with |- context [AgentService.pollLoop client fuel interaction ?r ?w0] =>
    pose proof (pollLoop_settles client fuel k interaction r w0 Hs Hk) as P;
    destruct (AgentService.pollLoop client fuel interaction r w0) as [[[report|e] w2]|]
  end; [eauto | eauto | contradiction].
Qed.

Lemma deepResearch_no_client (rt : Runtime) (fuel : nat) (profile : ClientProfile.t)
    (proposedAssets : list Asset.t) (w : World) :
  interactions rt = None -> researchEnds rt fuel profile proposedAssets w.
Proof.
  intros H. unfold researchEnds, AgentService.deepResearch. rewrite H. eauto.
Qed.

Lemma deepResearch_create_throws (rt : Runtime) (client : InteractionsClient)
    (fuel : nat) (profile : ClientProfile.t) (proposedAssets : list Asset.t)
    (w : World) :
  interactions rt = Some client ->
  (forall input, exists e, create client AgentService.DEEP_RESEARCH_AGENT input = inr e) ->
  researchEnds rt fuel profile proposedAssets w.
Proof.
  intros Hc He. unfold researchEnds, AgentService.deepResearch. rewrite Hc.
  match goal with |- context [create client _ ?i] => destruct (He i) as [e ->] end.
  eauto.
Qed.

(** While no poll settles, the loop goes on. *)
Lemma pollLoop_waits (client : InteractionsClient) (fuel : nat)
    (interaction : Interaction) (report : option jsstring) (w : World) :
  (forall j, (j < fuel)%nat -> waits client (polls w + j)) ->
  AgentService.pollLoop client fuel interaction report w = None.
Proof.
  revert interaction w. induction fuel as [|fuel IH]; intros interaction w H;
    [reflexivity|].
  rewrite pollLoop_step. cbv zeta.
  pose proof (H 0%nat ltac:(lia) (name interaction)) as H0.
  rewrite Nat.add_0_r in H0.
  destruct (get client (polls w) (name interaction)) as [it|e]; [|contradiction].
  rewrite H0. apply IH. intros j Hj. cbn [polls].
  replace (S (polls w) + j)%nat with (polls w + S j)%nat by lia.
  apply H. lia.
Qed.

(** With an agent that starts and whose polls never settle, the research
    phase is not over after any number of rounds. *)
Lemma deepResearch_waits (rt : Runtime) (client : InteractionsClient) (fuel : nat)
    (profile : ClientProfile.t) (proposedAssets : list Asset.t) (w : World) :
  interactions rt = Some client ->
  (exists interaction,
      create client AgentService.DEEP_RESEARCH_AGENT (agentInput profile proposedAssets)
      = inl interaction) ->
  neverSettles client ->
  AgentService.deepResearch rt fuel profile proposedAssets w = None.
Proof.
  intros Hc [interaction Hi] Hn. unfold AgentService.deepResearch. rewrite Hc.
  fold (agentInput profile proposedAssets). rewrite Hi.
  rewrite pollLoop_waits; [reflexivity|]. intros j _. apply Hn.
Qed.



End ReportPipeline.

(** The report pipeline in general.  [generateInvestmentProposal] never
    throws to its caller.  The revised service always returns: the value
    the generation call brought back, whatever it is, and the fallback
    document when that call threw on every attempt or brought back an
    empty or unparseable payload.  The agent service returns in the same
    way once its research phase is over, which it is when the SDK has no
    interactions client, when a call of the agent throws, or when a poll
    reports completed, succeeded, failed or error. *)
Lemma proposal_pipeline (rt : Gemini.Runtime) (profile : ClientProfile.t)
    (proposedAssets : list Asset.t) (settings : ProposalSettings.t) (w : Gemini.World) :
  SearchService.generateInvestmentProposal rt profile proposedAssets settings w
  = (Gemini.Returned
       (default (Typed Gemini.getMockProposal)
          (Service.documentBrought rt
             (fst (Pipeline.searchGeneration rt profile proposedAssets w)))),
     snd (Pipeline.searchGeneration rt profile proposedAssets w))
  /\ (forall fuel report w1,
        AgentService.deepResearch rt fuel profile proposedAssets w = Some (report, w1) ->
        AgentService.generateInvestmentProposal rt fuel profile proposedAssets settings w
        = Some (Gemini.Returned
                  (default (Typed Gemini.getMockProposal)
                     (Service.documentBrought rt
                        (fst (Pipeline.agentGeneration rt profile proposedAssets report w1)))),
                snd (Pipeline.agentGeneration rt profile proposedAssets report w1)))
  /\ (forall fuel e w',
        AgentService.generateInvestmentProposal rt fuel profile proposedAssets settings w
        <> Some (Gemini.Threw e, w'))
  /\ (Service.alwaysThrows rt ->
      forall svc params w0,
        Service.documentBrought rt (fst (Service.generateWithRetry svc rt params w0))
        = None)
  /\ (Gemini.interactions rt = None ->
      forall fuel, Pipeline.researchEnds rt fuel profile proposedAssets w)
  /\ (forall client fuel,
        Gemini.interactions rt = Some client ->
        (forall input,
           exists e, Gemini.create client AgentService.DEEP_RESEARCH_AGENT input = inr e) ->
        Pipeline.researchEnds rt fuel profile proposedAssets w)
  /\ (forall client fuel k,
        Gemini.interactions rt = Some client ->
        Pipeline.settles client (Gemini.polls w + k) -> (k < fuel)%nat ->
        Pipeline.researchEnds rt fuel profile proposedAssets w).
Proof.
  split; [apply search_pipeline_result|].
  split; [intros fuel report w1 H; now apply agent_pipeline_result|].
  split.
  { intros fuel e w' H.
    destruct (AgentService.deepResearch rt fuel profile proposedAssets w)
      as [[report w1]|] eqn:R.
    - rewrite (agent_pipeline_result rt fuel profile proposedAssets settings w w1 report R)
        in H. discriminate H.
    - rewrite (agent_pipeline_pending rt fuel profile proposedAssets settings w R) in H.
      discriminate H. }
  split; [intros H svc params w0; now apply alwaysThrows_no_document|].
  split; [intros H fuel; now apply deepResearch_no_client|].
  split; [intros client fuel Hc He; now apply (deepResearch_create_throws rt client)|].
  intros client fuel k Hc Hs Hk. now apply (deepResearch_settles rt client fuel k).
Qed.

(** C1: the code at the failing inputs.  When the model rejects every
    call, both services return the fallback document, which has one slide,
    of type Title.  But a payload that parses is returned as it is, without
    a look at what it is: when the generation call answers with the text
    "null", both services return [null], and with "{}" the empty object;
    neither is a document, nor the fallback.  And the agent service does
    not return at all while its agent is at work: with an agent that
    starts and whose polls never settle, as the one that always reports
    "IN_PROGRESS", the function has not returned after any number of
    rounds. *)
Theorem proposal_not_a_document :
  let profile := Sample.profile [] in
  let proposedAssets := [Sample.candidate] in
  (exists s, PresentationData.slides Gemini.getMockProposal = [s]
             /\ SlideContent.type s = Title)
  /\ fst (SearchService.generateInvestmentProposal Sample.failing
            profile proposedAssets Sample.settings Gemini.start)
     = Gemini.Returned (Typed Gemini.getMockProposal)
  /\ (exists w',
        AgentService.generateInvestmentProposal Sample.failing 0
          profile proposedAssets Sample.settings Gemini.start
        = Some (Gemini.Returned (Typed Gemini.getMockProposal), w'))
  /\ fst (SearchService.generateInvestmentProposal (Sample.answers (lit "null"))
            profile proposedAssets Sample.settings Gemini.start)
     = Gemini.Returned (Untyped JSON.null)
  /\ (exists w',
        AgentService.generateInvestmentProposal (Sample.answers (lit "null")) 0
          profile proposedAssets Sample.settings Gemini.start
        = Some (Gemini.Returned (Untyped JSON.null), w'))
  /\ fst (SearchService.generateInvestmentProposal (Sample.answers (lit "{}"))
            profile proposedAssets Sample.settings Gemini.start)
     = Gemini.Returned (Untyped (JSON.object []))
  /\ (exists w',
        AgentService.generateInvestmentProposal (Sample.answers (lit "{}")) 0
          profile proposedAssets Sample.settings Gemini.start
        = Some (Gemini.Returned (Untyped (JSON.object [])), w'))
  /\ (forall fuel,
        AgentService.generateInvestmentProposal Sample.stuck fuel
          profile proposedAssets Sample.settings Gemini.start
        = None)
  /\ (forall rt client fuel profile proposedAssets settings w,
        Gemini.interactions rt = Some client ->
        (exists interaction,
            Gemini.create client AgentService.DEEP_RESEARCH_AGENT
              (Pipeline.agentInput profile proposedAssets) = inl interaction) ->
        Pipeline.neverSettles client ->
        AgentService.generateInvestmentProposal rt fuel profile proposedAssets settings w
        = None).
Proof.
  cbv zeta.
  assert (G : forall rt client fuel profile proposedAssets settings w,
            Gemini.interactions rt = Some client ->
            (exists interaction,
                Gemini.create client AgentService.DEEP_RESEARCH_AGENT
                  (Pipeline.agentInput profile proposedAssets) = inl interaction) ->
            Pipeline.neverSettles client ->
            AgentService.generateInvestmentProposal rt fuel profile proposedAssets
              settings w = None).
  { intros rt client fuel profile proposedAssets settings w Hc Hi Hn.
    apply agent_pipeline_pending. now apply (deepResearch_waits rt client). }
  split; [eexists; split; reflexivity|].
  split; [reflexivity|]. split; [eexists; reflexivity|].
  split; [reflexivity|]. split; [eexists; reflexivity|].
  split; [reflexivity|]. split; [eexists; reflexivity|].
  split; [|exact G].
  intros fuel. eapply G; [reflexivity | eexists; reflexivity |].
  intros k interaction. reflexivity.
Qed.

Section ResearchFailure.
Import Gemini Pipeline.

(** The retry loop only appends to the trace. *)
Lemma retryLoop_trace (rt : Runtime) (params : Request) (retries remaining : nat)
    (delay : N) (w : World) :
  exists l, trace (snd (retryLoop rt params retries remaining delay w)) = trace w ++ l.
Proof.
  revert delay w. induction remaining as [|k IH]; intros delay w.
  - exists []. cbn. now rewrite app_nil_r.
  - rewrite retryLoop_step. cbv zeta.
    destruct (generateContent rt (calls w) params) as [r|e].
    + eexists. reflexivity.
    + destruct (isQuotaError e && (retries - S k <? retries - 1)%nat).
      * edestruct IH as [l ->]. unfold record. cbn [trace].
        rewrite <- !app_assoc. eexists. reflexivity.
      * eexists. reflexivity.
Qed.

(** A retry loop with at least one round issues its request. *)
Lemma retryLoop_issues (rt : Runtime) (params : Request) (retries k : nat)
    (delay : N) (w : World) :
  In (Generate params) (trace (snd (retryLoop rt params retries (S k) delay w))).
Proof.
  rewrite retryLoop_step. cbv zeta.
  destruct (generateContent rt (calls w) params) as [r|e].
  - cbn [snd trace]. apply in_or_app. right. now left.
  - destruct (isQuotaError e && (retries - S k <? retries - 1)%nat).
    + edestruct retryLoop_trace as [l ->]. unfold record. cbn [trace].
      rewrite <- !app_assoc. apply in_or_app. right. now left.
    + cbn [snd trace]. apply in_or_app. right. now left.
Qed.

Lemma truthy_false (s : jsstring) : truthy s = false -> s = [].
Proof. now destruct s. Qed.

(** The research text of the generation prompt when research brought
    nothing. *)
Lemma unavailable_placeholder (profile : ClientProfile.t)
    (proposedAssets : list Asset.t) (res : outcome (option Response)) :
  researchUnavailable res = true ->
  proposalRequest SearchService.REPORT_MODEL false profile proposedAssets
    match res with
    | Returned (Some r) => orElseOpt (text r) [] ++ SearchService.sourceLinks r
    | _ => SearchService.researchFailed
    end
  = reportRequest profile proposedAssets (placeholder res).
Proof.
  intros H. destruct res as [[r|]|e]; cbn [researchUnavailable placeholder] in *;
    try reflexivity.
  apply negb_true_iff, truthy_false in H. rewrite H. reflexivity.
Qed.

End ResearchFailure.

(** C2. In the revised pipeline a failure of the research phase does not
    cascade: when the research call throws or brings back nothing,
    [performDeepResearch] still returns, the generation request is issued
    with an explicit (non-empty) placeholder for the research, and when the
    generation call brings back a document the pipeline returns that
    document as it is. *)
Theorem research_failure_does_not_cascade (rt : Gemini.Runtime)
    (profile : ClientProfile.t) (proposedAssets : list Asset.t)
    (settings : ProposalSettings.t) (w : Gemini.World) :
  let research :=
    SearchService.generateWithRetry rt (Pipeline.researchRequest proposedAssets) w in
  Pipeline.researchUnavailable (fst research) = true ->
  let request :=
    Pipeline.reportRequest profile proposedAssets (Pipeline.placeholder (fst research)) in
  let generation := SearchService.generateWithRetry rt request (snd research) in
  (exists text,
      SearchService.performDeepResearch rt profile proposedAssets w
      = (Gemini.Returned text, snd research))
  /\ truthy (Pipeline.placeholder (fst research)) = true
  /\ SearchService.generateInvestmentProposal rt profile proposedAssets settings w
     = Gemini.requestReport rt (SearchService.generateWithRetry rt) request
         Gemini.getMockProposal (snd research)
  /\ In (Gemini.Generate request) (Gemini.trace (snd generation))
  /\ (forall d,
        Service.documentBrought rt (fst generation) = Some d ->
        SearchService.generateInvestmentProposal rt profile proposedAssets settings w
        = (Gemini.Returned d, snd generation)).
Proof.
  cbv zeta. intros H.
  assert (E : SearchService.generateInvestmentProposal rt profile proposedAssets settings w
              = Gemini.requestReport rt (SearchService.generateWithRetry rt)
                  (Pipeline.reportRequest profile proposedAssets
                     (Pipeline.placeholder
                        (fst (SearchService.generateWithRetry rt
                                (Pipeline.researchRequest proposedAssets) w))))
                  Gemini.getMockProposal
                  (snd (SearchService.generateWithRetry rt
                          (Pipeline.researchRequest proposedAssets) w))).
  { unfold SearchService.generateInvestmentProposal, Gemini.bind, Gemini.try_catch.
    rewrite performDeepResearch_result. cbv zeta. unfold Gemini.ret.
    now rewrite unavailable_placeholder. }
  split; [eexists; apply performDeepResearch_result|].
  split; [now destruct (fst (SearchService.generateWithRetry rt _ w)) as [[r|]|e]|].
  split; [exact E|].
  split; [apply retryLoop_issues|].
  intros d Hd. rewrite E, requestReport_result, Hd. reflexivity.
Qed.

Lemma research_failure_does_not_cascade_witness :
  Pipeline.researchUnavailable
    (fst (SearchService.generateWithRetry Sample.researchDown
            (Pipeline.researchRequest [Sample.candidate]) Gemini.start)) = true
  /\ fst (SearchService.generateInvestmentProposal Sample.researchDown
            (Sample.profile []) [Sample.candidate] Sample.settings Gemini.start)
     = Gemini.Returned (Typed Sample.document).
Proof.
  split; [reflexivity|].
  destruct (research_failure_does_not_cascade Sample.researchDown (Sample.profile [])
              [Sample.candidate] Sample.settings Gemini.start eq_refl)
    as [_ [_ [_ [_ H]]]].
  rewrite (H (Typed Sample.document) eq_refl). reflexivity.
Defined.



(** Three attempts, waiting 2000 ms and 4000 ms, then the quota error is
    rethrown; a server error is rethrown at once. *)
Lemma retry_policy_witness :
  Gemini.generateContent Sample.exhausted 0
    (Service.textEditRequest Service.Search [] (lit "x")) = inr Sample.quotaError
  /\ SearchService.generateWithRetry Sample.exhausted
       (Service.textEditRequest Service.Search [] (lit "x")) Gemini.start
     = (Gemini.Threw (Gemini.ApiFailure Sample.quotaError),
        Gemini.mkWorld 3 0
          [Gemini.Generate (Service.textEditRequest Service.Search [] (lit "x"));
           Gemini.Sleep 2000;
           Gemini.Generate (Service.textEditRequest Service.Search [] (lit "x"));
           Gemini.Sleep 4000;
           Gemini.Generate (Service.textEditRequest Service.Search [] (lit "x"))])
  /\ SearchService.generateWithRetry Sample.failing
       (Service.textEditRequest Service.Search [] (lit "x")) Gemini.start
     = (Gemini.Threw (Gemini.ApiFailure Sample.serverError),
        Gemini.mkWorld 1 0
          [Gemini.Generate (Service.textEditRequest Service.Search [] (lit "x"))]).
Proof.
  split; [reflexivity|]. split.
  - unfold SearchService.generateWithRetry.
    destruct (retry_policy Sample.exhausted
                (Service.textEditRequest Service.Search [] (lit "x")) 3 2 2000
                Gemini.start Sample.quotaError eq_refl) as [_ [H _]].
    rewrite (H eq_refl ltac:(cbn; lia)). reflexivity.
  - unfold SearchService.generateWithRetry.
    destruct (retry_policy Sample.failing
                (Service.textEditRequest Service.Search [] (lit "x")) 3 2 2000
                Gemini.start Sample.serverError eq_refl) as [H _].
    rewrite (H eq_refl). reflexivity.
Defined.

(* ===================================================================== *)
(** * Further properties of the code *)
(* ===================================================================== *)

(** ** The retry loop: what a call can cost *)

Section RetryCost.
Import Gemini Retry.

Lemma waited_app (l1 l2 : list Event) : waited (l1 ++ l2) = waited l1 + waited l2.
Proof.
  induction l1 as [|[p|ms|a i|n] l1 IH]; cbn [waited app]; lia.
Qed.

Lemma issued_app (l1 l2 : list Event) : issued (l1 ++ l2) = (issued l1 + issued l2)%nat.
Proof.
  induction l1 as [|[p|ms|a i|n] l1 IH]; cbn [issued app]; lia.
Qed.

(** A loop that starts within its [retries] rounds ends with a response or
    a thrown error, after one to [remaining] calls, having slept no longer
    than its budget. *)
Lemma retryLoop_cost (rt : Runtime) (params : Request) (retries remaining : nat)
    (delay : N) (w : World) :
  (1 <= remaining <= retries)%nat ->
  let res := retryLoop rt params retries remaining delay w in
  fst res <> Returned None
  /\ exists l,
       trace (snd res) = trace w ++ l
       /\ calls (snd res) = (calls w + issued l)%nat
       /\ polls (snd res) = polls w
       /\ (1 <= issued l <= remaining)%nat
       /\ waited l <= budget remaining delay.
Proof.
  revert delay w. induction remaining as [|k IH]; intros delay w Hk; [lia|].
  cbv zeta. rewrite retryLoop_step. cbv zeta.
  destruct (generateContent rt (calls w) params) as [r|e].
  - split; [discriminate|]. exists [Generate params]. cbn. repeat split; lia.
  - destruct (isQuotaError e && (retries - S k <? retries - 1)%nat) eqn:Q.
    + apply andb_true_iff in Q as [_ Q]. apply Nat.ltb_lt in Q.
      assert (Hk' : (1 <= k <= retries)%nat) by lia.
      specialize (IH (delay * 2)
                     (record (Sleep delay)
                        (mkWorld (S (calls w)) (polls w) (trace w ++ [Generate params])))
                     Hk').
      cbv zeta in IH. destruct IH as [Hn [l [Ht [Hc [Hp [Hi Hw]]]]]].
      split; [exact Hn|].
      exists (Generate params :: Sleep delay :: l).
      rewrite Ht, Hc, Hp. unfold record. cbn [trace calls polls issued waited].
      rewrite <- !app_assoc. cbn [app].
      repeat split; try lia.
      destruct k as [|k']; [lia|].
      change (budget (S (S k')) delay) with (delay + budget (S k') (delay * 2)). lia.
    + split; [discriminate|]. exists [Generate params]. cbn. repeat split; try lia.
Qed.

End RetryCost.

(** X7. [generateWithRetry] never returns [undefined]: it ends with a
    response or with a thrown error.  It issues at least one and at most
    five calls (three in the revised service file), and sleeps no longer
    than 75 s in all (5 + 10 + 20 + 40; 6 s = 2 + 4 in the revised file)
    between them; it never polls an agent. *)
Theorem generateWithRetry_cost (svc : Service.t) (rt : Gemini.Runtime)
    (params : Gemini.Request) (w : Gemini.World) :
  let res := Service.generateWithRetry svc rt params w in
  fst res <> Gemini.Returned None
  /\ exists l,
       Gemini.trace (snd res) = Gemini.trace w ++ l
       /\ Gemini.calls (snd res) = (Gemini.calls w + Retry.issued l)%nat
       /\ Gemini.polls (snd res) = Gemini.polls w
       /\ (1 <= Retry.issued l <= Retry.attempts svc)%nat
       /\ Retry.waited l <= match svc with
                            | Service.Agent => 75000
                            | Service.Search => 6000
                            end.
Proof.
  destruct svc; cbv zeta;
    cbn [Service.generateWithRetry Retry.attempts];
    [unfold AgentService.generateWithRetry | unfold SearchService.generateWithRetry].
  - apply (retryLoop_cost rt params 5 5 5000 w). lia.
  - apply (retryLoop_cost rt params 3 3 2000 w). lia.
Qed.

(** ** Document parsing *)

Section Documents.
Import Gemini Payload PortfolioDocument.

Lemma trimStart_whiteSpace (ws s : jsstring) :
  whiteSpace ws -> trimStart (ws ++ s) = trimStart s.
Proof.
  induction 1 as [|c ws Hc _ IH]; [reflexivity|].
  cbn [app trimStart]. now rewrite Hc.
Qed.

Lemma whiteSpace_rev (ws : jsstring) : whiteSpace ws -> whiteSpace (rev ws).
Proof. unfold whiteSpace. intros H. now apply Forall_rev. Qed.

(** Trimming removes the white space around a text whose first and last
    code units are not white space. *)
Lemma trim_solid (lead trail inner : jsstring) (a b : N) :
  whiteSpace lead -> whiteSpace trail ->
  isWhiteSpace a = false -> isWhiteSpace b = false ->
  trim (lead ++ (a :: inner ++ [b]) ++ trail) = a :: inner ++ [b].
Proof.
  intros Hl Ht Ha Hb. unfold trim, trimEnd.
  rewrite trimStart_whiteSpace by exact Hl.
  replace ((a :: inner ++ [b]) ++ trail) with (a :: inner ++ [b] ++ trail)
    by (cbn [app]; now rewrite <- app_assoc).
  cbn [trimStart]. rewrite Ha.
  replace (rev (a :: inner ++ [b] ++ trail)) with (rev trail ++ b :: rev (a :: inner)).
  - rewrite trimStart_whiteSpace by now apply whiteSpace_rev.
    cbn [trimStart]. rewrite Hb.
    change (b :: rev (a :: inner)) with ([b] ++ rev (a :: inner)).
    rewrite rev_app_distr, rev_involutive. reflexivity.
  - change (a :: inner ++ [b] ++ trail) with ((a :: inner) ++ [b] ++ trail).
    rewrite !rev_app_distr. cbn [rev app]. now rewrite <- app_assoc.
Qed.

Lemma startsWith_app (p r : jsstring) : startsWith (p ++ r) p = true.
Proof. apply startsWith_spec. now exists r. Qed.

Lemma startsWith_common (p s q : jsstring) :
  startsWith (p ++ s) (p ++ q) = startsWith s q.
Proof.
  induction p as [|c p IH]; [reflexivity|].
  cbn [app startsWith]. now rewrite N.eqb_refl, IH.
Qed.

Lemma replaceStart_app (p r : jsstring) : replaceStart p (p ++ r) = r.
Proof.
  unfold replaceStart. rewrite startsWith_app.
  induction p as [|c p IH]; [reflexivity | exact IH].
Qed.

Lemma replaceEnd_app (p r : jsstring) : replaceEnd p (r ++ p) = r.
Proof.
  unfold replaceEnd, endsWith. rewrite rev_app_distr, startsWith_app.
  rewrite length_app, Nat.add_sub. rewrite firstn_app, Nat.sub_diag.
  rewrite firstn_all. cbn [firstn]. apply app_nil_r.
Qed.

(** A text that does not start with [json] still does not once a fence
    follows it. *)
Lemma not_json_fence (body rest : jsstring) :
  startsWith body (lit "json") = false ->
  startsWith (body ++ fence ++ rest) (lit "json") = false.
Proof.
  intros H.
  destruct (startsWith (body ++ fence ++ rest) (lit "json")) eqn:E; [|reflexivity].
  exfalso. apply startsWith_spec in E as [r E].
  change (lit "json") with [106; 115; 111; 110] in *.
  change fence with [96; 96; 96] in E.
  destruct body as [|a [|b [|c [|d body]]]]; cbn [app] in E; try discriminate E.
  injection E as -> -> -> -> _.
  assert (T : startsWith (106 :: 115 :: 111 :: 110 :: body) [106; 115; 111; 110] = true)
    by (apply startsWith_spec; now exists body).
  rewrite H in T. discriminate T.
Qed.

Lemma unwrap_json_fenced (lead trail body : jsstring) :
  whiteSpace lead -> whiteSpace trail ->
  unwrap (lead ++ jsonFence ++ body ++ fence ++ trail) = body.
Proof.
  intros Hl Ht. unfold unwrap.
  replace (lead ++ jsonFence ++ body ++ fence ++ trail)
    with (lead ++ (96 :: ([96; 96; 106; 115; 111; 110] ++ body ++ [96; 96]) ++ [96])
               ++ trail)
    by (change jsonFence with [96; 96; 96; 106; 115; 111; 110];
        change fence with [96; 96; 96]; cbn [app]; now rewrite <- !app_assoc).
  rewrite trim_solid by (assumption || reflexivity). cbv zeta.
  replace (96 :: ([96; 96; 106; 115; 111; 110] ++ body ++ [96; 96]) ++ [96])
    with (jsonFence ++ body ++ fence)
    by (change jsonFence with [96; 96; 96; 106; 115; 111; 110];
        change fence with [96; 96; 96]; cbn [app]; now rewrite <- !app_assoc).
  rewrite startsWith_app, replaceStart_app. apply replaceEnd_app.
Qed.

Lemma unwrap_plain_fenced (lead trail body : jsstring) :
  whiteSpace lead -> whiteSpace trail ->
  startsWith body (lit "json") = false ->
  unwrap (lead ++ fence ++ body ++ fence ++ trail) = body.
Proof.
  intros Hl Ht Hb. unfold unwrap.
  replace (lead ++ fence ++ body ++ fence ++ trail)
    with (lead ++ (96 :: ([96; 96] ++ body ++ [96; 96]) ++ [96]) ++ trail)
    by (change fence with [96; 96; 96]; cbn [app]; now rewrite <- !app_assoc).
  rewrite trim_solid by (assumption || reflexivity). cbv zeta.
  replace (96 :: ([96; 96] ++ body ++ [96; 96]) ++ [96])
    with (fence ++ body ++ fence)
    by (change fence with [96; 96; 96]; cbn [app]; now rewrite <- !app_assoc).
  change jsonFence with (fence ++ lit "json").
  rewrite <- (app_nil_r (fence ++ body ++ fence)) at 1.
  rewrite <- !app_assoc, startsWith_common, not_json_fence by exact Hb.
  rewrite startsWith_app, replaceStart_app. apply replaceEnd_app.
Qed.

(** [parsePortfolioDocument] as a function of what its call brings back. *)
Lemma parsePortfolioDocument_result (generateWithRetry : M (option Response))
    (JSON_parse : jsstring -> option Parsed) (w : World) :
  parsePortfolioDocument generateWithRetry JSON_parse w
  = (Returned (default noAssets (parsed JSON_parse (fst (generateWithRetry w)))),
     snd (generateWithRetry w)).
Proof.
  unfold parsePortfolioDocument, try_catch, bind.
  destruct (generateWithRetry w) as [[[r|]|e] w']; cbn; try reflexivity.
  destruct (text r) as [[|c t]|]; cbn; try reflexivity.
  destruct (JSON_parse _); reflexivity.
Qed.

(** Importing a result without assets and without hints changes nothing. *)
Lemma processFile_noAssets (fileName : jsstring) (now : nat -> N)
    (prev : ClientProfile.t) :
  InputSection.processFile fileName now
    (InputSection.mkParseResult (Some []) None None) prev = prev.
Proof.
  destruct prev. unfold InputSection.processFile, ClientProfile.with_currentHoldings.
  cbn. now rewrite app_nil_r.
Qed.

End Documents.

(** X8. [parsePortfolioDocument] never throws.  When its call throws (after
    the retries), or brings back no text or an empty one, it returns
    [{ assets: [] }]; when the call brings back a text, it returns what
    [JSON.parse] makes of the text without its Markdown wrapper, and
    [{ assets: [] }] again when [JSON.parse] rejects it. *)
Theorem document_parse_never_throws
    (generateWithRetry : Gemini.M (option Gemini.Response))
    (JSON_parse : jsstring -> option PortfolioDocument.Parsed) (w : Gemini.World) :
  let res := generateWithRetry w in
  exists r,
    PortfolioDocument.parsePortfolioDocument generateWithRetry JSON_parse w
    = (Gemini.Returned r, snd res)
    /\ (Payload.noText (fst res) = true -> r = PortfolioDocument.noAssets)
    /\ (forall t, Service.textBrought (fst res) = Some t ->
        r = default PortfolioDocument.noAssets
              (JSON_parse (PortfolioDocument.unwrap t))).
Proof.
  cbv zeta. eexists. split; [apply parsePortfolioDocument_result|].
  destruct (generateWithRetry w) as [[[r|]|e] w']; cbn;
    try (split; [reflexivity | discriminate]).
  destruct (Gemini.text r) as [[|c t]|]; cbn;
    try (split; [reflexivity | discriminate]).
  split; [discriminate|]. now intros t' [= <-].
Qed.

(** X9. The Markdown wrapper is removed before the payload is parsed: a
    payload between a [```json] fence and a closing fence, with any white
    space around them, is read as the text between the fences, and so is
    a payload between two bare fences unless it starts with [json]; a
    text that, once trimmed, starts with no fence is read as trimmed. *)
Theorem unwrap_fenced (lead trail body : jsstring) :
  Payload.whiteSpace lead -> Payload.whiteSpace trail ->
  PortfolioDocument.unwrap
    (lead ++ PortfolioDocument.jsonFence ++ body ++ PortfolioDocument.fence ++ trail)
  = body
  /\ (startsWith body (lit "json") = false ->
      PortfolioDocument.unwrap
        (lead ++ PortfolioDocument.fence ++ body ++ PortfolioDocument.fence ++ trail)
      = body)
  /\ (startsWith (trim body) PortfolioDocument.fence = false ->
      PortfolioDocument.unwrap body = trim body).
Proof.
  intros Hl Ht. split; [|split].
  - now apply unwrap_json_fenced.
  - now apply unwrap_plain_fenced.
  - intros H. unfold PortfolioDocument.unwrap. cbv zeta. rewrite H.
    destruct (startsWith (trim body) PortfolioDocument.jsonFence) eqn:E; [|reflexivity].
    apply startsWith_spec in E as [r E].
    assert (T : startsWith (trim body) PortfolioDocument.fence = true).
    { apply startsWith_spec. exists (lit "json" ++ r). rewrite E. reflexivity. }
    congruence.
Qed.

Lemma unwrap_fenced_witness :
  Payload.whiteSpace [10] /\ Payload.whiteSpace [32; 10]
  /\ PortfolioDocument.unwrap
       ([10] ++ PortfolioDocument.jsonFence ++ Sample.payload
             ++ PortfolioDocument.fence ++ [32; 10])
     = Sample.payload.
Proof.
  assert (H1 : Payload.whiteSpace [10]) by (repeat constructor).
  assert (H2 : Payload.whiteSpace [32; 10]) by (repeat constructor).
  split; [exact H1|]. split; [exact H2|].
  exact (proj1 (unwrap_fenced [10] [32; 10] Sample.payload H1 H2)).
Defined.

(** X10. An import never leaves [processFile] with an error and always
    ends the upload.  When the file itself cannot be read, no call is made
    and the "analysis failed" alert is raised.  Once the file is read,
    [parsePortfolioDocument] does not throw, but the value it resolves
    with is not checked: when that value is [null], or when its [assets]
    is not an array, reading it throws inside the [try] and the "analysis
    failed" alert is raised as well; the alert is raised in no other case.
    Whenever an import fails in one of these ways, and whenever the call
    brings back nothing that parses (then the "no asset could be read"
    alert is shown), the profile and its holdings are left as they were. *)
Theorem import_failure_keeps_profile
    (generateWithRetry : Gemini.M (option Gemini.Response))
    (JSON_parse : jsstring -> option PortfolioDocument.Parsed)
    (fileName : jsstring) (now : nat -> N) (prev : ClientProfile.t)
    (w : Gemini.World) :
  let document :=
    PortfolioDocument.parsePortfolioDocument generateWithRetry JSON_parse in
  let res := generateWithRetry w in
  let parsed :=
    default PortfolioDocument.noAssets (Payload.parsed JSON_parse (fst res)) in
  (exists out,
      FileImport.processFile true document fileName now prev w
      = (Gemini.Returned out, snd res)
      /\ FileImport.isUploading out = false
      /\ (In FileImport.AnalysisFailed (FileImport.alerts out)
          <-> Payload.unreadable parsed = true)
      /\ (Payload.unreadable parsed = true ->
          FileImport.profileAfter out = prev
          /\ FileImport.alerts out = [FileImport.AnalysisFailed])
      /\ (Payload.parsed JSON_parse (fst res) = None ->
          FileImport.profileAfter out = prev
          /\ FileImport.alerts out = [FileImport.NoAssetsRead])
      /\ (forall parseResult,
            parsed = PortfolioDocument.Result parseResult ->
            FileImport.profileAfter out
            = InputSection.processFile fileName now parseResult prev
            /\ FileImport.alerts out
               = if (List.length (default [] (InputSection.assets parseResult)) =? 0)%nat
                 then [FileImport.NoAssetsRead] else []))
  /\ FileImport.processFile false document fileName now prev w
     = (Gemini.Returned (FileImport.mkOutcome prev [FileImport.AnalysisFailed] false), w).
Proof.
  cbv zeta. split; [|reflexivity].
  unfold FileImport.processFile. rewrite parsePortfolioDocument_result.
  assert (L : forall l : list Asset.t,
            List.length (InputSection.newAssetsWithIds fileName now l) = List.length l)
    by (intros l; unfold InputSection.newAssetsWithIds; apply length_imap).
  destruct (Payload.parsed JSON_parse (fst (generateWithRetry w))) as [[| |r]|];
    cbn [default PortfolioDocument.noAssets];
    eexists; (split; [reflexivity|]);
    cbn [FileImport.isUploading FileImport.alerts FileImport.profileAfter
         Payload.unreadable];
    (split; [reflexivity|]).
  - split; [split; [reflexivity | intros _; now left]|].
    split; [now split|]. split; [discriminate | discriminate].
  - split; [split; [reflexivity | intros _; now left]|].
    split; [now split|]. split; [discriminate | discriminate].
  - rewrite L. split.
    { split; [|discriminate]. destruct (_ =? _)%nat; cbn; intuition discriminate. }
    split; [discriminate|]. split; [discriminate|].
    intros parseResult [= <-]. split; reflexivity.
  - cbn [InputSection.assets default List.length Nat.eqb].
    rewrite processFile_noAssets. split.
    { split; [|discriminate]. cbn. intuition discriminate. }
    split; [discriminate|]. split; [now split|].
    intros parseResult [= <-]. rewrite processFile_noAssets. split; reflexivity.
Qed.

(** A document that the model answers with the text "null", or with an
    [assets] that is no array, is read, and its import ends with the
    "analysis failed" alert; one with an asset is imported. *)
Example import_of_null :
  fst (FileImport.processFile true
         (PortfolioDocument.parsePortfolioDocument (Sample.parseCall (lit "null"))
            Sample.parseImport)
         (lit "statement.pdf") Sample.clock (Sample.profile []) Gemini.start)
  = Gemini.Returned
      (FileImport.mkOutcome (Sample.profile []) [FileImport.AnalysisFailed] false)
  /\ fst (FileImport.processFile true
            (PortfolioDocument.parsePortfolioDocument
               (Sample.parseCall Sample.assetsNone) Sample.parseImport)
            (lit "statement.pdf") Sample.clock (Sample.profile []) Gemini.start)
     = Gemini.Returned
         (FileImport.mkOutcome (Sample.profile []) [FileImport.AnalysisFailed] false)
  /\ exists out,
       fst (FileImport.processFile true
              (PortfolioDocument.parsePortfolioDocument
                 (Sample.parseCall Sample.payload) Sample.parseImport)
              (lit "statement.pdf") Sample.clock (Sample.profile []) Gemini.start)
       = Gemini.Returned out
       /\ FileImport.alerts out = []
       /\ map Asset.name (ClientProfile.currentHoldings (FileImport.profileAfter out))
          = [lit "Sony"].
Proof.
  split; [reflexivity|]. split; [reflexivity|].
  eexists. split; [reflexivity|]. split; reflexivity.
Qed.

(** ** The import merge *)

Section ImportMerge.
Import InputSection.

Lemma string_of_uint_digits (d : Decimal.uint) :
  Forall (fun c => isDigit c = true) (lit (DecimalString.NilEmpty.string_of_uint d)).
Proof.
  induction d; cbn [DecimalString.NilEmpty.string_of_uint lit list_ascii_of_string map];
    constructor; (reflexivity || exact IHd).
Qed.

Lemma showN_digits (n : N) : Forall (fun c => isDigit c = true) (showN n).
Proof.
  unfold showN, NilZero.string_of_uint.
  destruct (N.to_uint n) eqn:E; try (rewrite <- E; apply string_of_uint_digits).
  repeat constructor.
Qed.

(** Two renderings [digits-digits] are equal only part by part. *)
Lemma dashed_inj (a1 a2 b1 b2 : jsstring) :
  Forall (fun c => isDigit c = true) a1 ->
  Forall (fun c => isDigit c = true) a2 ->
  a1 ++ lit "-" ++ b1 = a2 ++ lit "-" ++ b2 -> a1 = a2 /\ b1 = b2.
Proof.
  intros H1. revert a2. induction H1 as [|c a1 Hc _ IH]; intros a2 H2 E.
  - destruct H2 as [|d a2 Hd _]; cbn in E.
    + injection E as E. now split.
    + injection E as <- _. discriminate Hd.
  - destruct H2 as [|d a2 Hd H2]; cbn in E.
    + injection E as -> _. discriminate Hc.
    + injection E as -> E. apply IH in E as [-> ->]; [now split | exact H2].
Qed.

(** The identifier minted for the element at [index]. *)
Lemma imported_id_inj (now : nat -> N) (i j : nat) :
  lit "imported-" ++ showN (now i) ++ lit "-" ++ showN (N.of_nat i)
  = lit "imported-" ++ showN (now j) ++ lit "-" ++ showN (N.of_nat j) ->
  i = j.
Proof.
  intros E. apply app_inv_head in E.
  apply dashed_inj in E as [_ E]; try apply showN_digits.
  apply showN_inj in E. lia.
Qed.

Lemma newAssetsWithIds_ids (fileName : jsstring) (now : nat -> N) (l : list Asset.t) :
  NoDup (map Asset.id (newAssetsWithIds fileName now l)).
Proof.
  unfold newAssetsWithIds.
  rewrite (imap_index_map
             (fun index a =>
                Asset.with_description (Some (lit "Imported from " ++ fileName))
                  (Asset.with_id (lit "imported-" ++ showN (now index) ++ lit "-"
                                    ++ showN (N.of_nat index)) a))
             Asset.id
             (fun index => lit "imported-" ++ showN (now index) ++ lit "-"
                             ++ showN (N.of_nat index))
             l) by reflexivity.
  match goal with |- NoDup (map ?f ?l) => change (NoDup (f <$> l)) end.
  apply NoDup_fmap_2; [|apply NoDup_seq].
  intros i j. apply imported_id_inj.
Qed.

End ImportMerge.

(** X11. An import only appends.  The holdings present before the import
    are kept, unchanged and in their order, whatever hints the document
    carries; the assets read from the document follow them in the order
    of the document, each with its name, amount, quantity and profit/loss
    as read, with the note "Imported from <file>", and with identifiers
    that are pairwise distinct within the import even when the clock does
    not advance. *)
Theorem import_appends (fileName : jsstring) (now : nat -> N)
    (parseResult : InputSection.ParseResult) (prev : ClientProfile.t) :
  let extracted := default [] (InputSection.assets parseResult) in
  exists imported,
    ClientProfile.currentHoldings
      (InputSection.processFile fileName now parseResult prev)
    = ClientProfile.currentHoldings prev ++ imported
    /\ NoDup (map Asset.id imported)
    /\ map Asset.name imported = map Asset.name extracted
    /\ map Asset.amount imported = map Asset.amount extracted
    /\ map Asset.quantity imported = map Asset.quantity extracted
    /\ map Asset.profitLoss imported = map Asset.profitLoss extracted
    /\ Forall (fun a => Asset.description a = Some (lit "Imported from " ++ fileName))
              imported.
Proof.
  cbv zeta.
  exists (InputSection.newAssetsWithIds fileName now
            (default [] (InputSection.assets parseResult))).
  split; [reflexivity|]. split; [apply newAssetsWithIds_ids|].
  unfold InputSection.newAssetsWithIds.
  repeat split; try (apply imap_project; reflexivity).
  apply imap_Forall. reflexivity.
Qed.

(** ** Resolution against the closed lists *)

Section ClosedLists.
Import InputSection Resolution.

Lemma find_lookup_first {A : Type} (f : A -> bool) (l : list A) (i : nat) (x : A) :
  l !! i = Some x -> f x = true ->
  (forall j y, (j < i)%nat -> l !! j = Some y -> f y = false) ->
  List.find f l = Some x.
Proof.
  revert i. induction l as [|a l IH]; intros [|i] Hl Hx Hj; try discriminate Hl.
  - injection Hl as ->. cbn [List.find]. now rewrite Hx.
  - cbn [List.find]. rewrite (Hj 0%nat a) by (lia || reflexivity).
    apply (IH i); [exact Hl | exact Hx |].
    intros j y Hlt Hy. apply (Hj (S j) y); [lia | exact Hy].
Qed.

Lemma forallb_lookup {A : Type} (f : A -> bool) (l : list A) (i : nat) (x : A) :
  forallb f l = true -> l !! i = Some x -> f x = true.
Proof.
  revert i. induction l as [|a l IH]; intros [|i] H Hl; try discriminate Hl;
    cbn [forallb] in H; apply andb_true_iff in H as [Ha H].
  - injection Hl as <-. exact Ha.
  - now apply (IH i).
Qed.

Lemma prefectures_truthy : forallb truthy PREFECTURES = true.
Proof. reflexivity. Qed.

Lemma prefectures_fixed :
  forallb (fun pref => JS.eqb (matchRegion pref) pref) PREFECTURES = true.
Proof. vm_compute. reflexivity. Qed.

(** The result of the region search is a prefecture of the list, or the
    hint when the search finds nothing. *)
Lemma matchRegion_range (hint : jsstring) :
  In (matchRegion hint) PREFECTURES \/ matchRegion hint = hint.
Proof.
  unfold matchRegion.
  destruct (List.find _ PREFECTURES) as [m|] eqn:F; [|now right].
  apply find_some in F as [Hin _].
  pose proof prefectures_truthy as T. rewrite forallb_forall in T.
  unfold orElse. rewrite (T m Hin). now left.
Qed.

Lemma includes_prefix (s p q : jsstring) :
  includes s (p ++ q) = true -> includes s p = true.
Proof.
  rewrite !includes_spec. intros [a [b ->]]. exists a, (q ++ b).
  now rewrite <- app_assoc.
Qed.

Lemma includes_self (s : jsstring) : includes s s = true.
Proof. apply includes_spec. exists [], []. cbn. now rewrite app_nil_r. Qed.

End ClosedLists.

(** X4. Region resolution takes the first match in the order of the
    prefecture list: a hint resolves to the prefecture at index [i] when
    that prefecture matches it (one contains the other) and no prefecture
    before it in the list does.  So the hint "京都", which is a substring
    of "東京都" (index 12), resolves to "東京都" and not to "京都府". *)
Theorem matchRegion_first (hint pref : jsstring) (i : nat) :
  InputSection.PREFECTURES !! i = Some pref ->
  Resolution.matches hint pref = true ->
  (forall j other, (j < i)%nat -> InputSection.PREFECTURES !! j = Some other ->
     Resolution.matches hint other = false) ->
  InputSection.matchRegion hint = pref.
Proof.
  intros Hl Hm Hfirst. unfold InputSection.matchRegion.
  rewrite (find_lookup_first (fun pref => includes hint pref || includes pref hint)
             _ i pref Hl Hm Hfirst).
  unfold orElse. now rewrite (forallb_lookup _ _ _ _ prefectures_truthy Hl).
Qed.

Lemma matchRegion_first_witness :
  InputSection.PREFECTURES !! 12%nat = Some Sample.tokyo
  /\ Resolution.matches Sample.kyotoHint Sample.tokyo = true
  /\ InputSection.matchRegion Sample.kyotoHint = Sample.tokyo.
Proof.
  split; [reflexivity|]. split; [reflexivity|].
  apply (matchRegion_first Sample.kyotoHint Sample.tokyo 12);
    [reflexivity | reflexivity |].
  intros j other Hj Hl.
  do 12 (destruct j as [|j]; [injection Hl as <-; reflexivity|]).
  lia.
Defined.

(** X22. Every prefecture of the list resolves to itself, so a region that
    was resolved once is not changed by resolving it again. *)
Theorem region_resolution_stable :
  (forall pref, In pref InputSection.PREFECTURES -> InputSection.matchRegion pref = pref)
  /\ (forall hint,
        InputSection.matchRegion (InputSection.matchRegion hint)
        = InputSection.matchRegion hint).
Proof.
  assert (Fix : forall pref, In pref InputSection.PREFECTURES ->
                             InputSection.matchRegion pref = pref).
  { intros pref Hin. pose proof prefectures_fixed as F.
    rewrite forallb_forall in F. apply eqb_eq. now apply F. }
  split; [exact Fix|].
  intros hint. destruct (matchRegion_range hint) as [Hin | E].
  - now apply Fix.
  - now rewrite !E.
Qed.

Lemma filter_sublist {A : Type} (f : A -> bool) (l : list A) :
  sublist (List.filter f l) l.
Proof.
  induction l as [|a l IH]; [constructor|].
  cbn [List.filter]. destruct (f a); now constructor.
Qed.

(** X24. The suggestions under the region field are the prefectures that
    contain what was typed, in the order of the list: they are the list of
    prefectures (which has no duplicate) with the others left out, so two
    of them are shown in the order they have in the list.  All 47 are
    shown for an empty field, and exactly the prefecture itself once a
    full prefecture name is typed; for "島" they are 福島県, 島根県,
    広島県, 徳島県 and 鹿児島県, in this order.  Typing writes the text
    into the profile as it is, and picking a suggestion writes a region
    that the import resolution keeps. *)
Theorem region_suggestions (input : jsstring) (st : InputSection.RegionField) :
  let typed := InputSection.handleRegionChange input st in
  ClientProfile.region (InputSection.regionProfile typed) = input
  /\ (forall pref,
        In pref (InputSection.filteredPrefectures typed)
        <-> In pref InputSection.PREFECTURES /\ includes pref input = true)
  /\ sublist (InputSection.filteredPrefectures typed) InputSection.PREFECTURES
  /\ NoDup InputSection.PREFECTURES
  /\ InputSection.filteredPrefectures (InputSection.handleRegionChange [0x5CF6] st)
     = [ [0x798F; 0x5CF6; 0x770C]; [0x5CF6; 0x6839; 0x770C]; [0x5E83; 0x5CF6; 0x770C];
         [0x5FB3; 0x5CF6; 0x770C]; [0x9E7F; 0x5150; 0x5CF6; 0x770C] ]
  /\ (input = [] -> InputSection.filteredPrefectures typed = InputSection.PREFECTURES)
  /\ (In input InputSection.PREFECTURES ->
      InputSection.filteredPrefectures typed = [input])
  /\ (forall pref,
        In pref (InputSection.filteredPrefectures typed) ->
        let picked := InputSection.selectRegion pref typed in
        ClientProfile.region (InputSection.regionProfile picked) = pref
        /\ InputSection.matchRegion pref = pref).
Proof.
  cbv zeta. unfold InputSection.handleRegionChange.
  cbn [InputSection.regionProfile InputSection.filteredPrefectures].
  split; [now destruct (InputSection.regionProfile st)|].
  split; [intros pref;
          exact (filter_In (fun p => includes p input) pref InputSection.PREFECTURES)|].
  split; [apply filter_sublist|].
  split; [apply (bool_decide_unpack _); vm_compute; exact I|].
  split; [vm_compute; reflexivity|].
  split; [intros ->; reflexivity|].
  split.
  - intros Hin.
    assert (F : forallb (fun pref =>
                           bool_decide
                             (List.filter (fun p => includes p pref) InputSection.PREFECTURES
                              = [pref]))
                        InputSection.PREFECTURES = true)
      by (vm_compute; reflexivity).
    rewrite forallb_forall in F. apply (bool_decide_unpack _). apply Is_true_true.
    now apply F.
  - intros pref Hin. apply filter_In in Hin as [Hin _].
    split; [now destruct (InputSection.regionProfile st)|].
    pose proof prefectures_fixed as F. rewrite forallb_forall in F.
    apply eqb_eq. now apply F.
Qed.

(** X23. The family structure "独身 (子供あり)" is one of the options of
    the form, but no import resolves to it: the search takes the first
    option the hint contains, and every hint that contains it contains
    "独身", which comes first; such a hint resolves to "独身". *)
Theorem matchFamily_never_single_parent (hint : jsstring) :
  In Resolution.singleParent InputSection.FAMILY_OPTIONS
  /\ InputSection.matchFamily hint <> Resolution.singleParent
  /\ (includes hint Resolution.singleParent = true ->
      InputSection.matchFamily hint = Resolution.single).
Proof.
  split; [right; left; reflexivity|].
  assert (P : includes hint Resolution.singleParent = true ->
              includes hint Resolution.single = true).
  { apply (includes_prefix hint Resolution.single
             [0x0020; 0x0028; 0x5B50; 0x4F9B; 0x3042; 0x308A; 0x0029]). }
  unfold InputSection.matchFamily, InputSection.FAMILY_OPTIONS.
  change [0x72EC; 0x8EAB] with Resolution.single.
  change [0x72EC; 0x8EAB; 0x0020; 0x0028; 0x5B50; 0x4F9B; 0x3042; 0x308A; 0x0029]
    with Resolution.singleParent.
  cbn [List.find].
  destruct (includes hint Resolution.single) eqn:E1.
  - split; [discriminate | reflexivity].
  - destruct (includes hint Resolution.singleParent) eqn:E2;
      [specialize (P eq_refl); discriminate P|].
    split; [|discriminate].
    repeat match goal with
           | |- context [if includes hint ?o then _ else _] =>
               destruct (includes hint o); [discriminate|]
           end.
    intros ->. rewrite includes_self in E2. discriminate E2.
Qed.

(** ** Rows addressed by identifier *)

Section RowsById.
Context {A : Type} (key : A -> jsstring).

Lemma lookup_key_elem (l : list A) (i : nat) (h : A) :
  l !! i = Some h -> key h ∈ map key l.
Proof.
  intros H. change (map key l) with (key <$> l).
  apply list_elem_of_fmap_2. now apply list_elem_of_lookup_2 with i.
Qed.

Lemma map_other_ids (f : A -> A) (k : jsstring) (l : list A) :
  k ∉ map key l ->
  map (fun x => if JS.eqb (key x) k then f x else x) l = l.
Proof.
  induction l as [|a l IH]; [reflexivity|].
  cbn [map]. intros H. apply not_elem_of_cons in H as [Ha Hl].
  destruct (JS.eqb (key a) k) eqn:E; [apply eqb_eq in E; congruence|].
  f_equal. now apply IH.
Qed.

Lemma filter_other_ids (k : jsstring) (l : list A) :
  k ∉ map key l ->
  List.filter (fun x => negb (JS.eqb (key x) k)) l = l.
Proof.
  induction l as [|a l IH]; [reflexivity|].
  cbn [map List.filter]. intros H. apply not_elem_of_cons in H as [Ha Hl].
  destruct (JS.eqb (key a) k) eqn:E; [apply eqb_eq in E; congruence|].
  cbn [negb]. f_equal. now apply IH.
Qed.

Lemma filter_removes (k : jsstring) (l : list A) :
  k ∉ map key (List.filter (fun x => negb (JS.eqb (key x) k)) l).
Proof.
  induction l as [|a l IH]; cbn [List.filter map]; [apply not_elem_of_nil|].
  destruct (JS.eqb (key a) k) eqn:E; cbn [negb]; [exact IH|].
  cbn [map]. apply not_elem_of_cons. split; [|exact IH].
  apply eqb_neq in E. congruence.
Qed.

(** With distinct identifiers, the update by identifier is the update of
    one position. *)
Lemma map_at_id (f : A -> A) (l : list A) (i : nat) (h : A) :
  NoDup (map key l) -> l !! i = Some h ->
  map (fun x => if JS.eqb (key x) (key h) then f x else x) l = <[i := f h]> l.
Proof.
  revert i. induction l as [|a l IH]; intros [|i] Hd Hl; try discriminate Hl;
    cbn [map] in Hd; apply NoDup_cons in Hd as [Ha Hd]; cbn [map].
  - injection Hl as ->. rewrite eqb_refl. cbn. f_equal. now apply map_other_ids.
  - cbn in Hl. pose proof (lookup_key_elem l i h Hl) as Hin.
    destruct (JS.eqb (key a) (key h)) eqn:E;
      [apply eqb_eq in E; rewrite E in Ha; contradiction|].
    cbn. f_equal. now apply IH.
Qed.

(** With distinct identifiers, the removal by identifier is the removal of
    one position. *)
Lemma filter_at_id (l : list A) (i : nat) (h : A) :
  NoDup (map key l) -> l !! i = Some h ->
  List.filter (fun x => negb (JS.eqb (key x) (key h))) l = delete i l.
Proof.
  revert i. induction l as [|a l IH]; intros [|i] Hd Hl; try discriminate Hl;
    cbn [map] in Hd; apply NoDup_cons in Hd as [Ha Hd]; cbn [List.filter].
  - injection Hl as ->. rewrite eqb_refl. cbn. now apply filter_other_ids.
  - cbn in Hl. pose proof (lookup_key_elem l i h Hl) as Hin.
    destruct (JS.eqb (key a) (key h)) eqn:E;
      [apply eqb_eq in E; rewrite E in Ha; contradiction|].
    cbn. f_equal. now apply IH.
Qed.

Lemma filter_keys_sub (f : A -> bool) (k : jsstring) (l : list A) :
  k ∉ map key l -> k ∉ map key (List.filter f l).
Proof.
  induction l as [|a l IH]; [easy|].
  cbn [map List.filter]. intros H. apply not_elem_of_cons in H as [Ha Hl].
  destruct (f a); [|now apply IH].
  cbn [map]. apply not_elem_of_cons. split; [exact Ha | now apply IH].
Qed.

Lemma NoDup_filter_keys (f : A -> bool) (l : list A) :
  NoDup (map key l) -> NoDup (map key (List.filter f l)).
Proof.
  induction l as [|a l IH]; [easy|].
  cbn [map List.filter]. intros H. apply NoDup_cons in H as [Ha Hl].
  destruct (f a); [|now apply IH].
  cbn [map]. apply NoDup_cons. split; [now apply filter_keys_sub | now apply IH].
Qed.

Lemma map_keeps_keys (f : A -> A) (k : jsstring) (l : list A) :
  (forall x, key (f x) = key x) ->
  map key (map (fun x => if JS.eqb (key x) k then f x else x) l) = map key l.
Proof.
  intros H. induction l as [|a l IH]; [reflexivity|].
  cbn [map]. rewrite IH. f_equal. destruct (JS.eqb (key a) k); [apply H | reflexivity].
Qed.

End RowsById.

Lemma with_currentHoldings_same (p : ClientProfile.t) :
  ClientProfile.with_currentHoldings (ClientProfile.currentHoldings p) p = p.
Proof. now destruct p. Qed.

Lemma setField_id (fv : InputSection.FieldValue) (h : Asset.t) :
  Asset.id (InputSection.setField fv h) = Asset.id h.
Proof. now destruct fv. Qed.

(** X12. In a holdings ledger whose identifiers are pairwise distinct, an
    edit of the row with the identifier of the entry at position [i]
    rewrites that position only, and its removal deletes that position
    only; the other entries and every other field of the profile are
    left as they are.  An edit never changes the identifiers or the order
    of the ledger, and an edit or a removal under an identifier that is
    not in the ledger changes nothing. *)
Theorem holding_row_by_position (p : ClientProfile.t) (i : nat) (h : Asset.t)
    (fv : InputSection.FieldValue) :
  NoDup (map Asset.id (ClientProfile.currentHoldings p)) ->
  ClientProfile.currentHoldings p !! i = Some h ->
  InputSection.updateHoldingRow (Asset.id h) fv p
  = ClientProfile.with_currentHoldings
      (<[i := InputSection.setField fv h]> (ClientProfile.currentHoldings p)) p
  /\ InputSection.removeHolding (Asset.id h) p
     = ClientProfile.with_currentHoldings
         (delete i (ClientProfile.currentHoldings p)) p
  /\ (forall id,
        map Asset.id
          (ClientProfile.currentHoldings (InputSection.updateHoldingRow id fv p))
        = map Asset.id (ClientProfile.currentHoldings p))
  /\ (forall id, id ∉ map Asset.id (ClientProfile.currentHoldings p) ->
        InputSection.updateHoldingRow id fv p = p
        /\ InputSection.removeHolding id p = p).
Proof.
  intros Hd Hl. unfold InputSection.updateHoldingRow, InputSection.removeHolding.
  split; [|split; [|split]].
  - now rewrite (map_at_id Asset.id (InputSection.setField fv) _ i h Hd Hl).
  - now rewrite (filter_at_id Asset.id _ i h Hd Hl).
  - intros id. destruct p. cbn [ClientProfile.currentHoldings
                                  ClientProfile.with_currentHoldings].
    apply map_keeps_keys. apply setField_id.
  - intros id Hid.
    rewrite (map_other_ids Asset.id _ id _ Hid), (filter_other_ids Asset.id id _ Hid).
    split; apply with_currentHoldings_same.
Qed.

Lemma holding_row_by_position_witness :
  NoDup (map Asset.id [Sample.holding "a" 100 10; Sample.holding "b" 200 (-20)])
  /\ InputSection.removeHolding (lit "b")
       (Sample.profile [Sample.holding "a" 100 10; Sample.holding "b" 200 (-20)])
     = Sample.profile [Sample.holding "a" 100 10].
Proof.
  assert (Hd : NoDup (map Asset.id
                        [Sample.holding "a" 100 10; Sample.holding "b" 200 (-20)])).
  { apply (bool_decide_unpack _). vm_compute. exact I. }
  split; [exact Hd|].
  exact (proj1 (proj2
           (holding_row_by_position
              (Sample.profile [Sample.holding "a" 100 10; Sample.holding "b" 200 (-20)])
              1 (Sample.holding "b" 200 (-20))
              (InputSection.amount_ (ofZ 0)) Hd eq_refl))).
Defined.

(** X13. The same holds of the proposed-assets ledger: with pairwise
    distinct identifiers, removing the asset at position [i] by its
    identifier deletes that position only, and typing an amount for it
    either changes nothing or sets the amount of that position only, to a
    number that is not [NaN].  Typing an amount never changes the length,
    the order or the identifiers of the ledger, and a removed identifier
    is no longer in it. *)
Theorem proposed_row_by_position (prev : list Asset.t) (i : nat) (a : Asset.t)
    (val : jsstring) :
  NoDup (map Asset.id prev) ->
  prev !! i = Some a ->
  RebalanceSection.removeProposed (Asset.id a) prev = delete i prev
  /\ (RebalanceSection.updateProposedAmount (Asset.id a) val prev = prev
      \/ exists v,
           isNaN v = false
           /\ RebalanceSection.updateProposedAmount (Asset.id a) val prev
              = <[i := Asset.with_amount v a]> prev)
  /\ (forall id,
        map Asset.id (RebalanceSection.updateProposedAmount id val prev)
        = map Asset.id prev)
  /\ (forall id, id ∉ map Asset.id (RebalanceSection.removeProposed id prev)).
Proof.
  intros Hd Hl. split; [|split; [|split]].
  - apply (filter_at_id Asset.id _ i a Hd Hl).
  - unfold RebalanceSection.updateProposedAmount, RebalanceSection.setAmount.
    destruct (isNaN (parseFloat (AmountText.normalized val))) eqn:E; cbn [negb].
    + destruct (JS.eqb val []); [|now left].
      right. exists (ofZ 0). split; [reflexivity|].
      apply (map_at_id Asset.id (Asset.with_amount (ofZ 0)) _ i a Hd Hl).
    + right. eexists. split; [exact E|].
      apply (map_at_id Asset.id (Asset.with_amount _) _ i a Hd Hl).
  - intros id. unfold RebalanceSection.updateProposedAmount, RebalanceSection.setAmount.
    destruct (negb _); [|destruct (JS.eqb val [])]; try reflexivity;
      apply map_keeps_keys; reflexivity.
  - intros id. apply filter_removes.
Qed.

Lemma proposed_row_by_position_witness :
  NoDup (map Asset.id [Sample.holding "a" 100 10; Sample.holding "b" 200 (-20)])
  /\ RebalanceSection.removeProposed (lit "a")
       [Sample.holding "a" 100 10; Sample.holding "b" 200 (-20)]
     = [Sample.holding "b" 200 (-20)].
Proof.
  assert (Hd : NoDup (map Asset.id
                        [Sample.holding "a" 100 10; Sample.holding "b" 200 (-20)])).
  { apply (bool_decide_unpack _). vm_compute. exact I. }
  split; [exact Hd|].
  exact (proj1
           (proposed_row_by_position
              [Sample.holding "a" 100 10; Sample.holding "b" 200 (-20)]
              0 (Sample.holding "a" 100 10) (lit "5") Hd eq_refl)).
Defined.

Section LedgerIds.
Import InputSection.

Lemma imported_ids_prefixed (fileName : jsstring) (now : nat -> N) (l : list Asset.t)
    (k : jsstring) :
  k ∈ map Asset.id (newAssetsWithIds fileName now l) ->
  startsWith k (lit "imported-") = true.
Proof.
  unfold newAssetsWithIds.
  rewrite (imap_index_map
             (fun index a =>
                Asset.with_description (Some (lit "Imported from " ++ fileName))
                  (Asset.with_id (lit "imported-" ++ showN (now index) ++ lit "-"
                                    ++ showN (N.of_nat index)) a))
             Asset.id
             (fun index => lit "imported-" ++ showN (now index) ++ lit "-"
                             ++ showN (N.of_nat index))
             l) by reflexivity.
  match goal with |- _ ∈ map ?f ?l -> _ => change (map f l) with (f <$> l) end.
  intros H. apply list_elem_of_fmap_1 in H as [i [-> _]].
  apply startsWith_app.
Qed.

End LedgerIds.

(** X21. The operations of the holdings ledger and the distinctness of its
    identifiers, which the edits and removals by identifier rely on.
    Edits and removals keep the identifiers distinct.  Adding a holding
    keeps them distinct when the clock reading is not yet an identifier
    of the ledger, and an import does when no holding of the ledger has an
    identifier that starts with "imported-".  Nothing checks it, though:
    two holdings added at the same clock reading get the same identifier. *)
Theorem holding_ids_distinct (p : ClientProfile.t) :
  NoDup (map Asset.id (ClientProfile.currentHoldings p)) ->
  (forall id fv,
      NoDup (map Asset.id
               (ClientProfile.currentHoldings (InputSection.updateHoldingRow id fv p))))
  /\ (forall id,
        NoDup (map Asset.id
                 (ClientProfile.currentHoldings (InputSection.removeHolding id p))))
  /\ (forall newHolding now,
        showN now ∉ map Asset.id (ClientProfile.currentHoldings p) ->
        NoDup (map Asset.id
                 (ClientProfile.currentHoldings
                    (InputSection.addHolding newHolding now p))))
  /\ (forall fileName now parseResult,
        (forall id, id ∈ map Asset.id (ClientProfile.currentHoldings p) ->
                    startsWith id (lit "imported-") = false) ->
        NoDup (map Asset.id
                 (ClientProfile.currentHoldings
                    (InputSection.processFile fileName now parseResult p))))
  /\ (forall first second now,
        truthy (Asset.name first) = true -> truthy (Asset.name second) = true ->
        ~ NoDup (map Asset.id
                   (ClientProfile.currentHoldings
                      (InputSection.addHolding second now
                         (InputSection.addHolding first now p))))).
Proof.
  intros Hd. split; [|split; [|split; [|split]]].
  - intros id fv. destruct p. unfold InputSection.updateHoldingRow.
    cbn [ClientProfile.currentHoldings ClientProfile.with_currentHoldings] in *.
    rewrite (map_keeps_keys Asset.id) by apply setField_id. exact Hd.
  - intros id. destruct p. unfold InputSection.removeHolding.
    cbn [ClientProfile.currentHoldings ClientProfile.with_currentHoldings] in *.
    now apply NoDup_filter_keys.
  - intros newHolding now Hnew. unfold InputSection.addHolding.
    destruct (truthy (Asset.name newHolding)); [|exact Hd].
    destruct p.
    cbn [ClientProfile.currentHoldings ClientProfile.with_currentHoldings] in *.
    rewrite map_app. apply NoDup_app. split; [exact Hd|]. split.
    + intros k Hk Hin. cbn in Hin. apply list_elem_of_singleton in Hin. now subst k.
    + cbn. apply NoDup_singleton.
  - intros fileName now parseResult Hold.
    assert (E : ClientProfile.currentHoldings
                  (InputSection.processFile fileName now parseResult p)
                = ClientProfile.currentHoldings p
                  ++ InputSection.newAssetsWithIds fileName now
                       (default [] (InputSection.assets parseResult)))
      by reflexivity.
    rewrite E, map_app. apply NoDup_app. split; [exact Hd|]. split.
    + intros k Hk Hin. apply imported_ids_prefixed in Hin.
      rewrite (Hold k Hk) in Hin. discriminate Hin.
    + apply newAssetsWithIds_ids.
  - intros first second now H1 H2. unfold InputSection.addHolding.
    rewrite H1. destruct p.
    cbn [ClientProfile.currentHoldings ClientProfile.with_currentHoldings Asset.name].
    rewrite H2.
    cbn [ClientProfile.currentHoldings ClientProfile.with_currentHoldings].
    rewrite !map_app. cbn [map Asset.id Asset.with_confidence Asset.with_id].
    rewrite <- app_assoc. intros N. apply NoDup_app in N as [_ [_ N]].
    cbn [app] in N. apply NoDup_cons in N as [N _]. apply N. now left.
Qed.

Lemma holding_ids_distinct_witness :
  NoDup (map Asset.id [Sample.holding "a" 100 10; Sample.holding "b" 200 (-20)])
  /\ NoDup (map Asset.id
              (ClientProfile.currentHoldings
                 (InputSection.removeHolding (lit "a")
                    (Sample.profile
                       [Sample.holding "a" 100 10; Sample.holding "b" 200 (-20)]))))
  /\ ~ NoDup (map Asset.id
                (ClientProfile.currentHoldings
                   (InputSection.addHolding (Sample.holding "" 70 7) 1700000000002
                      (InputSection.addHolding (Sample.holding "" 300 (-50)) 1700000000002
                         (Sample.profile
                            [Sample.holding "a" 100 10; Sample.holding "b" 200 (-20)]))))).
Proof.
  assert (Hd : NoDup (map Asset.id
                        [Sample.holding "a" 100 10; Sample.holding "b" 200 (-20)])).
  { apply (bool_decide_unpack _). vm_compute. exact I. }
  destruct (holding_ids_distinct
              (Sample.profile [Sample.holding "a" 100 10; Sample.holding "b" 200 (-20)])
              Hd) as [_ [Hr [_ [_ Ha]]]].
  split; [exact Hd|]. split; [apply Hr|]. apply Ha; reflexivity.
Defined.

(** ** The proposal-scope panel *)

Section Scope.
Import InputSection.

Lemma detailsOf_toggled (type sub : jsstring) (prev : ProposalSettings.t) :
  detailsOf type (toggleSubCategory type sub prev)
  = if existsb (fun d => JS.eqb d sub) (detailsOf type prev)
    then List.filter (fun d => negb (JS.eqb d sub)) (detailsOf type prev)
    else detailsOf type prev ++ [sub].
Proof.
  unfold toggleSubCategory, detailsOf at 1. cbn [ProposalSettings.proposalDetails].
  now rewrite lookup_insert_eq.
Qed.

Lemma detailsOf_toggled_other (type sub other : jsstring) (prev : ProposalSettings.t) :
  other <> type ->
  detailsOf other (toggleSubCategory type sub prev) = detailsOf other prev.
Proof.
  intros H. unfold toggleSubCategory, detailsOf. cbn [ProposalSettings.proposalDetails].
  rewrite lookup_insert_ne by congruence.
  destruct (ProposalSettings.proposalDetails prev); [reflexivity|].
  cbn [default]. now rewrite lookup_empty.
Qed.

Lemma existsb_eqb_In (sub : jsstring) (l : list jsstring) :
  existsb (fun d => JS.eqb d sub) l = true <-> In sub l.
Proof.
  rewrite existsb_exists. split.
  - intros [d [Hin E]]. apply eqb_eq in E. now subst d.
  - intros H. exists sub. split; [exact H | apply eqb_refl].
Qed.

Lemma toggled_membership (type sub d : jsstring) (prev : ProposalSettings.t) :
  In d (detailsOf type (toggleSubCategory type sub prev))
  <-> (d <> sub /\ In d (detailsOf type prev))
      \/ (d = sub /\ ~ In sub (detailsOf type prev)).
Proof.
  rewrite detailsOf_toggled.
  destruct (existsb _ (detailsOf type prev)) eqn:E.
  - apply existsb_eqb_In in E. rewrite filter_In, negb_true_iff, eqb_neq. split.
    + intros [Hin Hne]. left. now split.
    + intros [[Hne Hin] | [-> Hn]]; [now split | contradiction].
  - assert (Hn : ~ In sub (detailsOf type prev)).
    { intros H. apply existsb_eqb_In in H. congruence. }
    rewrite in_app_iff. cbn [In]. split.
    + intros [Hin | [<- | []]].
      * left. split; [|exact Hin]. intros ->. contradiction.
      * right. now split.
    + intros [[_ Hin] | [-> _]]; [now left | right; now left].
Qed.

Lemma In_jsstring_dec (d : jsstring) (l : list jsstring) : In d l \/ ~ In d l.
Proof.
  destruct (existsb (fun x => JS.eqb x d) l) eqn:E.
  - left. now apply existsb_eqb_In.
  - right. intros H. apply existsb_eqb_In in H. congruence.
Qed.

Lemma gt_zero_false : gt (ofZ 0) (ofZ 0) = false.
Proof. reflexivity. Qed.

(** The count the count field enters is 1, a number above 1, or the
    positive infinity. *)
Lemma Math_max_one (parsed : number) :
  let count := Math_max (ofZ 1) (if truthyNum parsed then parsed else ofZ 1) in
  gt (orZero count) (ofZ 0) = true.
Proof.
  cbv zeta. destruct parsed as [|[|]|q]; try reflexivity.
  cbn [truthyNum]. destruct (Qc_is_zero q) eqn:Z; cbn [negb]; [reflexivity|].
  unfold Math_max, ofZ. cbn [gt]. destruct (Qcltb _ q) eqn:L; [|reflexivity].
  apply Qcltb_spec in L.
  assert (P : (0 < q)%Qc).
  { eapply Qclt_trans; [|exact L]. reflexivity. }
  rewrite orZero_Num. now apply gt_Num_0.
Qed.

Lemma gt_orZero (c : number) : gt (orZero c) (ofZ 0) = gt c (ofZ 0).
Proof.
  destruct c as [|[|]|q]; try reflexivity.
  unfold orZero, truthyNum. destruct (Qc_is_zero q) eqn:Z; cbn [negb]; [|reflexivity].
  apply Qc_is_zero_spec in Z. now subst q.
Qed.

(** The classes named in the request are the classes whose box is checked. *)
Lemma requests_checked (s : ProposalSettings.t) (type : jsstring) :
  is_Some (Recommendation.requests s !! type) <-> isChecked type s = true.
Proof.
  unfold Recommendation.requests, isChecked, countOf. rewrite map_lookup_imap.
  destruct (ProposalSettings.proposalCounts s !! type) as [c|]; cbn.
  - rewrite gt_orZero. destruct (gt c (ofZ 0)); split; intros H;
      try reflexivity; try discriminate H; try (now eexists).
    now destruct H.
  - split; [intros [x H]; discriminate H | discriminate].
Qed.

End Scope.

(** X14. Selecting a sub-category flips the selection of that sub-category
    in that asset class and nothing else: the counts, the selections of
    the other asset classes and the selection of every other sub-category
    of the class stay as they are.  Selecting it twice restores the
    selection of the class (as a set: a re-selected tag moves to the end
    of the list). *)
Theorem toggle_subcategory_flips (type sub : jsstring) (prev : ProposalSettings.t) :
  let next := InputSection.toggleSubCategory type sub prev in
  ProposalSettings.proposalCounts next = ProposalSettings.proposalCounts prev
  /\ (forall other, other <> type ->
        InputSection.detailsOf other next = InputSection.detailsOf other prev)
  /\ (In sub (InputSection.detailsOf type next)
      <-> ~ In sub (InputSection.detailsOf type prev))
  /\ (forall d, d <> sub ->
        (In d (InputSection.detailsOf type next)
         <-> In d (InputSection.detailsOf type prev)))
  /\ (forall d,
        In d (InputSection.detailsOf type (InputSection.toggleSubCategory type sub next))
        <-> In d (InputSection.detailsOf type prev)).
Proof.
  cbv zeta. split; [reflexivity|]. split; [|split; [|split]].
  - intros other H. now apply detailsOf_toggled_other.
  - rewrite toggled_membership. intuition congruence.
  - intros d Hd. rewrite toggled_membership. intuition congruence.
  - intros d.
    pose proof (toggled_membership type sub sub prev) as Hs.
    pose proof (toggled_membership type sub d prev) as Hd.
    rewrite (toggled_membership type sub d (InputSection.toggleSubCategory type sub prev)).
    destruct (In_jsstring_dec sub (InputSection.detailsOf type prev)) as [H | H];
      destruct (JS.eqb d sub) eqn:E;
      [apply eqb_eq in E; subst d | apply eqb_neq in E
      |apply eqb_eq in E; subst d | apply eqb_neq in E]; tauto.
Qed.

(** X15. A count of 0 and an absent key are the same to every reader of the
    proposal counts: the box of the asset class is unchecked, the class is
    left out of the request for recommendations, ticking the box sets the
    count to 1, and the count field enters the same settings.  In general
    the classes named in the request are exactly the classes whose box is
    checked. *)
Theorem count_zero_is_absent (type : jsstring) (s : ProposalSettings.t) :
  let zero := ProposalSettings.mk (<[type := ofZ 0]> (ProposalSettings.proposalCounts s))
                (ProposalSettings.proposalDetails s) in
  let absent := ProposalSettings.mk (delete type (ProposalSettings.proposalCounts s))
                  (ProposalSettings.proposalDetails s) in
  InputSection.isChecked type zero = false
  /\ InputSection.isChecked type absent = false
  /\ Recommendation.requests zero = Recommendation.requests absent
  /\ Recommendation.requests zero !! type = None
  /\ InputSection.toggleProposalType type zero = InputSection.toggleProposalType type absent
  /\ InputSection.isChecked type (InputSection.toggleProposalType type zero) = true
  /\ (forall parsed,
        InputSection.countFieldChange type parsed zero
        = InputSection.countFieldChange type parsed absent)
  /\ (forall other,
        is_Some (Recommendation.requests s !! other)
        <-> InputSection.isChecked other s = true).
Proof.
  cbv zeta. pose proof (requests_checked s) as Last.
  unfold InputSection.isChecked, InputSection.countOf, InputSection.toggleProposalType,
    InputSection.countFieldChange, InputSection.handleProposalCountChange,
    Recommendation.requests.
  cbn [ProposalSettings.proposalCounts ProposalSettings.proposalDetails].
  rewrite !lookup_insert_eq, !lookup_delete_eq. cbn [orZeroOpt].
  split; [reflexivity|]. split; [reflexivity|].
  split; [|split; [|split; [|split; [|split]]]].
  - apply map_eq. intros k. rewrite !map_lookup_imap.
    destruct (decide (k = type)) as [->|Hk].
    + now rewrite lookup_insert_eq, lookup_delete_eq.
    + now rewrite lookup_insert_ne, lookup_delete_ne by congruence.
  - now rewrite map_lookup_imap, lookup_insert_eq.
  - f_equal. now rewrite insert_insert_eq, insert_delete_eq.
  - reflexivity.
  - intros parsed. f_equal. now rewrite insert_insert_eq, insert_delete_eq.
  - exact Last.
Qed.

(** X16. The count field cannot uncheck an asset class: whatever is typed
    (nothing, zero, a negative number, text), the count it enters is at
    least 1, so the box stays checked; only the count of that class is
    written, and the box is unchecked by ticking it. *)
Theorem count_field_keeps_checked (type : jsstring) (parsed : number)
    (prev : ProposalSettings.t) :
  let next := InputSection.countFieldChange type parsed prev in
  InputSection.isChecked type next = true
  /\ ProposalSettings.proposalDetails next = ProposalSettings.proposalDetails prev
  /\ (forall other, other <> type ->
        ProposalSettings.proposalCounts next !! other
        = ProposalSettings.proposalCounts prev !! other)
  /\ InputSection.isChecked type (InputSection.toggleProposalType type next) = false.
Proof.
  cbv zeta.
  unfold InputSection.isChecked, InputSection.countOf, InputSection.toggleProposalType,
    InputSection.countFieldChange, InputSection.handleProposalCountChange.
  cbn [ProposalSettings.proposalCounts ProposalSettings.proposalDetails].
  rewrite !lookup_insert_eq. cbn [orZeroOpt].
  pose proof (Math_max_one parsed) as M. cbv zeta in M. rewrite M.
  repeat split.
  intros other H. now rewrite lookup_insert_ne by congruence.
Qed.

(** ** The chat edit, once more *)

Section ChatEdit.

Lemma with_bodyText_same (slide : SlideContent.t) (t : jsstring) :
  SlideContent.bodyText slide = Some t -> SlideContent.with_bodyText t slide = slide.
Proof. destruct slide. cbn. now intros ->. Qed.

Lemma textBrought_truthy (res : Gemini.outcome (option Gemini.Response)) (t : jsstring) :
  Service.textBrought res = Some t -> truthy t = true.
Proof.
  destruct res as [[r|]|e]; cbn; try discriminate.
  destruct (Gemini.text r) as [[|c s]|]; cbn; try discriminate.
  now intros [= <-].
Qed.

End ChatEdit.

(** X17. A chat edit never blanks a slide: on a slide that has a text, the
    text after the edit is not empty (it is what the rewrite brought back,
    which is used only when it is not empty, or the former text).  When
    the model rejects every call the document handed to [onUpdate] is the
    document as it was. *)
Theorem chat_edit_never_blanks (svc : Service.t) (rt : Gemini.Runtime)
    (data : PresentationData.t) (currentSlideIndex : nat)
    (currentSlide : SlideContent.t) (chatInput : jsstring) (w : Gemini.World) :
  truthy chatInput = true ->
  PresentationData.slides data !! currentSlideIndex = Some currentSlide ->
  truthyOpt (SlideContent.bodyText currentSlide) = true ->
  exists newData updatedText w',
    SlideEditor.handleChatSubmit (Service.aiTextEdit svc rt) data currentSlideIndex
      chatInput w = (Gemini.Returned (Some newData), w')
    /\ PresentationData.slides newData
       = <[currentSlideIndex := SlideContent.with_bodyText updatedText currentSlide]>
           (PresentationData.slides data)
    /\ truthy updatedText = true
    /\ (Service.alwaysThrows rt -> newData = data).
Proof.
  intros Hin Hcur Hbody.
  destruct (SlideContent.bodyText currentSlide) as [former|] eqn:B; [|discriminate].
  cbn [truthyOpt] in Hbody.
  unfold SlideEditor.handleChatSubmit. rewrite Hin, Hcur. cbn [negb].
  unfold Gemini.bind. rewrite aiTextEdit_result. cbv zeta. rewrite B.
  unfold orElseOpt, orElse. rewrite Hbody.
  eexists. eexists. eexists. split; [reflexivity|].
  cbn [PresentationData.with_slides PresentationData.slides].
  split; [reflexivity|]. split.
  - destruct (Service.textBrought _) as [t|] eqn:T; cbn [default]; [|exact Hbody].
    now apply textBrought_truthy in T.
  - intros Hthrow.
    assert (G : match fst (Service.generateWithRetry svc rt
                             (Service.textEditRequest svc former chatInput) w) with
                | Gemini.Returned (Some _) => False
                | _ => True
                end)
      by (destruct svc; apply retryLoop_alwaysThrows, Hthrow).
    assert (T : Service.textBrought
                  (fst (Service.generateWithRetry svc rt
                          (Service.textEditRequest svc former chatInput) w)) = None).
    { destruct (fst _) as [[r|]|e]; [contradiction | reflexivity | reflexivity]. }
    rewrite T. cbn [default].
    rewrite (with_bodyText_same _ _ B), (list_insert_id _ _ _ Hcur).
    now destruct data.
Qed.

Lemma chat_edit_never_blanks_witness :
  exists newData updatedText w',
    SlideEditor.handleChatSubmit (Service.aiTextEdit Service.Agent Sample.failing)
      Sample.document 1 (lit "shorter") Gemini.start
    = (Gemini.Returned (Some newData), w')
    /\ PresentationData.slides newData
       = <[1%nat := SlideContent.with_bodyText updatedText
                      (Sample.slide Disclaimer (Some (lit "Not advice.")) None)]>
           (PresentationData.slides Sample.document)
    /\ truthy updatedText = true.
Proof.
  destruct (chat_edit_never_blanks Service.Agent Sample.failing Sample.document 1
              (Sample.slide Disclaimer (Some (lit "Not advice.")) None)
              (lit "shorter") Gemini.start eq_refl eq_refl eq_refl)
    as [newData [updatedText [w' [E [S [T _]]]]]].
  exists newData, updatedText, w'. auto.
Defined.

(** ** The three steps of the application *)

Section Steps.
Import App Steps.

Lemma length_zero_nil {A : Type} (l : list A) :
  (List.length l =? 0)%nat = false -> l <> [].
Proof. now destruct l. Qed.

Lemma initial_shape : shape initial.
Proof.
  unfold shape, initial. cbn.
  repeat split; intros; try congruence; try lia.
Qed.

Ltac shape_fields :=
  cbn [step profile settings presentationData isGenerating pending proposedAssets
       alerts Nat.pred] in *.

Ltac shape_solve :=
  repeat split; intros; subst;
  try congruence; try lia; try tauto;
  try solve [eauto]; try solve [intuition (eauto; congruence)].

Lemma dispatch_shape (ev : Event) (st : State) :
  shape st -> shape (dispatch ev st).
Proof.
  destruct st as [stp prof sett pa pd gen pend al].
  intros Hst. pose proof Hst as [H1 [H2 [H3 [H4 [H5 [H6 H7]]]]]].
  shape_fields.
  destruct ev as [p s| |assets|result|newData|]; unfold dispatch, view; shape_fields.
  - destruct stp;
      [|destruct prof, sett; exact Hst
       |destruct pd as [c|]; [destruct (truthyCast c)|]; exact Hst].
    destruct (_ =? 0)%nat eqn:L; [exact Hst|].
    apply length_zero_nil in L.
    unfold handleInputComplete, shape. shape_fields. shape_solve.
  - destruct stp;
      [exact Hst | destruct prof, sett; try exact Hst
       |destruct pd as [c|]; [destruct (truthyCast c)|]; exact Hst].
    unfold setStep, shape. shape_fields. shape_solve.
  - destruct stp;
      [exact Hst | destruct prof, sett; try exact Hst
       |destruct pd as [c|]; [destruct (truthyCast c)|]; exact Hst].
    destruct gen; cbn [orb]; [exact Hst|].
    destruct (_ =? 0)%nat eqn:L; [exact Hst|].
    apply length_zero_nil in L.
    assert (P0 : pend = 0%nat).
    { destruct pend as [|[|n]]; [reflexivity | |lia].
      destruct H4 as [_ H4]. specialize (H4 eq_refl). discriminate H4. }
    subst pend.
    unfold handleRebalanceComplete_called, shape. shape_fields. shape_solve.
  - destruct (pend =? 0)%nat eqn:P; [exact Hst|].
    apply Nat.eqb_neq in P.
    assert (P1 : pend = 1%nat) by lia. subst pend.
    destruct (H2 P) as [Hp Hs].
    destruct result as [data|e]; unfold handleRebalanceComplete_settled, shape;
      shape_fields; shape_solve.
  - unfold handleUpdate, shape. shape_fields. shape_solve.
  - destruct stp;
      [exact Hst | destruct prof, sett; exact Hst
       |destruct pd as [c|]; [destruct (truthyCast c)|]; try exact Hst].
    assert (E : editor <> input) by discriminate.
    destruct (H1 E) as [Hp Hs].
    unfold setStep, shape. shape_fields. shape_solve.
Qed.

Lemma run_shape (events : list Event) : shape (run events).
Proof.
  unfold run. induction events as [|ev events IH] using rev_ind.
  - apply initial_shape.
  - rewrite fold_left_app. cbn [fold_left]. now apply dispatch_shape.
Qed.

(** The value a state holds was given by an event. *)
Lemma dispatch_documented (ev : Event) (st : State) :
  documented ev ->
  (forall data, presentationData st = Some data -> isDocument data = true) ->
  forall data, presentationData (dispatch ev st) = Some data -> isDocument data = true.
Proof.
  intros Hev Hst.
  destruct ev as [p s| |assets|result|newData|]; unfold dispatch.
  - destruct (view st); try exact Hst.
    destruct (_ =? 0)%nat; exact Hst.
  - destruct (view st); exact Hst.
  - destruct (view st); try exact Hst.
    destruct (isGenerating st || _); [exact Hst|].
    unfold handleRebalanceComplete_called.
    destruct (profile st), (settings st); exact Hst.
  - destruct (pending st =? 0)%nat; [exact Hst|].
    destruct result as [data|e]; cbn [handleRebalanceComplete_settled presentationData].
    + intros d [= <-]. exact Hev.
    + exact Hst.
  - cbn [handleUpdate presentationData]. now intros d [= <-].
  - destruct (view st); exact Hst.
Qed.

Lemma run_documented (events : list Event) :
  Forall documented events ->
  forall data, presentationData (run events) = Some data -> isDocument data = true.
Proof.
  unfold run. induction events as [|ev events IH] using rev_ind; intros H.
  - discriminate.
  - apply Forall_app in H as [H1 H2]. rewrite fold_left_app. cbn [fold_left].
    apply dispatch_documented; [now inversion H2 | now apply IH].
Qed.

End Steps.

(** X18. As long as every generation that settles resolves with a
    document or throws, the application always shows one of its three
    sections, and the editor on a document.  Without that condition it
    shows none of its sections in one situation only, the editor step
    with a falsy presentation value, which is where it is left when a
    generation resolves with a falsy value such as [null]; when a
    generation resolves with a truthy value that is no document, such as
    the empty object, the editor is mounted on that value.  The
    re-balancing step is never reached without a profile and settings.
    The progress overlay is shown exactly while one generation is pending,
    and there is never more than one; a generation is only started for a
    profile with at least one holding and with at least one proposed
    asset. *)
Theorem app_sections (events : list App.Event) :
  let st := App.run events in
  (Forall Steps.documented events ->
   App.view st <> App.Nothing
   /\ (App.view st = App.EditorView ->
       exists d, App.presentationData st = Some (Typed d)))
  /\ (App.view st = App.Nothing ->
      App.step st = App.editor
      /\ exists data, App.presentationData st = Some data /\ truthyCast data = false)
  /\ App.view (App.run (Sample.session (Gemini.Returned (Untyped JSON.null))))
     = App.Nothing
  /\ (let st0 := App.run (Sample.session (Gemini.Returned (Untyped (JSON.object [])))) in
      App.view st0 = App.EditorView
      /\ App.presentationData st0 = Some (Untyped (JSON.object [])))
  /\ (App.isGenerating st = true <-> App.pending st = 1%nat)
  /\ (App.pending st <= 1)%nat
  /\ (forall p, App.profile st = Some p -> ClientProfile.currentHoldings p <> [])
  /\ (App.isGenerating st = true -> App.proposedAssets st <> []).
Proof.
  cbv zeta. destruct (run_shape events) as [H1 [H2 [H3 [H4 [H5 [H6 H7]]]]]].
  assert (B : App.view (App.run events) = App.Nothing ->
              App.step (App.run events) = App.editor
              /\ exists data, App.presentationData (App.run events) = Some data
                              /\ truthyCast data = false).
  { unfold App.view. destruct (App.step (App.run events)) eqn:S.
    - discriminate.
    - destruct H1 as [Hp Hs]; [congruence|].
      destruct (App.profile _); [|congruence]. destruct (App.settings _); [|congruence].
      discriminate.
    - specialize (H3 eq_refl).
      destruct (App.presentationData _) as [data|]; [|congruence].
      destruct (truthyCast data) eqn:T; [discriminate|]. eauto. }
  split.
  { intros D. pose proof (run_documented events D) as RD. split.
    - intros V. destruct (B V) as [_ [data [P T]]].
      specialize (RD data P). destruct data; discriminate.
    - unfold App.view. destruct (App.step (App.run events)).
      + discriminate.
      + destruct (App.profile _); [|discriminate].
        destruct (App.settings _); discriminate.
      + destruct (App.presentationData _) as [data|]; [|discriminate].
        specialize (RD data eq_refl). destruct data; [eauto | discriminate]. }
  split; [exact B|]. split; [reflexivity|]. split; [split; reflexivity|].
  repeat split; try assumption; apply H4.
Qed.

(** X19. The "generation failed" alert of the application is never raised
    by a generation that ends: [generateInvestmentProposal] does not throw,
    so the application always moves to the editor step, with the overlay
    removed, and holds the value the service resolved with.  The editor is
    shown when that value is truthy, as every document is, and nothing is
    shown when it is falsy.  When the model rejects every call, the editor
    opens on the fallback document. *)
Theorem generation_lands_in_editor (svc : Service.t) (rt : Gemini.Runtime) (fuel : nat)
    (profile : ClientProfile.t) (proposedAssets : list Asset.t)
    (settings : ProposalSettings.t) (w w' : Gemini.World)
    (result : Gemini.outcome (Cast PresentationData.t)) (st : App.State) :
  Generation.proposal svc rt fuel profile proposedAssets settings w = Some (result, w') ->
  App.pending st = 1%nat ->
  let st' := App.dispatch (App.Settled result) st in
  App.step st' = App.editor
  /\ App.alerts st' = App.alerts st
  /\ App.isGenerating st' = false
  /\ App.pending st' = 0%nat
  /\ (exists data,
        result = Gemini.Returned data
        /\ App.presentationData st' = Some data
        /\ App.view st' = if truthyCast data then App.EditorView else App.Nothing)
  /\ (Service.alwaysThrows rt ->
      App.presentationData st' = Some (Typed Gemini.getMockProposal)
      /\ App.view st' = App.EditorView).
Proof.
  intros G P.
  assert (R : exists generation,
             result = Gemini.Returned
                        (default (Typed Gemini.getMockProposal)
                           (Service.documentBrought rt
                              (fst (Service.generateWithRetry svc rt
                                      (fst generation) (snd generation)))))).
  { destruct svc; cbn [Generation.proposal] in G.
    - destruct (AgentService.deepResearch rt fuel profile proposedAssets w)
        as [[report w1]|] eqn:D.
      + rewrite (agent_pipeline_result _ _ _ _ _ _ _ _ D) in G.
        injection G as <- _. eexists (_, _). reflexivity.
      + rewrite (agent_pipeline_pending _ _ _ _ _ _ D) in G. discriminate G.
    - rewrite search_pipeline_result in G. injection G as <- _.
      eexists (_, _). reflexivity. }
  destruct R as [[params w1] ->]. cbn [fst snd].
  cbv zeta. unfold App.dispatch. rewrite P. cbn [Nat.eqb].
  unfold App.handleRebalanceComplete_settled, App.view.
  cbn [App.step App.presentationData App.alerts App.isGenerating App.pending].
  rewrite P. repeat split.
  - eexists. repeat split.
  - now rewrite alwaysThrows_no_document.
  - now rewrite alwaysThrows_no_document.
Qed.

Lemma generation_lands_in_editor_witness :
  exists st',
    st' = App.run (Sample.session (Gemini.Returned (Typed Gemini.getMockProposal)))
    /\ App.step st' = App.editor
    /\ App.presentationData st' = Some (Typed Gemini.getMockProposal)
    /\ App.view st' = App.EditorView.
Proof.
  eexists. split; [reflexivity|].
  destruct (generation_lands_in_editor Service.Search Sample.failing 0
              (Sample.profile [Sample.holding "h1" 100 10]) [Sample.candidate]
              Sample.settings Gemini.start
              (snd (SearchService.generateInvestmentProposal Sample.failing
                      (Sample.profile [Sample.holding "h1" 100 10]) [Sample.candidate]
                      Sample.settings Gemini.start))
              (Gemini.Returned (Typed Gemini.getMockProposal))
              (App.run [App.Next (Sample.profile [Sample.holding "h1" 100 10])
                                 Sample.settings;
                        App.GenerateReport [Sample.candidate]])
              eq_refl eq_refl) as [H1 [_ [_ [_ [[data [E [H2 H3]]] _]]]]].
  split; [exact H1|]. injection E as <-. split; [exact H2 | exact H3].
Defined.

(** ** The exported deck *)

(** X20. The PowerPoint export writes one slide per slide of the document,
    in order, and names the file after the client.  Of a slide it reads
    the type, the title, the subtitle, the body text and the bullet
    points; a table reaches the deck on a FundamentalAnalysis slide only
    (the sell and buy rows of a RebalanceProposal slide do not), and the
    chart data, the notes, the sources and the AI analysis never do. *)
Theorem export_reads (data : PresentationData.t) :
  let deck := PptxExport.exportToPPT data in
  snd deck = lit "Proposal_" ++ PresentationData.clientName data ++ lit ".pptx"
  /\ List.length (fst deck) = List.length (PresentationData.slides data)
  /\ (forall i, fst deck !! i
                = PptxExport.slideItems <$> PresentationData.slides data !! i)
  /\ (forall slide,
        PptxExport.slideItems slide = PptxExport.slideItems (Deck.exported slide))
  /\ (forall slide,
        existsb Deck.isTable (PptxExport.slideItems slide) = true
        <-> SlideContent.type slide = FundamentalAnalysis
            /\ SlideContent.tableData slide <> None).
Proof.
  cbv zeta. unfold PptxExport.exportToPPT. cbn [fst snd].
  split; [reflexivity|]. split; [apply length_map|]. split; [|split].
  - intros i. apply (list_lookup_fmap PptxExport.slideItems).
  - intros [id type title subtitle bodyText bulletPoints tableData chartData
             notes sources aiAnalysis].
    destruct type; reflexivity.
  - intros [id type title subtitle bodyText bulletPoints tableData chartData
             notes sources aiAnalysis].
    unfold PptxExport.slideItems, PptxExport.bodyItems.
    cbn [SlideContent.type SlideContent.tableData SlideContent.bodyText
         SlideContent.bulletPoints SlideContent.title SlideContent.subtitle].
    destruct type; destruct bodyText as [[|c b]|]; destruct bulletPoints;
      destruct tableData; cbn;
      (split;
       [ intros H; first [discriminate H | split; [reflexivity | discriminate]]
       | intros [H1 H2]; first [discriminate H1 | congruence | reflexivity] ]).
Qed.
